(** * The chat front end's API service (frontend/src/api/api.js)

    A shallow embedding of [getAIMessage], [formatBackendResponse] and the
    three formatters it dispatches to, over a model of the JavaScript values
    that [response.json()] can hand to them, followed by the properties of
    the response normaliser and of the session bookkeeping.

    Strings are kept as their UTF-8 bytes.  A thrown JavaScript exception is
    an explicit [Throw] outcome; the [console.log] calls have no effect on
    any value and are left out. *)

From Stdlib Require Import String Ascii List Bool Arith ZArith.
From Stdlib Require Import Decimal DecimalFacts DecimalNat DecimalString.
Import ListNotations.
Open Scope string_scope.

(** ** Values *)

(** What [JSON.parse] builds.  A number is carried by the text that
    [Number.prototype.toString] gives for it (["9.99"], ["0"], ["-3"],
    ["1e+21"], ["Infinity"]): the service only ever interpolates a number,
    tests it for truthiness or compares it with zero, and each of these is
    read off that text.  An object is its list of own properties, the first
    binding of a key being the live one. *)
#[warnings="-register-all"]
Inductive json : Type :=
| JNull
| JBool (b : bool)
| JNum (text : string)
| JStr (s : string)
| JArr (items : list json)
| JObj (fields : list (string * json)).

(** A JavaScript value in this program: [None] is [undefined]. *)
Definition value : Type := option json.

Definition undefined : value := None.
Definition null : value := Some JNull.
Definition str (s : string) : value := Some (JStr s).

(** ** Exceptions and the result monad *)

Inductive exn : Type :=
| TypeError (message : string)
| SyntaxError (message : string)
| Error (message : string).

(** [error.message] *)
Definition exn_message (e : exn) : string :=
  match e with
  | TypeError m | SyntaxError m | Error m => m
  end.

Inductive result (A : Type) : Type :=
| Ok (a : A)
| Throw (e : exn).

Arguments Ok {A} a.
Arguments Throw {A} e.

Definition bind {A B : Type} (m : result A) (k : A -> result B) : result B :=
  match m with
  | Ok a => k a
  | Throw e => Throw e
  end.

Notation "x <- m ;; k" := (bind m (fun x => k))
  (at level 61, m at next level, right associativity).

Definition returns {A : Type} (m : result A) : bool :=
  match m with
  | Ok _ => true
  | Throw _ => false
  end.

(** ** Text helpers *)

Definition LF : string := String (ascii_of_nat 10) EmptyString.

(** Decimal text of a natural number, as [String(n)] prints an array index
    or a length. *)
Definition render (n : nat) : string := NilZero.string_of_uint (Nat.to_uint n).

(** [s.includes(t)] *)
Fixpoint includes (t s : string) : bool :=
  prefix t s ||
  match s with
  | EmptyString => false
  | String _ s' => includes t s'
  end.

(** Number of UTF-16 code units of a string given by its UTF-8 bytes: one
    per code point, two for a code point outside the basic plane (which is
    the one whose first byte is 0xF0 or above). *)
Fixpoint utf16_length (s : string) : nat :=
  match s with
  | EmptyString => 0
  | String c s' =>
      let b := nat_of_ascii c in
      ((if (b <? 128) || (192 <=? b) then (if 240 <=? b then 2 else 1) else 0)
       + utf16_length s')%nat
  end.

Module JS.

(** *** Truthiness, property reads *)

(** ToBoolean *)
Definition truthy (v : value) : bool :=
  match v with
  | None | Some JNull => false
  | Some (JBool b) => b
  | Some (JNum t) => negb (t =? "0") && negb (t =? "NaN")
  | Some (JStr s) => negb (s =? "")
  | Some (JArr _) | Some (JObj _) => true
  end.

Fixpoint assoc (k : string) (fields : list (string * json)) : value :=
  match fields with
  | [] => None
  | (k', v) :: rest => if k =? k' then Some v else assoc k rest
  end.

(** The value of property [k] of a value that is neither [undefined] nor
    [null], for the property names this service reads: the payload's field
    names and [length].  None of those names is on [Object.prototype],
    [Array.prototype] or a primitive's prototype apart from [length], so an
    object answers with its own property and everything else with
    [undefined]. *)
Definition own (j : json) (k : string) : value :=
  match j with
  | JObj fields => assoc k fields
  | JArr items =>
      if k =? "length" then Some (JNum (render (length items))) else None
  | JStr s =>
      if k =? "length" then Some (JNum (render (utf16_length s))) else None
  | _ => None
  end.

(** [v.k]; the message is V8's. *)
Definition get (v : value) (k : string) : result value :=
  match v with
  | None =>
      Throw (TypeError
        ("Cannot read properties of undefined (reading '" ++ k ++ "')"))
  | Some JNull =>
      Throw (TypeError
        ("Cannot read properties of null (reading '" ++ k ++ "')"))
  | Some j => Ok (own j k)
  end.

(** [v?.k] *)
Definition get_optional (v : value) (k : string) : value :=
  match v with
  | None | Some JNull => None
  | Some j => own j k
  end.

(** [a || b] *)
Definition or_else (a b : value) : value := if truthy a then a else b.

(** *** ToString *)

Definition not_primitive : exn :=
  TypeError "Cannot convert object to primitive value".

Definition has_key (k : string) (fields : list (string * json)) : bool :=
  match assoc k fields with
  | Some _ => true
  | None => false
  end.

Definition concat_items (sep : string) (parts : list string) : string :=
  String.concat sep parts.

(** The texts that [Array.prototype.join] puts together: [null] gives the
    empty text, any other item its ToString, here [item_text]. *)
Fixpoint join_parts (item_text : json -> result string) (items : list json)
    : result (list string) :=
  match items with
  | [] => Ok []
  | x :: rest =>
      s <- match x with
           | JNull => Ok ""
           | _ => item_text x
           end ;;
      ss <- join_parts item_text rest ;;
      Ok (s :: ss)
  end.

(** ToString of a parsed value.  An array prints through
    [Array.prototype.join] with a comma.  A plain object prints as
    [[object Object]] through the inherited [toString]; an own property
    named [toString] shadows it with something that cannot be called, and
    then the conversion throws. *)
Fixpoint to_string (j : json) : result string :=
  match j with
  | JNull => Ok "null"
  | JBool true => Ok "true"
  | JBool false => Ok "false"
  | JNum t => Ok t
  | JStr s => Ok s
  | JArr items =>
      parts <- join_parts to_string items ;; Ok (concat_items "," parts)
  | JObj fields =>
      if has_key "toString" fields then Throw not_primitive
      else Ok "[object Object]"
  end.

(** The conversion of a template substitution [${v}], and of [v + "..."]. *)
Definition ToString (v : value) : result string :=
  match v with
  | None => Ok "undefined"
  | Some j => to_string j
  end.

(** *** Comparison with zero *)

(** [v === 0]: only the number zero is; [-0] prints as ["0"] too. *)
Definition strictly_zero (v : value) : bool :=
  match v with
  | Some (JNum t) => t =? "0"
  | _ => false
  end.

(** [n > 0] for a number, from its text. *)
Definition number_positive (t : string) : bool :=
  negb (t =? "0") && negb (t =? "NaN") && negb (prefix "-" t).

(** StrWhiteSpaceChar: the ASCII blanks and line ends, and the UTF-8 forms
    of U+00A0, U+1680, U+2000 to U+200A, U+2028, U+2029, U+202F, U+205F,
    U+3000 and U+FEFF. *)
Definition blank1 (x : nat) : bool :=
  ((9 <=? x) && (x <=? 13) || (x =? 32))%nat.

Definition blank2 (x y : nat) : bool :=
  ((x =? 194) && (y =? 160))%nat.

Definition blank3 (x y z : nat) : bool :=
  ((x =? 225) && (y =? 154) && (z =? 128)
   || (x =? 226) && (y =? 128)
      && ((128 <=? z) && (z <=? 138) || (z =? 168) || (z =? 169) || (z =? 175))
   || (x =? 226) && (y =? 129) && (z =? 159)
   || (x =? 227) && (y =? 128) && (z =? 128)
   || (x =? 239) && (y =? 187) && (z =? 191))%nat.

Fixpoint skip_blanks (s : string) : string :=
  match s with
  | EmptyString => s
  | String a r1 =>
      if blank1 (nat_of_ascii a) then skip_blanks r1
      else
        match r1 with
        | EmptyString => s
        | String b r2 =>
            if blank2 (nat_of_ascii a) (nat_of_ascii b) then skip_blanks r2
            else
              match r2 with
              | EmptyString => s
              | String c r3 =>
                  if blank3 (nat_of_ascii a) (nat_of_ascii b) (nat_of_ascii c)
                  then skip_blanks r3
                  else s
              end
        end
  end.

Definition only_blanks (s : string) : bool := skip_blanks s =? "".

(** The value of a digit in a base up to sixteen. *)
Definition digit_value (base : nat) (c : ascii) : option nat :=
  let x := nat_of_ascii c in
  let v := (if (48 <=? x) && (x <=? 57) then x - 48
            else if (97 <=? x) && (x <=? 102) then x - 87
            else if (65 <=? x) && (x <=? 70) then x - 55
            else 16)%nat in
  if (v <? base)%nat then Some v else None.

Fixpoint take_digits (base : nat) (s : string) : list nat * string :=
  match s with
  | EmptyString => ([], s)
  | String c r =>
      match digit_value base c with
      | Some d => let (ds, rest) := take_digits base r in (d :: ds, rest)
      | None => ([], s)
      end
  end.

Definition digits_value (base : Z) (ds : list nat) : Z :=
  fold_left (fun acc d => acc * base + Z.of_nat d)%Z ds 0%Z.

(** An optional ExponentPart: its value and what follows it; when none can
    be read the text is left as it is. *)
Definition exponent_part (s : string) : Z * string :=
  match s with
  | String c r =>
      if (c =? "e")%char || (c =? "E")%char then
        let '(negative, r') :=
          match r with
          | String "+" r' => (false, r')
          | String "-" r' => (true, r')
          | _ => (false, r)
          end in
        match take_digits 10 r' with
        | ([], _) => (0%Z, s)
        | (ds, rest) =>
            ((if negative then - digits_value 10 ds else digits_value 10 ds)%Z,
             rest)
        end
      else (0%Z, s)
  | EmptyString => (0%Z, s)
  end.

(** Whether an unsigned StrDecimalLiteral followed by blanks only denotes a
    number above zero.  A literal rounds to a double above zero exactly when
    it is above half the least subnormal, 2^-1075 (the tie goes to zero). *)
Definition decimal_positive (s : string) : bool :=
  if prefix "Infinity" s then only_blanks (substring 8 (String.length s - 8) s)
  else
    let '(whole, r1) := take_digits 10 s in
    let '(frac, r2) :=
      match r1 with
      | String "." r => take_digits 10 r
      | _ => ([], r1)
      end in
    match (whole ++ frac)%list with
    | [] => false
    | ds =>
        let '(e, r3) := exponent_part r2 in
        let m := digits_value 10 ds in
        let scale := (e - Z.of_nat (List.length frac))%Z in
        only_blanks r3
        && (0 <? m)%Z
        && ((0 <=? scale) || (10 ^ (- scale) <? m * 2 ^ 1075))%Z
    end.

Definition radix_positive (base : nat) (s : string) : bool :=
  match take_digits base s with
  | ([], _) => false
  | (ds, rest) => only_blanks rest && (0 <? digits_value (Z.of_nat base) ds)%Z
  end.

(** [ToNumber(s) > 0] for a string, after the StringNumericLiteral grammar.
    Text that is no literal is NaN, and blank text is zero. *)
Definition string_positive (s : string) : bool :=
  match skip_blanks s with
  | String "0" (String c r) as t =>
      if (c =? "x")%char || (c =? "X")%char then radix_positive 16 r
      else if (c =? "o")%char || (c =? "O")%char then radix_positive 8 r
      else if (c =? "b")%char || (c =? "B")%char then radix_positive 2 r
      else decimal_positive t
  | String "+" r => decimal_positive r
  | String "-" r => false
  | t => decimal_positive t
  end.

(** [v > 0]: [undefined] is NaN, [null] is zero, [true] is one; an array or
    an object is compared through the text ToPrimitive gives it. *)
Definition greater_than_zero (v : value) : result bool :=
  match v with
  | None => Ok false
  | Some JNull => Ok false
  | Some (JBool b) => Ok b
  | Some (JNum t) => Ok (number_positive t)
  | Some (JStr s) => Ok (string_positive s)
  | Some j => s <- to_string j ;; Ok (string_positive s)
  end.

(** *** Array methods *)

Definition not_a_function (callee : string) : exn :=
  TypeError (callee ++ " is not a function").

Fixpoint forEach_from {S : Type} (callback : json -> nat -> S -> result S)
    (items : list json) (index : nat) (st : S) : result S :=
  match items with
  | [] => Ok st
  | x :: rest =>
      st' <- callback x index st ;;
      forEach_from callback rest (Datatypes.S index) st'
  end.

(** [v.forEach(callback)], the callback acting on the variables it closes
    over, here the state [st].  [callee] is the source text of [v.forEach],
    which V8 prints when [v] has no such method; no parsed value but an
    array has one that can be called. *)
Definition forEach {S : Type} (callee : string) (v : value)
    (callback : json -> nat -> S -> result S) (st : S) : result S :=
  match v with
  | Some (JArr items) => forEach_from callback items 0 st
  | Some JNull | None => _ <- get v "forEach" ;; Ok st
  | Some _ => Throw (not_a_function callee)
  end.

(** [v.join(sep)] *)
Definition join (callee : string) (v : value) (sep : string) : result string :=
  match v with
  | Some (JArr items) =>
      parts <- join_parts to_string items ;; Ok (concat_items sep parts)
  | Some JNull | None => _ <- get v "join" ;; Ok ""
  | Some _ => Throw (not_a_function callee)
  end.

End JS.

Import JS.

(** ** The service *)

(** What the chat window appends: [{ role, content }].  [content] is
    whatever the code puts there, which need not be a string. *)
Record ChatMessage : Type := { role : string; content : value }.

Definition assistant (c : value) : ChatMessage :=
  {| role := "assistant"; content := c |}.

(** The guard [x && x.length > 0] that every optional list goes through. *)
Definition nonempty (x : value) : result bool :=
  if truthy x then len <- get x "length" ;; greater_than_zero len
  else Ok false.

(** The guard [!data || !data.key || data.key.length === 0] of the two
    formatters of lists. *)
Definition nothing_listed (data : value) (key : string) : result bool :=
  if negb (truthy data) then Ok true
  else
    items <- get data key ;;
    if negb (truthy items) then Ok true
    else len <- get items "length" ;; Ok (strictly_zero len).

(** *** formatProductResults *)

(** [if (product.compatibility && ...) { formatted += ... }] *)
Definition append_compatibility (product : json) (formatted : string)
    : result string :=
  compatibility <- get (Some product) "compatibility" ;;
  shown <- nonempty compatibility ;;
  if shown then
    joined <- join "product.compatibility.join" compatibility ", " ;;
    Ok (formatted ++ "   Compatible with: " ++ joined ++ LF)
  else Ok formatted.

(** The callback of [data.products.forEach]; [formatted] is the variable
    it appends to. *)
Definition product_entry (product : json) (index : nat) (formatted : string)
    : result string :=
  name <- get (Some product) "name" ;;
  name <- ToString name ;;
  let formatted :=
    formatted ++ "**" ++ render (index + 1) ++ ". " ++ name ++ "**" ++ LF in
  id <- get (Some product) "id" ;;
  id <- ToString id ;;
  let formatted := formatted ++ "   ID: " ++ id ++ LF in
  price <- get (Some product) "price" ;;
  price <- ToString price ;;
  let formatted := formatted ++ "   Price: $" ++ price ++ LF in
  description <- get (Some product) "description" ;;
  description <- ToString description ;;
  let formatted := formatted ++ "   Description: " ++ description ++ LF in
  formatted <- append_compatibility product formatted ;;
  inStock <- get (Some product) "inStock" ;;
  Ok (formatted ++ "   In Stock: " ++ (if truthy inStock then "Yes" else "No")
        ++ LF ++ LF).

Definition formatProductResults (response : value) : result value :=
  content <- get response "content" ;;
  data <- get response "data" ;;
  none <- nothing_listed data "products" ;;
  if none then Ok (or_else content (str "No products found"))
  else
    head <- ToString content ;;
    let formatted := head ++ LF ++ LF in
    products <- get data "products" ;;
    formatted <-
      forEach "data.products.forEach" products product_entry formatted ;;
    Ok (str formatted).

(** *** formatInstallationGuide *)

Definition append_tools (step : json) (formatted : string) : result string :=
  tools <- get (Some step) "tools" ;;
  shown <- nonempty tools ;;
  if shown then
    joined <- join "step.tools.join" tools ", " ;;
    Ok (formatted ++ "   🔧 Tools needed: " ++ joined ++ LF)
  else Ok formatted.

(** The callback of the inner [forEach] over tips and over warnings. *)
Definition bullet (item : json) (index : nat) (formatted : string)
    : result string :=
  text <- to_string item ;;
  Ok (formatted ++ "      - " ++ text ++ LF).

Definition append_tips (step : json) (formatted : string) : result string :=
  tips <- get (Some step) "tips" ;;
  shown <- nonempty tips ;;
  if shown then
    forEach "step.tips.forEach" tips bullet (formatted ++ "   💡 Tips:" ++ LF)
  else Ok formatted.

Definition append_warnings (step : json) (formatted : string)
    : result string :=
  warnings <- get (Some step) "warnings" ;;
  shown <- nonempty warnings ;;
  if shown then
    forEach "step.warnings.forEach" warnings bullet
      (formatted ++ "   ⚠️ Warnings:" ++ LF)
  else Ok formatted.

(** The callback of [data.steps.forEach]. *)
Definition step_entry (step : json) (index : nat) (formatted : string)
    : result string :=
  number <- get (Some step) "step" ;;
  number <- ToString number ;;
  instruction <- get (Some step) "instruction" ;;
  instruction <- ToString instruction ;;
  let formatted :=
    formatted ++ "**Step " ++ number ++ ": " ++ instruction ++ "**" ++ LF in
  formatted <- append_tools step formatted ;;
  formatted <- append_tips step formatted ;;
  formatted <- append_warnings step formatted ;;
  Ok (formatted ++ LF).

Definition formatInstallationGuide (response : value) : result value :=
  content <- get response "content" ;;
  data <- get response "data" ;;
  none <- nothing_listed data "steps" ;;
  if none then Ok (or_else content (str "No installation steps available"))
  else
    head <- ToString content ;;
    let formatted := head ++ LF ++ LF in
    estimatedTime <- get data "estimatedTime" ;;
    estimatedTime <- ToString estimatedTime ;;
    let formatted :=
      formatted ++ "⏱️ Estimated Time: " ++ estimatedTime ++ " minutes" ++ LF in
    difficulty <- get data "difficulty" ;;
    difficulty <- ToString difficulty ;;
    let formatted := formatted ++ "📊 Difficulty: " ++ difficulty ++ LF ++ LF in
    steps <- get data "steps" ;;
    formatted <- forEach "data.steps.forEach" steps step_entry formatted ;;
    Ok (str formatted).

(** *** formatTroubleshooting *)

(** The callback of [data.possibleCauses.forEach]. *)
Definition cause_entry (cause : json) (index : nat) (formatted : string)
    : result string :=
  name <- get (Some cause) "cause" ;;
  name <- ToString name ;;
  probability <- get (Some cause) "probability" ;;
  probability <- ToString probability ;;
  let formatted :=
    formatted ++ render (index + 1) ++ ". **" ++ name ++ "** ("
      ++ probability ++ " probability)" ++ LF in
  description <- get (Some cause) "description" ;;
  description <- ToString description ;;
  let formatted := formatted ++ "   Description: " ++ description ++ LF in
  fix_ <- get (Some cause) "fix" ;;
  fix_ <- ToString fix_ ;;
  Ok (formatted ++ "   Fix: " ++ fix_ ++ LF ++ LF).

(** The callback of [solution.steps.forEach]. *)
Definition solution_step (step : json) (stepIndex : nat) (formatted : string)
    : result string :=
  text <- to_string step ;;
  Ok (formatted ++ "   " ++ render (stepIndex + 1) ++ ". " ++ text ++ LF).

Definition append_solution_steps (solution : json) (formatted : string)
    : result string :=
  steps <- get (Some solution) "steps" ;;
  shown <- nonempty steps ;;
  if shown then forEach "solution.steps.forEach" steps solution_step formatted
  else Ok formatted.

Definition append_recommendedParts (solution : json) (formatted : string)
    : result string :=
  recommendedParts <- get (Some solution) "recommendedParts" ;;
  shown <- nonempty recommendedParts ;;
  if shown then
    joined <- join "solution.recommendedParts.join" recommendedParts ", " ;;
    Ok (formatted ++ "   🛠️ Recommended Parts: " ++ joined ++ LF)
  else Ok formatted.

(** The callback of [data.suggestedSolutions.forEach]. *)
Definition solution_entry (solution : json) (index : nat)
    (formatted : string) : result string :=
  title <- get (Some solution) "title" ;;
  title <- ToString title ;;
  let formatted :=
    formatted ++ "**Solution " ++ render (index + 1) ++ ": " ++ title ++ "**"
      ++ LF in
  formatted <- append_solution_steps solution formatted ;;
  estimatedTime <- get (Some solution) "estimatedTime" ;;
  estimatedTime <- ToString estimatedTime ;;
  let formatted :=
    formatted ++ "   ⏱️ Estimated Time: " ++ estimatedTime ++ " minutes" ++ LF in
  formatted <- append_recommendedParts solution formatted ;;
  Ok (formatted ++ LF).

(** [if (data && data.key && data.key.length > 0)] *)
Definition listed (data : value) (key : string) : result bool :=
  if truthy data then items <- get data key ;; nonempty items
  else Ok false.

Definition append_possibleCauses (data : value) (formatted : string)
    : result string :=
  shown <- listed data "possibleCauses" ;;
  if shown then
    possibleCauses <- get data "possibleCauses" ;;
    forEach "data.possibleCauses.forEach" possibleCauses cause_entry
      (formatted ++ "**Possible Causes:**" ++ LF ++ LF)
  else Ok formatted.

Definition append_suggestedSolutions (data : value) (formatted : string)
    : result string :=
  shown <- listed data "suggestedSolutions" ;;
  if shown then
    suggestedSolutions <- get data "suggestedSolutions" ;;
    forEach "data.suggestedSolutions.forEach" suggestedSolutions
      solution_entry (formatted ++ "**Suggested Solutions:**" ++ LF ++ LF)
  else Ok formatted.

Definition formatTroubleshooting (response : value) : result value :=
  content <- get response "content" ;;
  data <- get response "data" ;;
  head <- ToString content ;;
  let formatted := head ++ LF ++ LF in
  formatted <- append_possibleCauses data formatted ;;
  formatted <- append_suggestedSolutions data formatted ;;
  Ok (str formatted).

(** *** formatBackendResponse *)

(** The [switch (response.type)]: a case is taken when the tag is that very
    string. *)
Definition format_by_type (response type : value) : result value :=
  match type with
  | Some (JStr tag) =>
      if tag =? "text" then get response "content"
      else if tag =? "product_results" then formatProductResults response
      else if tag =? "installation_guide" then formatInstallationGuide response
      else if tag =? "troubleshooting" then formatTroubleshooting response
      else if tag =? "out_of_scope" then get response "content"
      else if tag =? "error" then
        content <- get response "content" ;;
        content <- ToString content ;;
        Ok (str ("Error: " ++ content))
      else get response "content"
  | _ => get response "content"
  end.

Definition formatBackendResponse (data : json) : result ChatMessage :=
  success <- get (Some data) "success" ;;
  if negb (truthy success) then
    error <- get (Some data) "error" ;;
    Ok (assistant (or_else (get_optional error "message")
                           (str "An error occurred")))
  else
    response <- get (Some data) "response" ;;
    type <- get response "type" ;;
    content <- format_by_type response type ;;
    Ok (assistant content).

(** *** getAIMessage and the session *)

(** The body that is posted: [{ message, sessionId }]. *)
Record request : Type := { message : string; sessionId : value }.

(** What [response.json()] settles to. *)
Inductive body : Type :=
| Parsed (data : json)
| Unparsable (e : exn).

(** What [fetch] settles to: a rejection, or a response with its status. *)
Inductive reply : Type :=
| Rejected (e : exn)
| Response (status : nat) (b : body).

(** [response.ok] *)
Definition ok (status : nat) : bool :=
  ((200 <=? status) && (status <=? 299))%nat.

(** The module's one variable, together with the bodies posted so far
    (latest first). *)
Record page : Type := { currentSessionId : value; posted : list request }.

Definition fresh : page := {| currentSessionId := null; posted := [] |}.

Definition post (r : request) (p : page) : page :=
  {| currentSessionId := currentSessionId p; posted := r :: posted p |}.

Definition save (sid : value) (p : page) : page :=
  {| currentSessionId := sid; posted := posted p |}.

(** The [try] block.  The session id is saved before the response is
    formatted, so it stays saved when formatting throws. *)
Definition attempt (userQuery : string) (network : request -> reply)
    (p : page) : page * result ChatMessage :=
  let payload :=
    {| message := userQuery; sessionId := currentSessionId p |} in
  let p := post payload p in
  match network payload with
  | Rejected e => (p, Throw e)
  | Response status b =>
      if negb (ok status) then
        (p, Throw (Error ("Backend error: " ++ render status)))
      else
        match b with
        | Unparsable e => (p, Throw e)
        | Parsed data =>
            match get (Some data) "sessionId" with
            | Throw e => (p, Throw e)
            | Ok sid =>
                let p := if truthy sid then save sid p else p in
                (p, formatBackendResponse data)
            end
        end
  end.

(** The [catch] block. *)
Definition apology (e : exn) : ChatMessage :=
  assistant (str ("Sorry, I encountered an error: " ++ exn_message e
    ++ ". Please make sure the backend is running on http://localhost:5000")).

Definition getAIMessage (userQuery : string) (network : request -> reply)
    (p : page) : page * ChatMessage :=
  match attempt userQuery network p with
  | (p', Ok formattedMessage) => (p', formattedMessage)
  | (p', Throw error) => (p', apology error)
  end.

Definition resetSession (p : page) : page := save null p.

Definition getCurrentSessionId (p : page) : value := currentSessionId p.

(** *** getAIMessage, in the two steps it runs in *)

(** An [async] function runs up to its first [await] when it is called, and
    runs on when what it waits for has settled, on the page as it is by
    then.  [getAIMessage] reads the session id before its [await]s (line 23)
    and writes it after them (line 51); between [fetch] and
    [response.json()] it reads and writes nothing of the page, so the two
    [await]s are taken as one. *)

(** Up to [await fetch(...)]: the payload is built from the session id as
    it is at the call, and posted. *)
Definition getAIMessage_calls (userQuery : string) (p : page)
    : page * request :=
  let payload :=
    {| message := userQuery; sessionId := currentSessionId p |} in
  (post payload p, payload).

(** The rest of the [try] block, from what [fetch] and [response.json()]
    settled to. *)
Definition settles (r : reply) (p : page) : page * result ChatMessage :=
  match r with
  | Rejected e => (p, Throw e)
  | Response status b =>
      if negb (ok status) then
        (p, Throw (Error ("Backend error: " ++ render status)))
      else
        match b with
        | Unparsable e => (p, Throw e)
        | Parsed data =>
            match get (Some data) "sessionId" with
            | Throw e => (p, Throw e)
            | Ok sid =>
                let p := if truthy sid then save sid p else p in
                (p, formatBackendResponse data)
            end
        end
  end.

(** From the [await] on, with the [catch] block. *)
Definition getAIMessage_resumes (r : reply) (p : page) : page * ChatMessage :=
  match settles r p with
  | (p', Ok formattedMessage) => (p', formattedMessage)
  | (p', Throw error) => (p', apology error)
  end.

(** ** The chat window (frontend/src/components/ChatWindow.js) *)

(** [s.trimEnd()], on the same blanks as ToNumber skips. *)
Fixpoint trim_end (s : string) : string :=
  match s with
  | EmptyString => EmptyString
  | String c r => if only_blanks s then EmptyString else String c (trim_end r)
  end.

(** [s.trim()] *)
Definition trim (s : string) : string := trim_end (skip_blanks s).

(** The state of the component: the three [useState] cells. *)
Record window : Type := {
  messages : list ChatMessage;
  input : string;
  isLoading : bool
}.

Definition defaultMessage : list ChatMessage :=
  [assistant (str "Hi, how can I help you today?")].

(** The component as it is mounted, on a page that has posted nothing. *)
Definition mounted : window * page :=
  ({| messages := defaultMessage; input := ""; isLoading := false |}, fresh).

(** [handleSend], from the click to the end of its [finally]: the state
    updates are applied in the order they are queued.  [getAIMessage] never
    throws (it has a value on every path), so the [catch] block adds
    nothing. *)
Definition handleSend (network : request -> reply) (w : window) (p : page)
    : window * page :=
  let userMessage := trim (input w) in
  if userMessage =? "" then (w, p)
  else
    let sent :=
      (messages w ++ [{| role := "user"; content := str userMessage |}])%list in
    let '(p', assistantMessage) := getAIMessage userMessage network p in
    ({| messages := (sent ++ [assistantMessage])%list;
        input := "";
        isLoading := false |}, p').

(** *** The window with a turn in flight *)

(** The component and the page, with the calls of [handleSend] that wait at
    their [await]: [pending] has their requests, oldest first. *)
Record component : Type := {
  view : window;
  store : page;
  pending : list request
}.

Definition mounted_component : component :=
  {| view := fst mounted; store := snd mounted; pending := [] |}.

(** [handleSend] up to its [await] (lines 43 to 64): the three state updates
    are queued and [getAIMessage] is called, which posts the request. *)
Definition handleSend_starts (a : component) : component :=
  let userMessage := trim (input (view a)) in
  if userMessage =? "" then a
  else
    let '(p', payload) := getAIMessage_calls userMessage (store a) in
    {| view :=
         {| messages :=
              (messages (view a)
               ++ [{| role := "user"; content := str userMessage |}])%list;
            input := "";
            isLoading := true |};
       store := p';
       pending := (pending a ++ [payload])%list |}.

(** [handleSend] from its [await] on (lines 64 to 81), for the call that
    waits at position [k], when its request has settled to [r]. *)
Definition handleSend_finishes (k : nat) (r : reply) (a : component) : component :=
  let '(p', assistantMessage) := getAIMessage_resumes r (store a) in
  {| view :=
       {| messages := (messages (view a) ++ [assistantMessage])%list;
          input := input (view a);
          isLoading := false |};
     store := p';
     pending := (firstn k (pending a) ++ skipn (S k) (pending a))%list |}.

(** [handleKeyPress]: [e.key === "Enter" && !e.shiftKey && !isLoading]. *)
Definition handleKeyPress (key : string) (shiftKey : bool) (a : component) : component :=
  if (key =? "Enter") && negb shiftKey && negb (isLoading (view a))
  then handleSend_starts a
  else a.

(** What happens to the component: the user types in the input, presses a
    key in it, or clicks the button; or the request of a pending call
    settles. *)
Inductive event : Type :=
| Change (text : string)
| KeyPress (key : string) (shiftKey : bool)
| Click
| Settled (k : nat) (r : reply).

(** The component's answer to an event.  The input is rendered with
    [disabled={isLoading}] and the button with
    [disabled={isLoading || input.trim() === ""}]: a disabled control gets
    no event from the user. *)
Definition handle (e : event) (a : component) : component :=
  match e with
  | Change text =>
      if isLoading (view a) then a
      else
        {| view :=
             {| messages := messages (view a);
                input := text;
                isLoading := isLoading (view a) |};
           store := store a;
           pending := pending a |}
  | KeyPress key shiftKey =>
      if isLoading (view a) then a else handleKeyPress key shiftKey a
  | Click =>
      if isLoading (view a) || (trim (input (view a)) =? "") then a
      else handleSend_starts a
  | Settled k r =>
      match nth_error (pending a) k with
      | Some _ => handleSend_finishes k r a
      | None => a
      end
  end.

Fixpoint run (events : list event) (a : component) : component :=
  match events with
  | [] => a
  | e :: rest => run rest (handle e a)
  end.

(** * Vocabulary of the properties *)

(** The payload's [data] has nothing under [key]: [data] is absent (or
    falsy in another way), or the list under [key] is absent (or falsy in
    another way), or that list is the empty array. *)
Definition lacks (data : value) (key : string) : Prop :=
  truthy data = false \/
  exists d,
    data = Some d
    /\ (truthy (own d key) = false \/ own d key = Some (JArr [])).

(** The lists of [data] that the format of a tag goes through. *)
Definition lists_read (type : value) : list string :=
  match type with
  | Some (JStr tag) =>
      if tag =? "product_results" then ["products"]
      else if tag =? "installation_guide" then ["steps"]
      else if tag =? "troubleshooting"
           then ["possibleCauses"; "suggestedSolutions"]
      else []
  | _ => []
  end.

(** The message is one that can be displayed: its content is a string, and
    not the empty one. *)
Definition displays (r : result ChatMessage) : Prop :=
  exists s, r = Ok (assistant (str s)) /\ s <> "".

(** *** Sample payloads *)

(** [{success: true}] *)
Definition only_success : json := JObj [("success", JBool true)].

(** [{success: true, response: {type: "text", content: ""}}] *)
Definition empty_text : json :=
  JObj [("success", JBool true);
        ("response", JObj [("type", JStr "text"); ("content", JStr "")])].

(** [{success: true, response: {type: "product_results",
      content: "Found some", data: {products: "none"}}}] *)
Definition products_not_a_list : json :=
  JObj [("success", JBool true);
        ("response", JObj [("type", JStr "product_results");
                           ("content", JStr "Found some");
                           ("data", JObj [("products", JStr "none")])])].

(** [{success: false, error: {message: "bad query"}}] *)
Definition bad_query : json :=
  JObj [("success", JBool false);
        ("error", JObj [("message", JStr "bad query")])].

(** *** Failures of a turn *)

(** The ways a turn fails before there is a body to format, each with the
    reason the thrown error carries: the request is rejected (the network
    is down), the status is outside 200..299, or the body is not JSON. *)
Inductive fails : reply -> string -> Prop :=
| network_failure (e : exn) :
    fails (Rejected e) (exn_message e)
| status_failure (status : nat) (b : body) :
    ok status = false ->
    fails (Response status b) ("Backend error: " ++ render status)
| malformed_json (status : nat) (e : exn) :
    ok status = true ->
    fails (Response status (Unparsable e)) (exn_message e).

(** The text of the synthesised reply for a failure with that reason. *)
Definition apology_text (reason : string) : string :=
  "Sorry, I encountered an error: " ++ reason
  ++ ". Please make sure the backend is running on http://localhost:5000".

(** A backend that answers every request with 500 and no usable body. *)
Definition backend_down (r : request) : reply :=
  Response 500 (Unparsable (SyntaxError "Unexpected end of JSON input")).

(** A backend that greets and opens the session "s-42". *)
Definition greeting : json :=
  JObj [("success", JBool true);
        ("sessionId", JStr "s-42");
        ("response", JObj [("type", JStr "text"); ("content", JStr "Hello")])].

Definition backend_up (r : request) : reply := Response 200 (Parsed greeting).

(** *** Well-formed product listings *)

(** A product as the listing shows it.  [p_price] is the text of the
    number; [p_compatibility] is empty for a product that names no model;
    [p_inStock] is the truth of [inStock]. *)
Record product : Type := {
  p_name : string;
  p_id : string;
  p_price : string;
  p_description : string;
  p_compatibility : list string;
  p_inStock : bool
}.

(** The parsed value [j] is the well-formed product [p]: its name, id and
    description are strings, its price a number, its compatibility absent
    or an array of strings.  Other properties of [j], and the order of its
    properties, are free. *)
Definition is_product (j : json) (p : product) : Prop :=
  own j "name" = str (p_name p)
  /\ own j "id" = str (p_id p)
  /\ own j "price" = Some (JNum (p_price p))
  /\ own j "description" = str (p_description p)
  /\ (own j "compatibility" = None /\ p_compatibility p = []
      \/ own j "compatibility" = Some (JArr (map JStr (p_compatibility p))))
  /\ truthy (own j "inStock") = p_inStock p.

Definition compatibility_line (models : list string) : string :=
  match models with
  | [] => ""
  | _ => "   Compatible with: " ++ String.concat ", " models ++ LF
  end.

(** The numbered entry of a product. *)
Definition expected_entry (number : nat) (p : product) : string :=
  "**" ++ render number ++ ". " ++ p_name p ++ "**" ++ LF
  ++ "   ID: " ++ p_id p ++ LF
  ++ "   Price: $" ++ p_price p ++ LF
  ++ "   Description: " ++ p_description p ++ LF
  ++ compatibility_line (p_compatibility p)
  ++ "   In Stock: " ++ (if p_inStock p then "Yes" else "No") ++ LF ++ LF.

(** The entries of a list of products, numbered from [number] on. *)
Fixpoint expected_entries (number : nat) (ps : list product) : string :=
  match ps with
  | [] => ""
  | p :: rest => expected_entry number p ++ expected_entries (S number) rest
  end.

Definition widget : json :=
  JObj [("name", JStr "Widget"); ("id", JStr "W1"); ("price", JNum "9.99");
        ("description", JStr "A widget"); ("inStock", JBool true)].

Definition widget_listing : json := JObj [("products", JArr [widget])].

Definition widget_response : json :=
  JObj [("type", JStr "product_results"); ("content", JStr "Found 1");
        ("data", widget_listing)].

(** [{success: true, response: {type: "product_results",
      content: "Found 1", data: {products: [{name: "Widget", id: "W1",
      price: 9.99, description: "A widget", inStock: true}]}}}] *)
Definition found_widget : json :=
  JObj [("success", JBool true); ("response", widget_response)].

Definition the_widget : product :=
  {| p_name := "Widget"; p_id := "W1"; p_price := "9.99";
     p_description := "A widget"; p_compatibility := []; p_inStock := true |}.

(** [{success: true, response: {type: "installation_guide",
      content: "Replacing the filter", data: {steps: [{step: 1,
      instruction: "Unplug the refrigerator"}]}}}] *)
Definition guide_without_time : json :=
  JObj [("success", JBool true);
        ("response",
         JObj [("type", JStr "installation_guide");
               ("content", JStr "Replacing the filter");
               ("data",
                JObj [("steps",
                       JArr [JObj [("step", JNum "1");
                                   ("instruction",
                                    JStr "Unplug the refrigerator")]])])])].

(** [{success: true, response: {type: "chitchat", content: "Hi there"}}] *)
Definition small_talk_response : json :=
  JObj [("type", JStr "chitchat"); ("content", JStr "Hi there")].

Definition small_talk : json :=
  JObj [("success", JBool true); ("response", small_talk_response)].

(** [{success: true, response: {type: "product_results",
      content: "Nothing matched"}}] *)
Definition no_match_response : json :=
  JObj [("type", JStr "product_results"); ("content", JStr "Nothing matched")].

Definition no_match : json :=
  JObj [("success", JBool true); ("response", no_match_response)].

(** [{success: true, response: {type: "installation_guide",
      data: {steps: []}}}] *)
Definition no_steps_response : json :=
  JObj [("type", JStr "installation_guide");
        ("data", JObj [("steps", JArr [])])].

Definition no_steps : json :=
  JObj [("success", JBool true); ("response", no_steps_response)].

(** *** Installation guides, as they are printed *)

(** [v] can be converted to a string. *)
Definition prints (v : value) : Prop := exists s, ToString v = Ok s.

(** [v] is falsy or a string: what [v || "..."] needs in order to be a
    text. *)
Definition falsy_or_text (v : value) : Prop :=
  truthy v = false \/ exists s, v = str s.

(** [v] is a string, and not the empty one. *)
Definition shown_text (v : value) : Prop := exists s, v = str s /\ s <> "".

(** The guard [v && v.length > 0] does not let [v] through: [v] is falsy
    (absent, [null], [false], [0], the empty string), or its [length] is
    not above zero (it has none, or [v] is the empty array). *)
Definition skipped (v : value) : Prop :=
  truthy v = false
  \/ exists j, v = Some j /\ greater_than_zero (own j "length") = Ok false.

(** The guard [!data || !data.key || data.key.length === 0] holds: [data]
    is falsy, or what it has under [key] is falsy or has the length 0. *)
Definition nothing_under (data : value) (key : string) : Prop :=
  truthy data = false
  \/ exists d,
       data = Some d
       /\ (truthy (own d key) = false
           \/ exists j, own d key = Some j
                        /\ own j "length" = Some (JNum "0")).

(** The guard [data && data.key && data.key.length > 0] does not hold:
    [data] is falsy, or what it has under [key] is skipped. *)
Definition unlisted (data : value) (key : string) : Prop :=
  truthy data = false \/ exists d, data = Some d /\ skipped (own d key).

(** The optional list [v] is joined as [texts]: either [v] is skipped and
    there are no texts, or [v] is an array with items and these are the
    texts that [join] puts together ([null] giving the empty text). *)
Definition joined_as (v : value) (texts : list string) : Prop :=
  (skipped v /\ texts = [])
  \/ exists items,
       v = Some (JArr items) /\ items <> []
       /\ join_parts to_string items = Ok texts.

(** The optional list [v] is gone through as [texts]: the same, with the
    texts that the items print as. *)
Definition listed_as (v : value) (texts : list string) : Prop :=
  (skipped v /\ texts = [])
  \/ exists items,
       v = Some (JArr items) /\ items <> []
       /\ Forall2 (fun x t => to_string x = Ok t) items texts.

(** A step as the guide shows it: the texts of its number and instruction,
    and its tools, tips and warnings. *)
Record guide_step : Type := {
  s_step : string;
  s_instruction : string;
  s_tools : list string;
  s_tips : list string;
  s_warnings : list string
}.

(** The parsed value [j] prints as the step [s]: it is not [null],
    [s_step] and [s_instruction] are what its [step] and [instruction]
    print as, and its optional lists are joined or gone through as the
    texts of [s]. *)
Definition is_step (j : json) (s : guide_step) : Prop :=
  j <> JNull
  /\ ToString (own j "step") = Ok (s_step s)
  /\ ToString (own j "instruction") = Ok (s_instruction s)
  /\ joined_as (own j "tools") (s_tools s)
  /\ listed_as (own j "tips") (s_tips s)
  /\ listed_as (own j "warnings") (s_warnings s).

Fixpoint bullets (texts : list string) : string :=
  match texts with
  | [] => ""
  | t :: rest => "      - " ++ t ++ LF ++ bullets rest
  end.

Definition tools_line (tools : list string) : string :=
  match tools with
  | [] => ""
  | _ => "   🔧 Tools needed: " ++ String.concat ", " tools ++ LF
  end.

Definition tips_block (tips : list string) : string :=
  match tips with
  | [] => ""
  | _ => "   💡 Tips:" ++ LF ++ bullets tips
  end.

Definition warnings_block (warnings : list string) : string :=
  match warnings with
  | [] => ""
  | _ => "   ⚠️ Warnings:" ++ LF ++ bullets warnings
  end.

(** The block of a step. *)
Definition expected_step (s : guide_step) : string :=
  "**Step " ++ s_step s ++ ": " ++ s_instruction s ++ "**" ++ LF
  ++ tools_line (s_tools s)
  ++ tips_block (s_tips s)
  ++ warnings_block (s_warnings s)
  ++ LF.

Fixpoint expected_steps (ss : list guide_step) : string :=
  match ss with
  | [] => ""
  | s :: rest => expected_step s ++ expected_steps rest
  end.

(** The whole guide: the text, the two lines on time and difficulty, and
    the blocks of the steps. *)
Definition expected_guide (c time difficulty : string) (ss : list guide_step)
    : string :=
  c ++ LF ++ LF
  ++ "⏱️ Estimated Time: " ++ time ++ " minutes" ++ LF
  ++ "📊 Difficulty: " ++ difficulty ++ LF ++ LF
  ++ expected_steps ss.

(** [{type: "installation_guide", content: "Replacing the filter",
      data: {estimatedTime: 15, difficulty: "easy", steps: [
        {step: 1, instruction: "Unplug the refrigerator",
         tools: ["Gloves", "Towel"], warnings: ["Mind the water line"]},
        {step: 2, instruction: "Twist the filter out", tips: ["Turn left"],
         tools: []}]}}] under [success: true] *)
Definition filter_step_1 : json :=
  JObj [("step", JNum "1"); ("instruction", JStr "Unplug the refrigerator");
        ("tools", JArr [JStr "Gloves"; JStr "Towel"]);
        ("warnings", JArr [JStr "Mind the water line"])].

Definition filter_step_2 : json :=
  JObj [("step", JNum "2"); ("instruction", JStr "Twist the filter out");
        ("tips", JArr [JStr "Turn left"]); ("tools", JArr [])].

Definition filter_data : json :=
  JObj [("estimatedTime", JNum "15"); ("difficulty", JStr "easy");
        ("steps", JArr [filter_step_1; filter_step_2])].

Definition filter_response : json :=
  JObj [("type", JStr "installation_guide");
        ("content", JStr "Replacing the filter"); ("data", filter_data)].

Definition filter_guide : json :=
  JObj [("success", JBool true); ("response", filter_response)].

Definition the_filter_steps : list guide_step :=
  [ {| s_step := "1"; s_instruction := "Unplug the refrigerator";
       s_tools := ["Gloves"; "Towel"]; s_tips := [];
       s_warnings := ["Mind the water line"] |};
    {| s_step := "2"; s_instruction := "Twist the filter out";
       s_tools := []; s_tips := ["Turn left"]; s_warnings := [] |} ].

(** *** Troubleshooting advice, as it is printed *)

(** The list under [key] of the payload's [data] holds the items [js]: it
    is that array, or [data] or the list is absent (or falsy in another way)
    and there are none. *)
Definition holds_items (data : value) (key : string) (js : list json) : Prop :=
  (truthy data = false /\ js = [])
  \/ exists d,
       data = Some d
       /\ ((truthy (own d key) = false /\ js = [])
           \/ own d key = Some (JArr js)).

(** A possible cause, by the texts its four fields print as. *)
Record cause : Type := {
  c_cause : string;
  c_probability : string;
  c_description : string;
  c_fix : string
}.

Definition is_cause (j : json) (c : cause) : Prop :=
  j <> JNull
  /\ ToString (own j "cause") = Ok (c_cause c)
  /\ ToString (own j "probability") = Ok (c_probability c)
  /\ ToString (own j "description") = Ok (c_description c)
  /\ ToString (own j "fix") = Ok (c_fix c).

(** A suggested solution: the texts of its title and estimated time, its
    steps and its recommended parts. *)
Record solution : Type := {
  o_title : string;
  o_steps : list string;
  o_estimatedTime : string;
  o_recommendedParts : list string
}.

Definition is_solution (j : json) (o : solution) : Prop :=
  j <> JNull
  /\ ToString (own j "title") = Ok (o_title o)
  /\ listed_as (own j "steps") (o_steps o)
  /\ ToString (own j "estimatedTime") = Ok (o_estimatedTime o)
  /\ joined_as (own j "recommendedParts") (o_recommendedParts o).

Definition expected_cause (number : nat) (c : cause) : string :=
  render number ++ ". **" ++ c_cause c ++ "** (" ++ c_probability c
  ++ " probability)" ++ LF
  ++ "   Description: " ++ c_description c ++ LF
  ++ "   Fix: " ++ c_fix c ++ LF ++ LF.

Fixpoint expected_causes (number : nat) (cs : list cause) : string :=
  match cs with
  | [] => ""
  | c :: rest => expected_cause number c ++ expected_causes (S number) rest
  end.

Fixpoint numbered_steps (number : nat) (texts : list string) : string :=
  match texts with
  | [] => ""
  | t :: rest =>
      "   " ++ render number ++ ". " ++ t ++ LF
      ++ numbered_steps (S number) rest
  end.

Definition parts_line (parts : list string) : string :=
  match parts with
  | [] => ""
  | _ => "   🛠️ Recommended Parts: " ++ String.concat ", " parts ++ LF
  end.

Definition expected_solution (number : nat) (o : solution) : string :=
  "**Solution " ++ render number ++ ": " ++ o_title o ++ "**" ++ LF
  ++ numbered_steps 1 (o_steps o)
  ++ "   ⏱️ Estimated Time: " ++ o_estimatedTime o ++ " minutes" ++ LF
  ++ parts_line (o_recommendedParts o)
  ++ LF.

Fixpoint expected_solutions (number : nat) (os : list solution) : string :=
  match os with
  | [] => ""
  | o :: rest =>
      expected_solution number o ++ expected_solutions (S number) rest
  end.

Definition causes_section (cs : list cause) : string :=
  match cs with
  | [] => ""
  | _ => "**Possible Causes:**" ++ LF ++ LF ++ expected_causes 1 cs
  end.

Definition solutions_section (os : list solution) : string :=
  match os with
  | [] => ""
  | _ => "**Suggested Solutions:**" ++ LF ++ LF ++ expected_solutions 1 os
  end.

(** The whole advice: the text, then the section of the causes and the
    section of the solutions, each only when it has entries. *)
Definition expected_advice (c : string) (cs : list cause) (os : list solution)
    : string :=
  c ++ LF ++ LF ++ causes_section cs ++ solutions_section os.

(** [{type: "troubleshooting", content: "The ice maker is not working",
      data: {possibleCauses: [{cause: "Frozen fill tube",
        probability: "high", description: "Ice blocks the tube",
        fix: "Thaw the tube"}],
       suggestedSolutions: [{title: "Thaw and reset",
         steps: ["Unplug", "Thaw the tube"], estimatedTime: 30,
         recommendedParts: ["PS11752778"]},
        {title: "Call service", estimatedTime: 5}]}}] under [success: true] *)
Definition ice_cause : json :=
  JObj [("cause", JStr "Frozen fill tube"); ("probability", JStr "high");
        ("description", JStr "Ice blocks the tube");
        ("fix", JStr "Thaw the tube")].

Definition ice_solution_1 : json :=
  JObj [("title", JStr "Thaw and reset");
        ("steps", JArr [JStr "Unplug"; JStr "Thaw the tube"]);
        ("estimatedTime", JNum "30");
        ("recommendedParts", JArr [JStr "PS11752778"])].

Definition ice_solution_2 : json :=
  JObj [("title", JStr "Call service"); ("estimatedTime", JNum "5")].

Definition ice_data : json :=
  JObj [("possibleCauses", JArr [ice_cause]);
        ("suggestedSolutions", JArr [ice_solution_1; ice_solution_2])].

Definition ice_response : json :=
  JObj [("type", JStr "troubleshooting");
        ("content", JStr "The ice maker is not working");
        ("data", ice_data)].

Definition ice_advice : json :=
  JObj [("success", JBool true); ("response", ice_response)].

Definition the_ice_causes : list cause :=
  [ {| c_cause := "Frozen fill tube"; c_probability := "high";
       c_description := "Ice blocks the tube"; c_fix := "Thaw the tube" |} ].

Definition the_ice_solutions : list solution :=
  [ {| o_title := "Thaw and reset"; o_steps := ["Unplug"; "Thaw the tube"];
       o_estimatedTime := "30"; o_recommendedParts := ["PS11752778"] |};
    {| o_title := "Call service"; o_steps := [];
       o_estimatedTime := "5"; o_recommendedParts := [] |} ].

(** *** Texts that grow *)

(** [f'] is [f] with something appended. *)
Definition extends (f f' : string) : Prop := exists t, f' = f ++ t.

(** [{success: true, response: {type: "error", content: "Out of stock"}}] *)
Definition out_of_stock_response : json :=
  JObj [("type", JStr "error"); ("content", JStr "Out of stock")].

Definition out_of_stock : json :=
  JObj [("success", JBool true); ("response", out_of_stock_response)].

(** *** More backends *)

(** A backend whose body has the session id "s-42" and nothing else to
    format: [{success: true, sessionId: "s-42"}]. *)
Definition session_only : json :=
  JObj [("success", JBool true); ("sessionId", JStr "s-42")].

Definition backend_shapeless (r : request) : reply :=
  Response 200 (Parsed session_only).

(** A page in the middle of the session "s-42". *)
Definition in_session : page :=
  {| currentSessionId := str "s-42";
     posted := [{| message := "hello"; sessionId := null |}] |}.

(** *** Conversations *)

(** Turns: a user's message, the assistant's answer, and so on. *)
Inductive dialogue : list ChatMessage -> Prop :=
| dialogue_nil : dialogue []
| dialogue_turn (u a : ChatMessage) (rest : list ChatMessage) :
    role u = "user" -> role a = "assistant" -> dialogue rest ->
    dialogue (u :: a :: rest).

(** What the user said, in order. *)
Definition asked (ms : list ChatMessage) : list value :=
  map content (filter (fun m => role m =? "user") ms).

(** A window in which the user has typed a question with blanks around. *)
Definition typed : window :=
  {| messages := defaultMessage; input := "  hello there " ++ LF;
     isLoading := false |}.

(** [{success: true, response: {type: "product_results",
      content: "Found 2", data: {products: [<the widget>, null]}}}] *)
Definition hole_data : json := JObj [("products", JArr [widget; JNull])].

Definition hole_response : json :=
  JObj [("type", JStr "product_results"); ("content", JStr "Found 2");
        ("data", hole_data)].

Definition hole_in_the_list : json :=
  JObj [("success", JBool true); ("response", hole_response)].

(** The list that a list formatter goes through and the text it falls
    back to, by tag. *)
Definition listing_of (type : value) (key fallback : string) : Prop :=
  (type = str "product_results"
   /\ key = "products" /\ fallback = "No products found")
  \/ (type = str "installation_guide"
      /\ key = "steps" /\ fallback = "No installation steps available").

(** [{success: true, response: {type: "installation_guide",
      content: "Guide", data: {steps: {length: 0}}}}] *)
Definition steps_object_data : json :=
  JObj [("steps", JObj [("length", JNum "0")])].

Definition steps_object_response : json :=
  JObj [("type", JStr "installation_guide"); ("content", JStr "Guide");
        ("data", steps_object_data)].

Definition steps_object : json :=
  JObj [("success", JBool true); ("response", steps_object_response)].

(** The line of a list that is joined, under its label: nothing when
    there are no texts. *)
Definition joined_line (label : string) (texts : list string) : string :=
  match texts with
  | [] => ""
  | _ => label ++ String.concat ", " texts ++ LF
  end.

(** The block of a list that is shown as bullets, under its label. *)
Definition bulleted_block (label : string) (texts : list string) : string :=
  match texts with
  | [] => ""
  | _ => label ++ LF ++ bullets texts
  end.

(** *** The payloads that are displayed *)

(** The parsed value [j] prints as the product [p]: it is not [null], the
    four texts of [p] are what its [name], [id], [price] and [description]
    print as, its optional [compatibility] is joined as [p_compatibility p],
    and [p_inStock p] is the truth of its [inStock]. *)
Definition is_entry (j : json) (p : product) : Prop :=
  j <> JNull
  /\ ToString (own j "name") = Ok (p_name p)
  /\ ToString (own j "id") = Ok (p_id p)
  /\ ToString (own j "price") = Ok (p_price p)
  /\ ToString (own j "description") = Ok (p_description p)
  /\ joined_as (own j "compatibility") (p_compatibility p)
  /\ truthy (own j "inStock") = p_inStock p.

(** The list under [key] of [data] has the items [items] to go through:
    it is that array, with items; or it is unlisted and there are none. *)
Definition items_of (data : value) (key : string) (items : list json) : Prop :=
  (unlisted data key /\ items = [])
  \/ exists d, data = Some d /\ own d key = Some (JArr items) /\ items <> [].

(** A [product_results] response that is displayed: there is nothing under
    [products] and the content is falsy or a string; or the content prints
    and [products] is an array with items that all print as products. *)
Definition lists_products (response : json) : Prop :=
  (nothing_under (own response "data") "products"
   /\ falsy_or_text (own response "content"))
  \/ (prints (own response "content")
      /\ exists d items ps,
           own response "data" = Some d
           /\ own d "products" = Some (JArr items) /\ items <> []
           /\ Forall2 is_entry items ps).

(** An [installation_guide] response that is displayed: the same with
    [steps], and, when there are steps, an [estimatedTime] and a
    [difficulty] that print (absent ones do, as "undefined"). *)
Definition lists_steps (response : json) : Prop :=
  (nothing_under (own response "data") "steps"
   /\ falsy_or_text (own response "content"))
  \/ (prints (own response "content")
      /\ exists d items ss,
           own response "data" = Some d
           /\ own d "steps" = Some (JArr items) /\ items <> []
           /\ prints (own d "estimatedTime") /\ prints (own d "difficulty")
           /\ Forall2 is_step items ss).

(** A [troubleshooting] response that is displayed: the content prints,
    and the causes and the solutions there are to go through all print. *)
Definition advises (response : json) : Prop :=
  prints (own response "content")
  /\ (exists causes cs,
        items_of (own response "data") "possibleCauses" causes
        /\ Forall2 is_cause causes cs)
  /\ (exists solutions os,
        items_of (own response "data") "suggestedSolutions" solutions
        /\ Forall2 is_solution solutions os).

(** A response that is displayed, by its tag. *)
Definition formats (response : json) : Prop :=
  match own response "type" with
  | Some (JStr tag) =>
      if tag =? "product_results" then lists_products response
      else if tag =? "installation_guide" then lists_steps response
      else if tag =? "troubleshooting" then advises response
      else if tag =? "error" then prints (own response "content")
      else shown_text (own response "content")
  | _ => shown_text (own response "content")
  end.

(** The payloads in shape.  A failed one is any parsed value but [null]
    whose [error.message] is falsy or a string.  A successful one has a
    [response] that is not [null] and is displayed by its tag. *)
Definition in_shape (data : json) : Prop :=
  data <> JNull
  /\ if truthy (own data "success")
     then exists response,
            own data "response" = Some response
            /\ response <> JNull /\ formats response
     else falsy_or_text (get_optional (own data "error") "message").

(** [{success: true, response: {type: "installation_guide", content: "Guide",
      data: {steps: [{step: 1, instruction: "Unplug", tools: "Gloves"}]}}}] *)
Definition tools_not_a_list : json :=
  JObj [("success", JBool true);
        ("response",
         JObj [("type", JStr "installation_guide"); ("content", JStr "Guide");
               ("data",
                JObj [("steps",
                       JArr [JObj [("step", JNum "1");
                                   ("instruction", JStr "Unplug");
                                   ("tools", JStr "Gloves")]])])])].

(** [{success: true, response: {type: "product_results", content: 404}}] *)
Definition content_not_a_text : json :=
  JObj [("success", JBool true);
        ("response",
         JObj [("type", JStr "product_results"); ("content", JNum "404")])].

(** [{success: true, response: {type: "error",
      content: {toString: "now"}}}] *)
Definition content_not_printable : json :=
  JObj [("success", JBool true);
        ("response",
         JObj [("type", JStr "error");
               ("content", JObj [("toString", JStr "now")])])].

(** [{success: false, error: {message: 500}}] *)
Definition message_not_a_text : json :=
  JObj [("success", JBool false);
        ("error", JObj [("message", JNum "500")])].

(** *** Windows with a turn in flight *)

Definition user (text : string) : ChatMessage :=
  {| role := "user"; content := str text |}.

(** The window is between turns: nothing is pending, [isLoading] is off,
    and the messages are the greeting and whole turns. *)
Definition idle (a : component) : Prop :=
  pending a = []
  /\ isLoading (view a) = false
  /\ exists turns,
       dialogue turns
       /\ messages (view a) = (defaultMessage ++ turns)%list.

(** The window waits for the answer to [r]: [r] is the one pending request
    and the last that was posted, [isLoading] is on, the input is empty, and
    the messages are the greeting, whole turns, and the user's message that
    went out with [r]. *)
Definition waiting (a : component) (r : request) : Prop :=
  pending a = [r]
  /\ isLoading (view a) = true
  /\ input (view a) = ""
  /\ hd_error (posted (store a)) = Some r
  /\ exists turns,
       dialogue turns
       /\ messages (view a)
          = (defaultMessage ++ turns ++ [user (message r)])%list.

(** A backend whose body names the session id it was sent, or "s-1" when it
    was sent none: [{success: true, sessionId: ..., response: {type: "text",
    content: "Hello"}}]. *)
Definition echo (r : request) : reply :=
  Response 200
    (Parsed (JObj [("success", JBool true);
                   ("sessionId",
                    match sessionId r with
                    | Some (JStr sid) => JStr sid
                    | _ => JStr "s-1"
                    end);
                   ("response",
                    JObj [("type", JStr "text"); ("content", JStr "Hello")])])).

(** * Properties *)

(** ** The scenarios of the specification, evaluated *)

Example text_scenario :
  formatBackendResponse greeting = Ok (assistant (str "Hello")).
Proof. reflexivity. Qed.

Example bad_query_scenario :
  formatBackendResponse bad_query = Ok (assistant (str "bad query")).
Proof. reflexivity. Qed.

Example empty_steps_scenario :
  formatBackendResponse no_steps
  = Ok (assistant (str "No installation steps available")).
Proof. reflexivity. Qed.

Example widget_scenario :
  formatBackendResponse found_widget
  = Ok (assistant (str ("Found 1" ++ LF ++ LF
                        ++ "**1. Widget**" ++ LF
                        ++ "   ID: W1" ++ LF
                        ++ "   Price: $9.99" ++ LF
                        ++ "   Description: A widget" ++ LF
                        ++ "   In Stock: Yes" ++ LF ++ LF))).
Proof. reflexivity. Qed.

Example first_turn :
  getAIMessage "hello" backend_up fresh
  = ({| currentSessionId := str "s-42";
        posted := [{| message := "hello"; sessionId := null |}] |},
     assistant (str "Hello")).
Proof. reflexivity. Qed.

(** ** Lengths and the guards on lists *)

Lemma render_zero (n : nat) : render n = "0" -> n = 0.
Proof.
  unfold render. intro H.
  assert (Hd : NilZero.uint_of_string (NilZero.string_of_uint (Nat.to_uint n))
               = Some (Nat.to_uint n)).
  { apply NilZero.usu.
    rewrite <- (Unsigned.of_to n) at 1. rewrite Unsigned.to_of.
    apply DecimalFacts.unorm_nonnil. }
  rewrite H in Hd. simpl in Hd. injection Hd as Hd.
  rewrite <- (Unsigned.of_to n), <- Hd. reflexivity.
Qed.

Lemma render_starts_with_digit (n : nat) :
  prefix "-" (render n) = false /\ (render n =? "NaN") = false.
Proof.
  unfold render. destruct (Nat.to_uint n); split; reflexivity.
Qed.

Lemma number_positive_render (n : nat) : number_positive (render (S n)) = true.
Proof.
  unfold number_positive.
  destruct (render_starts_with_digit (S n)) as [Hminus Hnan].
  rewrite Hminus, Hnan.
  destruct (String.eqb_spec (render (S n)) "0") as [H0|]; [|reflexivity].
  apply render_zero in H0. discriminate.
Qed.

Lemma strictly_zero_render (n : nat) :
  strictly_zero (Some (JNum (render n))) = (n =? 0)%nat.
Proof.
  simpl. destruct n; [reflexivity|].
  destruct (String.eqb_spec (render (S n)) "0") as [H0|]; [|reflexivity].
  apply render_zero in H0. discriminate.
Qed.

(** An array passes the guard [x && x.length > 0] exactly when it has an
    item. *)
Lemma nonempty_array (items : list json) :
  nonempty (Some (JArr items)) = Ok (negb (Nat.eqb (length items) 0)).
Proof.
  unfold nonempty. simpl. destruct items as [|x items]; [reflexivity|].
  simpl length. rewrite number_positive_render. reflexivity.
Qed.

(** A value that is not truthy does not pass it, and is not read. *)
Lemma nonempty_falsy (x : value) : truthy x = false -> nonempty x = Ok false.
Proof. unfold nonempty. intros ->. reflexivity. Qed.

Lemma get_own (j : json) (k : string) : j <> JNull -> get (Some j) k = Ok (own j k).
Proof. destruct j; intros H; try reflexivity. contradiction. Qed.

Lemma own_not_null (j : json) (k : string) (v : json) : own j k = Some v -> j <> JNull.
Proof. intros H ->. discriminate. Qed.

Lemma truthy_not_null (j : json) : truthy (Some j) = true -> j <> JNull.
Proof. intros H ->. discriminate. Qed.

Lemma nothing_listed_lacks (data : value) (key : string) :
  lacks data key -> nothing_listed data key = Ok true.
Proof.
  unfold nothing_listed.
  intros [-> | (d & -> & Hlist)]; [reflexivity|].
  destruct (truthy (Some d)) eqn:Ht; [|reflexivity].
  simpl negb. cbv iota.
  rewrite (get_own d key (truthy_not_null d Ht)). simpl bind.
  destruct Hlist as [-> | ->]; reflexivity.
Qed.

Lemma listed_lacks (data : value) (key : string) :
  lacks data key -> listed data key = Ok false.
Proof.
  unfold listed.
  intros [-> | (d & -> & Hlist)]; [reflexivity|].
  destruct (truthy (Some d)) eqn:Ht; [|reflexivity].
  rewrite (get_own d key (truthy_not_null d Ht)). simpl bind.
  destruct Hlist as [Hfalsy | ->]; [|reflexivity].
  apply nonempty_falsy, Hfalsy.
Qed.

(** ** The failure branch *)

Lemma failure_branch (data : json) :
  data <> JNull ->
  truthy (own data "success") = false ->
  formatBackendResponse data
  = Ok (assistant (or_else (get_optional (own data "error") "message")
                           (str "An error occurred"))).
Proof.
  intros Hnull Hsuccess. unfold formatBackendResponse.
  rewrite !(get_own data) by assumption. simpl bind.
  rewrite Hsuccess. reflexivity.
Qed.

(** ** The success branch *)

Section SuccessfulPayload.

Variables data response : json.
Hypothesis success : truthy (own data "success") = true.
Hypothesis has_response : own data "response" = Some response.
Hypothesis response_not_null : response <> JNull.

Let data_not_null : data <> JNull := own_not_null _ _ _ has_response.

Lemma dispatch :
  formatBackendResponse data
  = (content <- format_by_type (Some response) (own response "type") ;;
     Ok (assistant content)).
Proof.
  unfold formatBackendResponse.
  rewrite !(get_own data) by exact data_not_null. simpl bind.
  rewrite success, has_response. simpl negb. cbv iota.
  rewrite (get_own response) by assumption. reflexivity.
Qed.

Lemma formatProductResults_lacks :
  lacks (own response "data") "products" ->
  formatProductResults (Some response)
  = Ok (or_else (own response "content") (str "No products found")).
Proof.
  intro Hlacks. unfold formatProductResults.
  rewrite !(get_own response) by assumption. simpl bind.
  rewrite (nothing_listed_lacks _ _ Hlacks). reflexivity.
Qed.

Lemma formatInstallationGuide_lacks :
  lacks (own response "data") "steps" ->
  formatInstallationGuide (Some response)
  = Ok (or_else (own response "content")
                (str "No installation steps available")).
Proof.
  intro Hlacks. unfold formatInstallationGuide.
  rewrite !(get_own response) by assumption. simpl bind.
  rewrite (nothing_listed_lacks _ _ Hlacks). reflexivity.
Qed.

Lemma or_else_cases (a b : value) (P : value -> Prop) :
  P (or_else a b) ->
  (truthy a = true -> P a) /\ (truthy a = false -> P b).
Proof. unfold or_else. destruct (truthy a); intro H; split; congruence. Qed.

(** C6.  A successful payload whose [response.type] is none of the tags
    that get a format of their own ([product_results], [installation_guide],
    [troubleshooting], [error]) is normalised to [response.content] as it
    is: this is the pass-through of an unknown tag, and of [text] and
    [out_of_scope]. *)
Theorem other_tags_pass_content_through :
  own response "type" <> str "product_results" ->
  own response "type" <> str "installation_guide" ->
  own response "type" <> str "troubleshooting" ->
  own response "type" <> str "error" ->
  formatBackendResponse data = Ok (assistant (own response "content")).
Proof.
  intros Hp Hi Ht He. rewrite dispatch. unfold format_by_type.
  assert (Hcontent : get (Some response) "content"
                     = Ok (own response "content"))
    by (apply get_own; assumption).
  destruct (own response "type") as [[| | |tag| |]|];
    try (rewrite Hcontent; reflexivity).
  repeat match goal with
         | |- context [String.eqb tag ?t] =>
             destruct (String.eqb_spec tag t); [subst tag|]
         end;
    try (rewrite Hcontent; reflexivity);
    exfalso; auto.
Qed.

(** C7.  A [product_results] payload whose [data] is absent, or has no
    [products], or has an empty [products], is normalised to its [content]
    when that is truthy and to "No products found" otherwise. *)
Theorem no_products_falls_back :
  own response "type" = str "product_results" ->
  lacks (own response "data") "products" ->
  (truthy (own response "content") = true ->
   formatBackendResponse data = Ok (assistant (own response "content")))
  /\ (truthy (own response "content") = false ->
      formatBackendResponse data = Ok (assistant (str "No products found"))).
Proof.
  intros Htype Hlacks.
  apply (or_else_cases _ _
           (fun c => formatBackendResponse data = Ok (assistant c))).
  rewrite dispatch, Htype. simpl format_by_type.
  rewrite (formatProductResults_lacks Hlacks). reflexivity.
Qed.

(** C8.  An [installation_guide] payload whose [data.steps] is missing
    (with [data] or without it) or empty is normalised to its [content]
    when that is truthy and to "No installation steps available"
    otherwise. *)
Theorem no_steps_falls_back :
  own response "type" = str "installation_guide" ->
  lacks (own response "data") "steps" ->
  (truthy (own response "content") = true ->
   formatBackendResponse data = Ok (assistant (own response "content")))
  /\ (truthy (own response "content") = false ->
      formatBackendResponse data
      = Ok (assistant (str "No installation steps available"))).
Proof.
  intros Htype Hlacks.
  apply (or_else_cases _ _
           (fun c => formatBackendResponse data = Ok (assistant c))).
  rewrite dispatch, Htype. simpl format_by_type.
  rewrite (formatInstallationGuide_lacks Hlacks). reflexivity.
Qed.

End SuccessfulPayload.

Lemma other_tags_pass_content_through_witness :
  formatBackendResponse small_talk = Ok (assistant (str "Hi there")).
Proof.
  apply (other_tags_pass_content_through small_talk small_talk_response);
    try reflexivity; discriminate.
Defined.

Lemma no_products_falls_back_witness :
  formatBackendResponse no_match = Ok (assistant (str "Nothing matched")).
Proof.
  apply (proj1 (no_products_falls_back no_match no_match_response
                  eq_refl eq_refl ltac:(discriminate) eq_refl
                  (or_introl eq_refl))).
  reflexivity.
Defined.

Lemma no_steps_falls_back_witness :
  formatBackendResponse no_steps
  = Ok (assistant (str "No installation steps available")).
Proof.
  apply (proj2 (no_steps_falls_back no_steps no_steps_response
                  eq_refl eq_refl ltac:(discriminate) eq_refl
                  (or_intror (ex_intro _ (JObj [("steps", JArr [])])
                                (conj eq_refl (or_intror eq_refl)))))).
  reflexivity.
Defined.

(** ** Failed payloads and roles *)

(** C4.  A payload whose [success] is falsy (any parsed value but [null],
    of which no property can be read) is normalised to its [error.message]
    when there is one (a truthy one: an empty message counts as none) and to
    "An error occurred" otherwise; either way the result is not the empty
    string.  [bad_query] is normalised to "bad query". *)
Theorem failed_payload_shows_its_message (data : json) :
  data <> JNull ->
  truthy (own data "success") = false ->
  let message := get_optional (own data "error") "message" in
  (truthy message = true ->
   formatBackendResponse data = Ok (assistant message))
  /\ (truthy message = false ->
      formatBackendResponse data = Ok (assistant (str "An error occurred")))
  /\ (exists m, formatBackendResponse data = Ok m /\ content m <> str "")
  /\ formatBackendResponse bad_query = Ok (assistant (str "bad query")).
Proof.
  intros Hnull Hsuccess message.
  rewrite (failure_branch data Hnull Hsuccess). fold message. unfold or_else.
  repeat split.
  - intros ->. reflexivity.
  - intros ->. reflexivity.
  - destruct (truthy message) eqn:Ht.
    + exists (assistant message). split; [reflexivity|].
      simpl. intros Hm. rewrite Hm in Ht. discriminate.
    + exists (assistant (str "An error occurred")).
      split; [reflexivity|discriminate].
Qed.

Lemma failed_payload_shows_its_message_witness :
  formatBackendResponse bad_query = Ok (assistant (str "bad query")).
Proof.
  apply (failed_payload_shows_its_message bad_query); [discriminate|reflexivity].
Defined.

Lemma formatBackendResponse_role (data : json) (m : ChatMessage) :
  formatBackendResponse data = Ok m -> role m = "assistant".
Proof.
  unfold formatBackendResponse, bind.
  repeat match goal with
         | |- context [match ?x with _ => _ end] => destruct x
         end;
    intro H; try discriminate; injection H as <-; reflexivity.
Qed.

(** C10.  Whatever the payload, a message that [formatBackendResponse]
    returns has the role "assistant", and so has the message that
    [getAIMessage] returns, whatever the network did. *)
Theorem every_message_is_from_the_assistant (data : json) (userQuery : string)
    (network : request -> reply) (p : page) :
  (forall m, formatBackendResponse data = Ok m -> role m = "assistant")
  /\ role (snd (getAIMessage userQuery network p)) = "assistant".
Proof.
  split; [apply formatBackendResponse_role|].
  unfold getAIMessage.
  destruct (attempt userQuery network p) as [p' [m|e]] eqn:Hattempt;
    [|reflexivity].
  unfold attempt in Hattempt.
  repeat match type of Hattempt with
         | context [match ?x with _ => _ end] => destruct x
         end;
    try discriminate;
    injection Hattempt as _ Hm;
    apply (formatBackendResponse_role _ _ Hm).
Qed.

Lemma every_message_is_from_the_assistant_witness :
  role (assistant (str "bad query")) = "assistant"
  /\ role (snd (getAIMessage "hello" (fun _ => Rejected (TypeError "Failed to fetch")) fresh))
     = "assistant".
Proof.
  split.
  - apply (proj1 (every_message_is_from_the_assistant bad_query "hello"
                    (fun _ => Rejected (TypeError "Failed to fetch")) fresh)).
    reflexivity.
  - apply (proj2 (every_message_is_from_the_assistant bad_query "hello"
                    (fun _ => Rejected (TypeError "Failed to fetch")) fresh)).
Defined.

(** ** The turn *)

Lemma prefix_append (t s : string) : prefix t (t ++ s) = true.
Proof.
  induction t as [|c t IH]; simpl; [destruct s; reflexivity|].
  destruct (ascii_dec c c); [exact IH|contradiction].
Qed.

Lemma includes_append (t a s : string) :
  includes t s = true -> includes t (a ++ s) = true.
Proof.
  intro H. induction a as [|c a IH]; simpl; [exact H|].
  rewrite IH. apply orb_true_r.
Qed.

Lemma includes_middle (t a b : string) : includes t (a ++ t ++ b) = true.
Proof.
  apply includes_append.
  assert (H : prefix t (t ++ b) = true) by apply prefix_append.
  destruct (t ++ b); cbn [includes]; rewrite H; reflexivity.
Qed.

(** C5.  When the turn fails (the request is rejected, the status is not
    OK, or the body is not JSON) [getAIMessage] still returns a message: the
    assistant's, whose content is the apology around the reason of the
    failure. *)
Theorem failed_turn_is_answered (userQuery : string)
    (network : request -> reply) (p : page) (reason : string) :
  fails (network {| message := userQuery; sessionId := currentSessionId p |})
        reason ->
  snd (getAIMessage userQuery network p) = assistant (str (apology_text reason))
  /\ includes reason (apology_text reason) = true.
Proof.
  intro Hfails. split; [|apply includes_middle].
  unfold getAIMessage, attempt. cbv zeta.
  inversion Hfails as [e He | status b Hok He | status e Hok He];
    subst; try rewrite Hok; reflexivity.
Qed.

Lemma failed_turn_is_answered_witness :
  snd (getAIMessage "hello" backend_down fresh)
  = assistant (str (apology_text "Backend error: 500"))
  /\ includes "Backend error: 500" (apology_text "Backend error: 500") = true.
Proof.
  apply (failed_turn_is_answered "hello" backend_down fresh).
  apply (status_failure 500). reflexivity.
Defined.

(** Every turn posts the query together with the session id of the page. *)
Lemma attempt_posts (userQuery : string) (network : request -> reply)
    (p : page) :
  posted (fst (attempt userQuery network p))
  = {| message := userQuery; sessionId := currentSessionId p |} :: posted p.
Proof.
  unfold attempt. cbv zeta.
  destruct (network _) as [e|status [data|e]]; [reflexivity| |];
    destruct (negb (ok status)); try reflexivity.
  destruct (get (Some data) "sessionId") as [sid|e]; [|reflexivity].
  destruct (truthy sid); reflexivity.
Qed.

Lemma getAIMessage_posts (userQuery : string) (network : request -> reply)
    (p : page) :
  posted (fst (getAIMessage userQuery network p))
  = {| message := userQuery; sessionId := currentSessionId p |} :: posted p.
Proof.
  rewrite <- attempt_posts with (network := network). unfold getAIMessage.
  destruct (attempt userQuery network p) as [p' [m|e]]; reflexivity.
Qed.

(** C9.  When the request is answered with an OK status and a body that
    parses, and the body has a session id (a truthy [sessionId]), the page
    holds that id afterwards, whatever it held before; the next turn posts
    it; and [resetSession] puts [null] back. *)
Theorem session_id_is_kept (userQuery : string) (network : request -> reply)
    (p : page) (status : nat) (data : json) :
  network {| message := userQuery; sessionId := currentSessionId p |}
  = Response status (Parsed data) ->
  ok status = true ->
  truthy (own data "sessionId") = true ->
  let p' := fst (getAIMessage userQuery network p) in
  getCurrentSessionId p' = own data "sessionId"
  /\ (forall nextQuery network',
        hd_error (posted (fst (getAIMessage nextQuery network' p')))
        = Some {| message := nextQuery; sessionId := own data "sessionId" |})
  /\ getCurrentSessionId (resetSession p') = null.
Proof.
  intros Hreply Hok Hsid p'.
  assert (Hkept : getCurrentSessionId p' = own data "sessionId").
  { subst p'. unfold getAIMessage, attempt. cbv zeta.
    rewrite Hreply, Hok. simpl negb.
    cbv iota. rewrite get_own.
    - rewrite Hsid. destruct (formatBackendResponse data); reflexivity.
    - intros ->. discriminate. }
  repeat split.
  - exact Hkept.
  - intros nextQuery network'. rewrite getAIMessage_posts.
    unfold getCurrentSessionId in Hkept. rewrite Hkept. reflexivity.
Qed.

Lemma session_id_is_kept_witness :
  getCurrentSessionId (fst (getAIMessage "hello" backend_up fresh))
  = str "s-42".
Proof.
  apply (session_id_is_kept "hello" backend_up fresh 200 greeting);
    reflexivity.
Defined.

(** ** Product listings *)

Lemma append_assoc (a b c : string) : (a ++ b) ++ c = a ++ b ++ c.
Proof. induction a as [|x a IH]; simpl; [reflexivity|]. rewrite IH. reflexivity. Qed.

Lemma append_empty (a : string) : a ++ "" = a.
Proof. induction a as [|x a IH]; simpl; [reflexivity|]. rewrite IH. reflexivity. Qed.

Lemma join_parts_strings (texts : list string) :
  join_parts to_string (map JStr texts) = Ok texts.
Proof.
  induction texts as [|t texts IH]; simpl; [reflexivity|].
  rewrite IH. reflexivity.
Qed.

Lemma nothing_listed_array (d : json) (key : string) (items : list json) :
  own d key = Some (JArr items) ->
  d <> JNull ->
  truthy (Some d) = true ->
  nothing_listed (Some d) key = Ok (Nat.eqb (length items) 0).
Proof.
  intros Hlist Hnull Ht. unfold nothing_listed. rewrite Ht. simpl negb.
  cbv iota. rewrite (get_own d key Hnull), Hlist. simpl.
  change (NilZero.string_of_uint (Nat.to_uint (length items)))
    with (render (length items)).
  destruct items as [|x items]; [reflexivity|].
  destruct (String.eqb_spec (render (length (x :: items))) "0") as [H0|];
    [apply render_zero in H0; discriminate|reflexivity].
Qed.

Lemma append_compatibility_product (j : json) (p : product)
    (formatted : string) :
  is_product j p ->
  append_compatibility j formatted
  = Ok (formatted ++ compatibility_line (p_compatibility p)).
Proof.
  intros (Hname & _ & _ & _ & Hcompat & _).
  unfold append_compatibility.
  rewrite (get_own j _ (own_not_null _ _ _ Hname)). simpl bind.
  destruct Hcompat as [[-> ->] | ->].
  - simpl. rewrite append_empty. reflexivity.
  - rewrite nonempty_array. simpl bind.
    destruct (p_compatibility p) as [|model models] eqn:Hmodels.
    + simpl. rewrite append_empty. reflexivity.
    + rewrite <- Hmodels at 1 2. rewrite length_map, Hmodels. simpl negb.
      cbv iota. unfold join. rewrite join_parts_strings. reflexivity.
Qed.

Lemma product_entry_product (j : json) (p : product) (index : nat)
    (formatted : string) :
  is_product j p ->
  product_entry j index formatted
  = Ok (formatted ++ expected_entry (index + 1) p).
Proof.
  intros Hp.
  pose proof (append_compatibility_product j p) as Hline.
  specialize (fun f => Hline f Hp).
  destruct Hp as (Hname & Hid & Hprice & Hdescription & _ & Hstock).
  unfold product_entry.
  rewrite !(get_own j) by exact (own_not_null _ _ _ Hname).
  rewrite Hname, Hid, Hprice, Hdescription.
  cbn [bind ToString to_string str]. rewrite Hline. cbn [bind].
  rewrite Hstock. unfold expected_entry.
  repeat rewrite append_assoc. reflexivity.
Qed.

Lemma forEach_products (js : list json) (ps : list product) :
  Forall2 is_product js ps ->
  forall (index : nat) (formatted : string),
    forEach_from product_entry js index formatted
    = Ok (formatted ++ expected_entries (index + 1) ps).
Proof.
  induction 1 as [|j p js ps Hp _ IH]; intros index formatted; simpl.
  - rewrite append_empty. reflexivity.
  - rewrite (product_entry_product j p index formatted Hp). simpl bind.
    rewrite (IH (S index)). rewrite append_assoc. reflexivity.
Qed.

(** C3.  A successful [product_results] payload with a text and a list of
    well-formed products that is not empty is normalised to the text, a
    blank line, and then one entry per product, in the order of the list
    and numbered from 1, each with the name, id, price and description of
    its product.  For [found_widget] the result has "1. Widget",
    "Price: $9.99" and "In Stock: Yes" in it. *)
Theorem product_results_list_every_product :
  (forall (data response listing : json) (c : string) (js : list json)
          (ps : list product),
      truthy (own data "success") = true ->
      own data "response" = Some response ->
      own response "type" = str "product_results" ->
      own response "content" = str c ->
      own response "data" = Some listing ->
      own listing "products" = Some (JArr js) ->
      js <> [] ->
      Forall2 is_product js ps ->
      formatBackendResponse data
      = Ok (assistant (str (c ++ LF ++ LF ++ expected_entries 1 ps))))
  /\ (exists s,
        formatBackendResponse found_widget = Ok (assistant (str s))
        /\ includes "1. Widget" s = true
        /\ includes "Price: $9.99" s = true
        /\ includes "In Stock: Yes" s = true).
Proof.
  split.
  - intros data response listing c js ps
           Hsuccess Hresponse Htype Hcontent Hdata Hproducts Hjs Hps.
    assert (Hnull : response <> JNull) by exact (own_not_null _ _ _ Htype).
    assert (Hlisting : truthy (Some listing) = true)
      by (destruct listing; try discriminate; reflexivity).
    rewrite (dispatch data response Hsuccess Hresponse Hnull), Htype.
    simpl format_by_type. unfold formatProductResults.
    rewrite !(get_own response) by exact Hnull.
    rewrite Hcontent, Hdata. cbn [bind].
    rewrite (nothing_listed_array listing "products" js Hproducts
               (truthy_not_null _ Hlisting) Hlisting).
    destruct js as [|j js]; [contradiction|].
    cbn [bind ToString to_string str Nat.eqb length].
    rewrite (get_own listing) by exact (truthy_not_null _ Hlisting).
    rewrite Hproducts. cbn [bind forEach].
    rewrite (forEach_products _ _ Hps 0). cbn [bind Nat.add].
    rewrite !append_assoc. reflexivity.
  - eexists. split; [reflexivity|]. repeat split; reflexivity.
Qed.

Lemma product_results_list_every_product_witness :
  formatBackendResponse found_widget
  = Ok (assistant (str ("Found 1" ++ LF ++ LF
                        ++ expected_entries 1 [the_widget]))).
Proof.
  apply (proj1 product_results_list_every_product found_widget
           widget_response widget_listing "Found 1" [widget] [the_widget]);
    try reflexivity.
  - discriminate.
  - repeat constructor.
Defined.

(** ** Lists that hold items *)

Lemma own_array_truthy (d : json) (key : string) (js : list json) :
  own d key = Some (JArr js) -> truthy (Some d) = true.
Proof.
  destruct d; simpl; try discriminate; try reflexivity;
    destruct (key =? "length"); discriminate.
Qed.

Lemma listed_holds (data : value) (key : string) (js : list json) :
  holds_items data key js ->
  listed data key = Ok (negb (Nat.eqb (length js) 0)).
Proof.
  unfold listed.
  intros [[-> ->] | (d & -> & [[Hfalsy ->] | Hlist])]; [reflexivity| |].
  - destruct (truthy (Some d)) eqn:Ht; [|reflexivity].
    rewrite (get_own d key (truthy_not_null d Ht)). cbn [bind].
    apply nonempty_falsy, Hfalsy.
  - pose proof (own_array_truthy d key js Hlist) as Ht. rewrite Ht.
    rewrite (get_own d key (truthy_not_null d Ht)), Hlist. cbn [bind].
    apply nonempty_array.
Qed.

(** ** The text leads the output *)

Lemma extends_refl (f : string) : extends f f.
Proof. exists "". symmetry. apply append_empty. Qed.

Lemma extends_trans (f g h : string) : extends f g -> extends g h -> extends f h.
Proof.
  intros [t ->] [u ->]. exists (t ++ u). apply append_assoc.
Qed.

Lemma extends_append (f g t : string) : extends f g -> extends f (g ++ t).
Proof. intros [u ->]. exists (u ++ t). apply append_assoc. Qed.

Create HintDb grows.
#[local] Hint Resolve extends_refl extends_append : grows.

(** Reading a monadic equation [x <- m ;; k = Ok r] backwards. *)
Ltac bind_inv H :=
  match type of H with
  | bind ?m _ = Ok _ =>
      let E := fresh "E" in
      destruct m eqn:E; cbn [bind] in H; [|discriminate H]
  | (if ?b then _ else _) = Ok _ => destruct b
  | Ok _ = Ok _ => injection H as H
  end.

Lemma forEach_from_extends (callback : json -> nat -> string -> result string) :
  (forall x i g g', callback x i g = Ok g' -> extends g g') ->
  forall items index f f',
    forEach_from callback items index f = Ok f' -> extends f f'.
Proof.
  intros Hcallback. induction items as [|x items IH]; intros index f f' H;
    cbn [forEach_from] in H.
  - injection H as <-. apply extends_refl.
  - bind_inv H. eapply extends_trans; [eapply Hcallback, E|eapply IH, H].
Qed.

Lemma forEach_extends (callee : string) (v : value)
    (callback : json -> nat -> string -> result string) (f f' : string) :
  (forall x i g g', callback x i g = Ok g' -> extends g g') ->
  forEach callee v callback f = Ok f' -> extends f f'.
Proof.
  intros Hcallback H. destruct v as [[| | | |items|]|]; try discriminate H.
  exact (forEach_from_extends callback Hcallback items 0 f f' H).
Qed.

Lemma bullet_extends (x : json) (i : nat) (g g' : string) :
  bullet x i g = Ok g' -> extends g g'.
Proof.
  unfold bullet. intro H. repeat bind_inv H. subst g'. auto with grows.
Qed.

Lemma solution_step_extends (x : json) (i : nat) (g g' : string) :
  solution_step x i g = Ok g' -> extends g g'.
Proof.
  unfold solution_step. intro H. repeat bind_inv H. subst g'. auto with grows.
Qed.

Lemma append_compatibility_extends (x : json) (g g' : string) :
  append_compatibility x g = Ok g' -> extends g g'.
Proof.
  unfold append_compatibility. intro H. repeat bind_inv H; subst g';
    auto with grows.
Qed.

Lemma append_tools_extends (x : json) (g g' : string) :
  append_tools x g = Ok g' -> extends g g'.
Proof.
  unfold append_tools. intro H. repeat bind_inv H; subst g'; auto with grows.
Qed.

Lemma append_tips_extends (x : json) (g g' : string) :
  append_tips x g = Ok g' -> extends g g'.
Proof.
  unfold append_tips. intro H. do 3 bind_inv H.
  - apply forEach_extends in H; [|exact bullet_extends].
    eapply extends_trans; [|exact H]. auto with grows.
  - injection H as <-. apply extends_refl.
Qed.

Lemma append_warnings_extends (x : json) (g g' : string) :
  append_warnings x g = Ok g' -> extends g g'.
Proof.
  unfold append_warnings. intro H. do 3 bind_inv H.
  - apply forEach_extends in H; [|exact bullet_extends].
    eapply extends_trans; [|exact H]. auto with grows.
  - injection H as <-. apply extends_refl.
Qed.

Lemma append_solution_steps_extends (x : json) (g g' : string) :
  append_solution_steps x g = Ok g' -> extends g g'.
Proof.
  unfold append_solution_steps. intro H. do 3 bind_inv H.
  - exact (forEach_extends _ _ _ _ _ solution_step_extends H).
  - injection H as <-. apply extends_refl.
Qed.

Lemma append_recommendedParts_extends (x : json) (g g' : string) :
  append_recommendedParts x g = Ok g' -> extends g g'.
Proof.
  unfold append_recommendedParts. intro H. repeat bind_inv H; subst g';
    auto with grows.
Qed.

Lemma product_entry_extends (x : json) (i : nat) (g g' : string) :
  product_entry x i g = Ok g' -> extends g g'.
Proof.
  unfold product_entry. cbv zeta. intro H. repeat bind_inv H. subst g'.
  match goal with
  | E : append_compatibility _ _ = Ok _ |- _ =>
      apply append_compatibility_extends in E
  end.
  apply extends_append. eapply extends_trans; [|eassumption].
  auto 10 with grows.
Qed.

Lemma step_entry_extends (x : json) (i : nat) (g g' : string) :
  step_entry x i g = Ok g' -> extends g g'.
Proof.
  unfold step_entry. cbv zeta. intro H. repeat bind_inv H. subst g'.
  repeat match goal with
         | E : append_tools _ _ = Ok _ |- _ => apply append_tools_extends in E
         | E : append_tips _ _ = Ok _ |- _ => apply append_tips_extends in E
         | E : append_warnings _ _ = Ok _ |- _ =>
             apply append_warnings_extends in E
         end.
  apply extends_append.
  repeat (eapply extends_trans; [|eassumption]).
  auto with grows.
Qed.

Lemma cause_entry_extends (x : json) (i : nat) (g g' : string) :
  cause_entry x i g = Ok g' -> extends g g'.
Proof.
  unfold cause_entry. cbv zeta. intro H. repeat bind_inv H. subst g'.
  auto 10 with grows.
Qed.

Lemma solution_entry_extends (x : json) (i : nat) (g g' : string) :
  solution_entry x i g = Ok g' -> extends g g'.
Proof.
  unfold solution_entry. cbv zeta. intro H. repeat bind_inv H. subst g'.
  repeat match goal with
         | E : append_solution_steps _ _ = Ok _ |- _ =>
             apply append_solution_steps_extends in E
         | E : append_recommendedParts _ _ = Ok _ |- _ =>
             apply append_recommendedParts_extends in E
         end.
  apply extends_append.
  eapply extends_trans; [|eassumption]. apply extends_append.
  eapply extends_trans; [|eassumption]. auto with grows.
Qed.

Lemma append_possibleCauses_extends (data : value) (g g' : string) :
  append_possibleCauses data g = Ok g' -> extends g g'.
Proof.
  unfold append_possibleCauses. intro H. do 2 bind_inv H.
  - bind_inv H. apply forEach_extends in H; [|exact cause_entry_extends].
    eapply extends_trans; [|exact H]. auto with grows.
  - injection H as <-. apply extends_refl.
Qed.

Lemma append_suggestedSolutions_extends (data : value) (g g' : string) :
  append_suggestedSolutions data g = Ok g' -> extends g g'.
Proof.
  unfold append_suggestedSolutions. intro H. do 2 bind_inv H.
  - bind_inv H. apply forEach_extends in H; [|exact solution_entry_extends].
    eapply extends_trans; [|exact H]. auto with grows.
  - injection H as <-. apply extends_refl.
Qed.

Lemma prefix_refl (c : string) : prefix c c = true.
Proof. rewrite <- (append_empty c) at 2. apply prefix_append. Qed.

Lemma prefix_extends (c t f : string) : extends (c ++ t) f -> prefix c f = true.
Proof. intros [u ->]. rewrite append_assoc. apply prefix_append. Qed.

Lemma or_else_leads (c fallback : string) :
  exists s, or_else (str c) (str fallback) = str s /\ prefix c s = true.
Proof.
  unfold or_else. simpl truthy.
  destruct (String.eqb_spec c "") as [->|_]; simpl negb; cbv iota.
  - exists fallback. split; [reflexivity|destruct fallback; reflexivity].
  - exists c. split; [reflexivity|apply prefix_refl].
Qed.

Section TextLeads.

Variables (response : json) (c : string).
Hypothesis has_content : own response "content" = str c.

Let response_not_null : response <> JNull := own_not_null _ _ _ has_content.

Lemma formatProductResults_leads (v : value) :
  formatProductResults (Some response) = Ok v ->
  exists s, v = str s /\ prefix c s = true.
Proof.
  unfold formatProductResults.
  rewrite !(get_own response) by exact response_not_null.
  rewrite has_content. cbn [bind]. intro H. do 2 bind_inv H.
  - injection H as <-. apply or_else_leads.
  - cbn [ToString to_string str bind] in H. cbv zeta in H.
    repeat bind_inv H. subst v. eexists. split; [reflexivity|].
    eapply prefix_extends, forEach_extends; [exact product_entry_extends|].
    eassumption.
Qed.

Lemma formatInstallationGuide_leads (v : value) :
  formatInstallationGuide (Some response) = Ok v ->
  exists s, v = str s /\ prefix c s = true.
Proof.
  unfold formatInstallationGuide.
  rewrite !(get_own response) by exact response_not_null.
  rewrite has_content. cbn [bind]. intro H. do 2 bind_inv H.
  - injection H as <-. apply or_else_leads.
  - cbn [ToString to_string str bind] in H. cbv zeta in H.
    repeat bind_inv H. subst v. eexists. split; [reflexivity|].
    match goal with
    | E : forEach _ _ step_entry _ = Ok _ |- _ =>
        apply forEach_extends in E; [|exact step_entry_extends];
        destruct E as [u ->]
    end.
    repeat rewrite append_assoc. apply prefix_append.
Qed.

Lemma formatTroubleshooting_leads (v : value) :
  formatTroubleshooting (Some response) = Ok v ->
  exists s, v = str s /\ prefix c s = true.
Proof.
  unfold formatTroubleshooting.
  rewrite !(get_own response) by exact response_not_null.
  rewrite has_content. cbn [bind ToString to_string str]. cbv zeta.
  intro H. repeat bind_inv H. subst v. eexists. split; [reflexivity|].
  apply (prefix_extends c (LF ++ LF)).
  match goal with
  | E1 : append_possibleCauses _ _ = Ok ?a,
    E2 : append_suggestedSolutions _ ?a = Ok _ |- _ =>
      apply append_possibleCauses_extends in E1;
      apply append_suggestedSolutions_extends in E2;
      exact (extends_trans _ _ _ E1 E2)
  end.
Qed.

End TextLeads.

(** X3.  Whatever a successful payload has under [data], when its text
    [content] is a string and normalising it returns at all, the result is
    a string that begins with that text; under the [error] tag it is
    "Error: " followed by the text. *)
Theorem text_leads_the_output (data response : json) (c : string)
    (m : ChatMessage) :
  truthy (own data "success") = true ->
  own data "response" = Some response ->
  own response "content" = str c ->
  formatBackendResponse data = Ok m ->
  exists s,
    m = assistant (str s)
    /\ (own response "type" = str "error" -> s = "Error: " ++ c)
    /\ (own response "type" <> str "error" -> prefix c s = true).
Proof.
  intros Hsuccess Hresponse Hcontent.
  assert (Hnull : response <> JNull) by exact (own_not_null _ _ _ Hcontent).
  rewrite (dispatch data response Hsuccess Hresponse Hnull).
  assert (Hget : get (Some response) "content" = Ok (str c))
    by (rewrite get_own, Hcontent by assumption; reflexivity).
  generalize (own response "type"). intro type.
  assert (Hpass : forall m',
            (content <- Ok (str c) ;; Ok (assistant content)) = Ok m' ->
            type <> str "error" ->
            exists s, m' = assistant (str s)
              /\ (type = str "error" -> s = "Error: " ++ c)
              /\ (type <> str "error" -> prefix c s = true)).
  { intros m' H Htag. injection H as <-. exists c.
    repeat split; [contradiction|intros _; apply prefix_refl]. }
  assert (Hlead : forall v m',
            (exists s, v = str s /\ prefix c s = true) ->
            (content <- Ok v ;; Ok (assistant content)) = Ok m' ->
            type <> str "error" ->
            exists s, m' = assistant (str s)
              /\ (type = str "error" -> s = "Error: " ++ c)
              /\ (type <> str "error" -> prefix c s = true)).
  { intros v m' (s & -> & Hs) H Htag. injection H as <-. exists s.
    repeat split; [contradiction|intros _; exact Hs]. }
  unfold format_by_type.
  destruct type as [[| | |tag| |]|];
    try (rewrite Hget; intro H; apply (Hpass m H); discriminate).
  repeat match goal with
         | |- context [String.eqb tag ?t] =>
             destruct (String.eqb_spec tag t); [subst tag|]
         end;
    try (rewrite Hget; intro H; apply (Hpass m H); unfold str; congruence).
  - intro H. bind_inv H.
    match goal with
    | E : formatProductResults _ = Ok ?v |- _ =>
        apply (Hlead v m (formatProductResults_leads response c Hcontent v E) H)
    end.
    discriminate.
  - intro H. bind_inv H.
    match goal with
    | E : formatInstallationGuide _ = Ok ?v |- _ =>
        apply (Hlead v m (formatInstallationGuide_leads response c Hcontent v E) H)
    end.
    discriminate.
  - intro H. bind_inv H.
    match goal with
    | E : formatTroubleshooting _ = Ok ?v |- _ =>
        apply (Hlead v m (formatTroubleshooting_leads response c Hcontent v E) H)
    end.
    discriminate.
  - rewrite Hget. cbn [bind ToString to_string str]. intro H.
    injection H as <-. exists ("Error: " ++ c).
    repeat split. intro Hno. contradiction Hno. reflexivity.
Qed.

Lemma text_leads_the_output_witness :
  exists s,
    assistant (str "Error: Out of stock") = assistant (str s)
    /\ (own out_of_stock_response "type" = str "error"
        -> s = "Error: " ++ "Out of stock")
    /\ (own out_of_stock_response "type" <> str "error"
        -> prefix "Out of stock" s = true).
Proof.
  apply (text_leads_the_output out_of_stock out_of_stock_response
           "Out of stock"); reflexivity.
Defined.

(** ** The session across turns *)

Lemma turn_keeps_or_adopts (userQuery : string) (network : request -> reply)
    (p : page) :
  getCurrentSessionId (fst (getAIMessage userQuery network p))
  = getCurrentSessionId p
  \/ exists status data,
       network {| message := userQuery; sessionId := currentSessionId p |}
       = Response status (Parsed data)
       /\ ok status = true
       /\ truthy (own data "sessionId") = true
       /\ getCurrentSessionId (fst (getAIMessage userQuery network p))
          = own data "sessionId".
Proof.
  unfold getAIMessage, attempt. cbv zeta.
  destruct (network _) as [e|status [data|e]] eqn:Hreply;
    [left; reflexivity| |destruct (negb (ok status)); left; reflexivity].
  destruct (ok status) eqn:Hok; [|left; reflexivity]. simpl negb. cbv iota.
  destruct data; try (destruct (formatBackendResponse _); left; reflexivity);
    match goal with
    | |- context [get (Some ?d) "sessionId"] =>
        rewrite (get_own d "sessionId") by discriminate;
        destruct (truthy (own d "sessionId")) eqn:Hsid;
        [right; exists status, d; repeat split; try assumption;
         destruct (formatBackendResponse d); reflexivity
        |destruct (formatBackendResponse d); left; reflexivity]
    end.
Qed.

(** X4.  A turn changes the session id only when the backend answers with
    an OK status and a body that names a truthy [sessionId], and then to
    that id: on a rejected request, a status that is not OK, a body that
    does not parse or names no id, the id is kept.  So a session, once
    open (a truthy id), stays open over every turn. *)
Theorem session_id_changes_only_on_a_new_id (userQuery : string)
    (network : request -> reply) (p : page) :
  let p' := fst (getAIMessage userQuery network p) in
  (getCurrentSessionId p' = getCurrentSessionId p
   \/ exists status data,
        network {| message := userQuery; sessionId := currentSessionId p |}
        = Response status (Parsed data)
        /\ ok status = true
        /\ truthy (own data "sessionId") = true
        /\ getCurrentSessionId p' = own data "sessionId")
  /\ (truthy (getCurrentSessionId p) = true ->
      truthy (getCurrentSessionId p') = true).
Proof.
  intro p'. subst p'.
  pose proof (turn_keeps_or_adopts userQuery network p) as Hturn.
  split; [exact Hturn|]. intro Hopen.
  destruct Hturn as [Hkept | (status & data & _ & _ & Hsid & Hnew)].
  - rewrite Hkept. exact Hopen.
  - rewrite Hnew. exact Hsid.
Qed.

Lemma session_id_changes_only_on_a_new_id_witness :
  truthy (getCurrentSessionId
            (fst (getAIMessage "and now?" backend_down in_session))) = true.
Proof.
  apply (proj2 (session_id_changes_only_on_a_new_id "and now?" backend_down
                  in_session)).
  reflexivity.
Defined.

(** X5.  When the backend answers with an OK status and a body that
    parses (to anything but [null]) and formatting that body throws,
    [getAIMessage] returns the apology around the message of the error
    thrown, and a truthy [sessionId] of the body has been stored all the
    same. *)
Theorem shape_violation_is_answered (userQuery : string)
    (network : request -> reply) (p : page) (status : nat) (data : json)
    (e : exn) :
  network {| message := userQuery; sessionId := currentSessionId p |}
  = Response status (Parsed data) ->
  ok status = true ->
  data <> JNull ->
  formatBackendResponse data = Throw e ->
  snd (getAIMessage userQuery network p)
  = assistant (str (apology_text (exn_message e)))
  /\ (truthy (own data "sessionId") = true ->
      getCurrentSessionId (fst (getAIMessage userQuery network p))
      = own data "sessionId").
Proof.
  intros Hreply Hok Hnull Hthrow.
  unfold getAIMessage, attempt. cbv zeta.
  rewrite Hreply, Hok. simpl negb. cbv iota.
  rewrite (get_own data "sessionId" Hnull), Hthrow.
  split; [reflexivity|]. intros ->. reflexivity.
Qed.

Lemma shape_violation_is_answered_witness :
  snd (getAIMessage "hello" backend_shapeless fresh)
  = assistant (str (apology_text
      "Cannot read properties of undefined (reading 'type')"))
  /\ (truthy (own session_only "sessionId") = true ->
      getCurrentSessionId (fst (getAIMessage "hello" backend_shapeless fresh))
      = own session_only "sessionId").
Proof.
  apply (shape_violation_is_answered "hello" backend_shapeless fresh 200
           session_only
           (TypeError "Cannot read properties of undefined (reading 'type')"));
    try reflexivity.
  discriminate.
Defined.

(** ** The chat window *)

Lemma skip_blanks_bounded (n : nat) :
  forall s, String.length s <= n -> skip_blanks (skip_blanks s) = skip_blanks s.
Proof.
  induction n as [|n IH]; intros s Hn.
  - destruct s; [reflexivity|simpl in Hn; inversion Hn].
  - destruct s as [|a [|b [|c r3]]]; simpl in Hn.
    + reflexivity.
    + cbn [skip_blanks]. destruct (blank1 (nat_of_ascii a)) eqn:Ha;
        [reflexivity|]. cbn [skip_blanks]. rewrite Ha. reflexivity.
    + cbn [skip_blanks]. destruct (blank1 (nat_of_ascii a)) eqn:Ha.
      * apply (IH (String b "")). simpl.
        apply le_S_n in Hn. exact Hn.
      * destruct (blank2 (nat_of_ascii a) (nat_of_ascii b)) eqn:Hab;
          [reflexivity|]. cbn [skip_blanks]. rewrite Ha, Hab. reflexivity.
    + cbn [skip_blanks]. destruct (blank1 (nat_of_ascii a)) eqn:Ha.
      * apply (IH (String b (String c r3))). simpl.
        apply le_S_n in Hn. exact Hn.
      * destruct (blank2 (nat_of_ascii a) (nat_of_ascii b)) eqn:Hab.
        -- apply (IH (String c r3)). simpl.
           apply le_S_n in Hn. apply Nat.le_trans with (2 := Hn).
           apply Nat.le_succ_diag_r.
        -- destruct (blank3 (nat_of_ascii a) (nat_of_ascii b)
                       (nat_of_ascii c)) eqn:Habc.
           ++ apply (IH r3).
              apply le_S_n in Hn. apply Nat.le_trans with (2 := Hn).
              apply Nat.le_trans with (1 := Nat.le_succ_diag_r _).
              apply Nat.le_succ_diag_r.
           ++ cbn [skip_blanks]. rewrite Ha, Hab, Habc. reflexivity.
Qed.

Lemma skip_blanks_idem (s : string) :
  skip_blanks (skip_blanks s) = skip_blanks s.
Proof. exact (skip_blanks_bounded (String.length s) s (Nat.le_refl _)). Qed.

(** [trim] gives the empty string on blanks only, and on nothing else. *)
Lemma trim_blank (s : string) : only_blanks s = true -> trim s = "".
Proof.
  unfold only_blanks, trim. intro H. apply String.eqb_eq in H.
  rewrite H. reflexivity.
Qed.

Lemma trim_not_blank (s : string) : only_blanks s = false -> trim s <> "".
Proof.
  unfold only_blanks, trim. intro H.
  destruct (skip_blanks s) as [|c r] eqn:Hs; [discriminate|].
  cbn [trim_end]. unfold only_blanks. rewrite <- Hs, skip_blanks_idem, Hs.
  simpl. discriminate.
Qed.

Lemma getAIMessage_role (userQuery : string) (network : request -> reply)
    (p : page) :
  role (snd (getAIMessage userQuery network p)) = "assistant".
Proof.
  unfold getAIMessage.
  destruct (attempt userQuery network p) as [p' [m|e]] eqn:Hattempt;
    [|reflexivity].
  unfold attempt in Hattempt.
  repeat match type of Hattempt with
         | context [match ?x with _ => _ end] => destruct x
         end;
    try discriminate;
    injection Hattempt as _ Hm;
    apply (formatBackendResponse_role _ _ Hm).
Qed.

(** What a send does to the window and the page when there is something
    to send. *)
Lemma handleSend_sends (network : request -> reply) (w : window) (p : page) :
  trim (input w) <> "" ->
  handleSend network w p
  = ({| messages :=
          (messages w
           ++ [{| role := "user"; content := str (trim (input w)) |};
               snd (getAIMessage (trim (input w)) network p)])%list;
        input := "";
        isLoading := false |},
     fst (getAIMessage (trim (input w)) network p)).
Proof.
  intro Hu. unfold handleSend. cbv zeta.
  destruct (String.eqb_spec (trim (input w)) "") as [H|_]; [contradiction|].
  destruct (getAIMessage (trim (input w)) network p) as [p' m].
  cbn [fst snd]. rewrite <- app_assoc. reflexivity.
Qed.

(** X7.  Sending a blank input (empty, or blanks only) does nothing: no
    message is added and nothing is posted.  Sending anything else appends
    exactly two messages after those there were: the user's, with the input
    trimmed, and then the assistant's answer to it; it empties the input,
    ends with [isLoading] off, and posts one request, with the trimmed text
    and the session id of the page. *)
Theorem send_appends_one_turn (network : request -> reply) (w : window)
    (p : page) :
  (only_blanks (input w) = true -> handleSend network w p = (w, p))
  /\ (only_blanks (input w) = false ->
      let u := trim (input w) in
      let answer := snd (getAIMessage u network p) in
      u <> ""
      /\ messages (fst (handleSend network w p))
         = (messages w ++ [{| role := "user"; content := str u |}; answer])%list
      /\ role answer = "assistant"
      /\ input (fst (handleSend network w p)) = ""
      /\ isLoading (fst (handleSend network w p)) = false
      /\ posted (snd (handleSend network w p))
         = {| message := u; sessionId := currentSessionId p |} :: posted p).
Proof.
  split.
  - intro Hblank. unfold handleSend. rewrite (trim_blank _ Hblank).
    reflexivity.
  - intros Hword u answer. pose proof (trim_not_blank _ Hword) as Hu.
    subst u answer. rewrite (handleSend_sends network w p Hu). cbn [fst snd].
    repeat split; try reflexivity.
    + exact Hu.
    + apply getAIMessage_role.
    + apply getAIMessage_posts.
Qed.

Lemma send_appends_one_turn_witness :
  messages (fst (handleSend backend_up typed fresh))
  = (defaultMessage
     ++ [{| role := "user"; content := str "hello there" |};
         assistant (str "Hello")])%list.
Proof.
  apply (proj2 (send_appends_one_turn backend_up typed fresh)).
  reflexivity.
Defined.

Lemma dialogue_app (l l' : list ChatMessage) :
  dialogue l -> dialogue l' -> dialogue (l ++ l').
Proof.
  induction 1 as [|u a rest Hu Ha _ IH]; intro Hl'; [exact Hl'|].
  simpl. constructor; auto.
Qed.

(** ** Items that are [null] *)

Lemma returns_bind {A B : Type} (m : result A) (k : A -> result B) :
  (forall a, m = Ok a -> returns (k a) = false) -> returns (bind m k) = false.
Proof. destruct m as [a|e]; intro H; [exact (H a eq_refl)|reflexivity]. Qed.

Lemma returns_bind_first {A B : Type} (m : result A) (k : A -> result B) :
  returns m = false -> returns (bind m k) = false.
Proof. destruct m; [discriminate|reflexivity]. Qed.

Lemma forEach_from_null (callback : json -> nat -> string -> result string) :
  (forall i f, returns (callback JNull i f) = false) ->
  forall items index f,
    In JNull items -> returns (forEach_from callback items index f) = false.
Proof.
  intros Hnull. induction items as [|x items IH]; intros index f Hin;
    [contradiction|].
  cbn [forEach_from]. apply returns_bind. intros f' Hf'.
  destruct Hin as [-> | Hin]; [|apply IH, Hin].
  specialize (Hnull index f). rewrite Hf' in Hnull. discriminate.
Qed.

Lemma forEach_null (callee : string) (items : list json)
    (callback : json -> nat -> string -> result string) (f : string) :
  (forall i g, returns (callback JNull i g) = false) ->
  In JNull items ->
  returns (forEach callee (Some (JArr items)) callback f) = false.
Proof. intros Hnull Hin. exact (forEach_from_null callback Hnull items 0 f Hin). Qed.

Lemma nonempty_listed (d : json) (key : string) (items : list json) :
  own d key = Some (JArr items) ->
  In JNull items ->
  d <> JNull
  /\ nothing_listed (Some d) key = Ok false
  /\ listed (Some d) key = Ok true
  /\ get (Some d) key = Ok (Some (JArr items)).
Proof.
  intros Hlist Hin.
  pose proof (own_array_truthy d key items Hlist) as Ht.
  pose proof (truthy_not_null d Ht) as Hnull.
  destruct items as [|x items]; [contradiction|].
  repeat split.
  - exact Hnull.
  - rewrite (nothing_listed_array d key _ Hlist Hnull Ht). reflexivity.
  - rewrite (listed_holds (Some d) key (x :: items)); [reflexivity|].
    right. exists d. split; [reflexivity|]. right. exact Hlist.
  - rewrite (get_own d key Hnull), Hlist. reflexivity.
Qed.

(** X9.  A [null] among the items of a list that the format of the
    payload's type goes through ([products], [steps], [possibleCauses],
    [suggestedSolutions]) makes normalising the payload throw: no output is
    returned for the rest of the list either. *)
Theorem null_item_throws (data response d : json) (key : string)
    (items : list json) :
  truthy (own data "success") = true ->
  own data "response" = Some response ->
  own response "data" = Some d ->
  In key (lists_read (own response "type")) ->
  own d key = Some (JArr items) ->
  In JNull items ->
  returns (formatBackendResponse data) = false.
Proof.
  intros Hsuccess Hresponse Hdata Hkey Hlist Hin.
  assert (Hnull : response <> JNull) by exact (own_not_null _ _ _ Hdata).
  destruct (nonempty_listed d key items Hlist Hin)
    as (Hd & Hnothing & Hlisted & Hget).
  rewrite (dispatch data response Hsuccess Hresponse Hnull).
  apply returns_bind_first. unfold format_by_type, lists_read in *.
  destruct (own response "type") as [[| | |tag| |]|]; try contradiction.
  repeat match type of Hkey with
         | context [String.eqb tag ?t] =>
             destruct (String.eqb_spec tag t); [subst tag|]
         end; try contradiction; simpl in Hkey.
  - destruct Hkey as [<- | []]. simpl. unfold formatProductResults.
    rewrite !(get_own response) by exact Hnull. rewrite Hdata. cbn [bind].
    rewrite Hnothing. cbn [bind]. apply returns_bind. intros head _.
    cbv zeta. rewrite Hget. cbn [bind]. apply returns_bind_first.
    apply forEach_null; [reflexivity|exact Hin].
  - destruct Hkey as [<- | []]. simpl. unfold formatInstallationGuide.
    rewrite !(get_own response) by exact Hnull. rewrite Hdata. cbn [bind].
    rewrite Hnothing. cbn [bind]. cbv zeta.
    do 5 (apply returns_bind; intros ? _).
    rewrite Hget. cbn [bind]. apply returns_bind_first.
    apply forEach_null; [reflexivity|exact Hin].
  - simpl. unfold formatTroubleshooting.
    rewrite !(get_own response) by exact Hnull. rewrite Hdata. cbn [bind].
    apply returns_bind. intros head _. cbv zeta.
    destruct Hkey as [<- | [<- | []]].
    + apply returns_bind_first. unfold append_possibleCauses.
      rewrite Hlisted. cbn [bind]. rewrite Hget. cbn [bind].
      apply forEach_null; [reflexivity|exact Hin].
    + apply returns_bind. intros formatted _. apply returns_bind_first.
      unfold append_suggestedSolutions.
      rewrite Hlisted. cbn [bind]. rewrite Hget. cbn [bind].
      apply forEach_null; [reflexivity|exact Hin].
Qed.

Lemma null_item_throws_witness :
  returns (formatBackendResponse hole_in_the_list) = false.
Proof.
  apply (null_item_throws hole_in_the_list hole_response hole_data "products"
           [widget; JNull]); try reflexivity.
  - left. reflexivity.
  - right. left. reflexivity.
Defined.

(** ** Lists that are no arrays *)

Lemma forEach_not_array (callee : string) (v : value)
    (callback : json -> nat -> string -> result string) (f : string) :
  (forall items, v <> Some (JArr items)) ->
  returns (forEach callee v callback f) = false.
Proof.
  intro Hv. destruct v as [[| | | |items|]|]; try reflexivity.
  contradiction (Hv items). reflexivity.
Qed.

Lemma returned_not_thrown {A : Type} (m : result A) (a : A) :
  m = Ok a -> returns m = false -> False.
Proof. intros ->. discriminate. Qed.

(** X10.  A [products] (or [steps]) that is there but is no array is never
    listed: normalising the payload throws, or gives what the payload gives
    without the list, its [content] or the fallback text. *)
Theorem non_array_is_never_listed (data response d : json)
    (key fallback : string) (m : ChatMessage) :
  truthy (own data "success") = true ->
  own data "response" = Some response ->
  own response "data" = Some d ->
  listing_of (own response "type") key fallback ->
  (forall items, own d key <> Some (JArr items)) ->
  formatBackendResponse data = Ok m ->
  m = assistant (or_else (own response "content") (str fallback)).
Proof.
  intros Hsuccess Hresponse Hdata Hlisting Hkey.
  assert (Hnull : response <> JNull) by exact (own_not_null _ _ _ Hdata).
  assert (Hget : forall v, get (Some d) key = Ok v ->
                   forall items, v <> Some (JArr items)).
  { intros v Hv. destruct d; try discriminate Hv;
      injection Hv as <-; exact Hkey. }
  rewrite (dispatch data response Hsuccess Hresponse Hnull).
  destruct Hlisting as [(-> & -> & ->) | (-> & -> & ->)];
    simpl format_by_type.
  - unfold formatProductResults.
    rewrite !(get_own response) by exact Hnull. rewrite Hdata. cbn [bind].
    intro H. bind_inv H. injection H as <-.
    match goal with E : _ = Ok _ |- _ => rename E into Hf end.
    do 2 bind_inv Hf; [injection Hf as <-; reflexivity|].
    exfalso. apply (returned_not_thrown _ _ Hf).
    cbv zeta. apply returns_bind. intros head _.
    apply returns_bind. intros v Hv. apply returns_bind_first.
    apply forEach_not_array, (Hget v Hv).
  - unfold formatInstallationGuide.
    rewrite !(get_own response) by exact Hnull. rewrite Hdata. cbn [bind].
    intro H. bind_inv H. injection H as <-.
    match goal with E : _ = Ok _ |- _ => rename E into Hf end.
    do 2 bind_inv Hf; [injection Hf as <-; reflexivity|].
    exfalso. apply (returned_not_thrown _ _ Hf).
    cbv zeta. do 5 (apply returns_bind; intros ? _).
    apply returns_bind. intros v Hv. apply returns_bind_first.
    apply forEach_not_array, (Hget v Hv).
Qed.

Lemma non_array_is_never_listed_witness :
  assistant (str "Guide")
  = assistant (or_else (own steps_object_response "content")
                       (str "No installation steps available")).
Proof.
  apply (non_array_is_never_listed steps_object steps_object_response
           steps_object_data "steps" "No installation steps available");
    try reflexivity.
  - right. repeat split.
  - discriminate.
Defined.


(** ** Exactly what is printed *)

(** The three guards, by what they let through. *)
Lemma skipped_nonempty (v : value) : skipped v <-> nonempty v = Ok false.
Proof.
  unfold nonempty. split.
  - intros [-> | (j & -> & Hlength)]; [reflexivity|].
    destruct (truthy (Some j)) eqn:Ht; [|reflexivity].
    rewrite (get_own j "length" (truthy_not_null j Ht)). exact Hlength.
  - destruct (truthy v) eqn:Ht; [|intros _; left; exact Ht].
    destruct v as [j|]; [|discriminate Ht].
    rewrite (get_own j "length" (truthy_not_null j Ht)).
    intro Hlength. right. exists j. auto.
Qed.

Lemma strictly_zero_inv (v : value) :
  strictly_zero v = true <-> v = Some (JNum "0").
Proof.
  split; [|intros ->; reflexivity].
  destruct v as [[| |t| | |]|]; try discriminate.
  cbn [strictly_zero]. intro H. apply String.eqb_eq in H. subst. reflexivity.
Qed.

Lemma nothing_under_listed (data : value) (key : string) :
  nothing_under data key <-> nothing_listed data key = Ok true.
Proof.
  unfold nothing_listed. split.
  - intros [-> | (d & -> & Hlist)]; [reflexivity|].
    destruct (truthy (Some d)) eqn:Ht; [|reflexivity]. cbn [negb].
    rewrite (get_own d key (truthy_not_null d Ht)). cbn [bind].
    destruct Hlist as [-> | (j & Hj & Hlength)]; [reflexivity|].
    rewrite Hj. destruct (truthy (Some j)) eqn:Htj; [|reflexivity].
    cbn [negb]. rewrite (get_own j "length" (truthy_not_null j Htj)), Hlength.
    reflexivity.
  - destruct (truthy data) eqn:Ht; [|intros _; left; exact Ht]. cbn [negb].
    destruct data as [d|]; [|discriminate Ht].
    rewrite (get_own d key (truthy_not_null d Ht)). cbn [bind].
    intro H. right. exists d. split; [reflexivity|].
    destruct (truthy (own d key)) eqn:Htj; [|left; reflexivity].
    cbn [negb] in H. destruct (own d key) as [j|]; [|discriminate Htj].
    rewrite (get_own j "length" (truthy_not_null j Htj)) in H.
    cbn [bind] in H. injection H as H. apply strictly_zero_inv in H.
    right. exists j. auto.
Qed.

Lemma unlisted_listed (data : value) (key : string) :
  unlisted data key <-> listed data key = Ok false.
Proof.
  unfold listed. split.
  - intros [-> | (d & -> & Hskipped)]; [reflexivity|].
    destruct (truthy (Some d)) eqn:Ht; [|reflexivity].
    rewrite (get_own d key (truthy_not_null d Ht)). cbn [bind].
    apply skipped_nonempty, Hskipped.
  - destruct (truthy data) eqn:Ht; [|intros _; left; exact Ht].
    destruct data as [d|]; [|discriminate Ht].
    rewrite (get_own d key (truthy_not_null d Ht)). cbn [bind].
    intro H. right. exists d. split; [reflexivity|].
    apply skipped_nonempty, H.
Qed.

Lemma bind_Ok {A B : Type} (m : result A) (k : A -> result B) (b : B) :
  bind m k = Ok b -> exists a, m = Ok a /\ k a = Ok b.
Proof. destruct m as [a|e]; [exists a; auto|discriminate]. Qed.

Lemma get_Ok (x : value) (k : string) (v : value) :
  get x k = Ok v -> exists j, x = Some j /\ j <> JNull /\ v = own j k.
Proof.
  destruct x as [j|]; [|discriminate]. intro H. exists j.
  destruct j; try discriminate H; injection H as <-;
    repeat split; discriminate.
Qed.

(** What a [forEach] over entries appends, from what its callback appends
    for one entry. *)
Section ForEachExactly.

Variable P : Type.
Variable rel : json -> P -> Prop.
Variable block : nat -> P -> string.
Variable entries : nat -> list P -> string.
Variable callback : json -> nat -> string -> result string.

Hypothesis entries_nil : forall n, entries n [] = "".
Hypothesis entries_cons :
  forall n p ps, entries n (p :: ps) = block n p ++ entries (S n) ps.
Hypothesis callback_ok :
  forall j p i f, rel j p -> callback j i f = Ok (f ++ block (i + 1) p).
Hypothesis callback_inv :
  forall j i f f',
    callback j i f = Ok f' -> exists p, rel j p /\ f' = f ++ block (i + 1) p.

Lemma forEach_from_ok (js : list json) (ps : list P) :
  Forall2 rel js ps ->
  forall i f,
    forEach_from callback js i f = Ok (f ++ entries (i + 1) ps).
Proof.
  induction 1 as [|j p js ps Hp _ IH]; intros i f; cbn [forEach_from].
  - rewrite entries_nil, append_empty. reflexivity.
  - rewrite (callback_ok j p i f Hp). cbn [bind].
    rewrite (IH (S i)), entries_cons, append_assoc. reflexivity.
Qed.

Lemma forEach_from_inv (js : list json) :
  forall i f f',
    forEach_from callback js i f = Ok f' ->
    exists ps, Forall2 rel js ps /\ f' = f ++ entries (i + 1) ps.
Proof.
  induction js as [|j js IH]; intros i f f' H; cbn [forEach_from] in H.
  - injection H as <-. exists []. split; [constructor|].
    rewrite entries_nil, append_empty. reflexivity.
  - apply bind_Ok in H. destruct H as (g & Hj & Hjs).
    apply callback_inv in Hj. destruct Hj as (p & Hp & ->).
    apply IH in Hjs. destruct Hjs as (ps & Hps & ->).
    exists (p :: ps). split; [constructor; assumption|].
    rewrite entries_cons, append_assoc. reflexivity.
Qed.

(** The same for the method call [v.forEach], on a list with items. *)
Lemma forEach_ok (callee : string) (js : list json) (ps : list P) (f : string) :
  Forall2 rel js ps ->
  forEach callee (Some (JArr js)) callback f = Ok (f ++ entries 1 ps).
Proof. intro H. exact (forEach_from_ok js ps H 0 f). Qed.

Lemma forEach_inv (callee : string) (v : value) (f f' : string) :
  forEach callee v callback f = Ok f' ->
  exists js ps,
    v = Some (JArr js) /\ Forall2 rel js ps /\ f' = f ++ entries 1 ps.
Proof.
  destruct v as [[| | | |js|]|]; try discriminate. intro H.
  apply (forEach_from_inv js 0) in H. destruct H as (ps & Hps & ->).
  exists js, ps. auto.
Qed.

End ForEachExactly.

Lemma nonempty_with_items (items : list json) :
  items <> [] -> nonempty (Some (JArr items)) = Ok true.
Proof.
  intro H. rewrite nonempty_array. destruct items; [contradiction|reflexivity].
Qed.

Lemma nonempty_array_inv (items : list json) :
  nonempty (Some (JArr items)) = Ok true -> items <> [].
Proof. intros H ->. discriminate. Qed.

Lemma join_parts_length (items : list json) :
  forall texts, join_parts to_string items = Ok texts ->
                length texts = length items.
Proof.
  induction items as [|x items IH]; intros texts H; cbn [join_parts] in H.
  - injection H as <-. reflexivity.
  - apply bind_Ok in H. destruct H as (t & _ & H).
    apply bind_Ok in H. destruct H as (ts & Hts & H).
    injection H as <-. simpl. rewrite (IH ts Hts). reflexivity.
Qed.

Lemma join_Ok (callee : string) (v : value) (sep joined : string) :
  join callee v sep = Ok joined ->
  exists items texts,
    v = Some (JArr items) /\ join_parts to_string items = Ok texts
    /\ joined = String.concat sep texts.
Proof.
  destruct v as [[| | | |items|]|]; try discriminate. cbn [join]. intro H.
  apply bind_Ok in H. destruct H as (texts & Htexts & H). injection H as <-.
  exists items, texts. auto.
Qed.

(** *** The three kinds of optional section *)

Lemma bullets_cons (t : string) (rest : list string) :
  bullets (t :: rest) = ("      - " ++ t ++ LF) ++ bullets rest.
Proof. cbn [bullets]. repeat rewrite append_assoc. reflexivity. Qed.

Lemma numbered_steps_cons (n : nat) (t : string) (rest : list string) :
  numbered_steps n (t :: rest)
  = ("   " ++ render n ++ ". " ++ t ++ LF) ++ numbered_steps (S n) rest.
Proof. cbn [numbered_steps]. repeat rewrite append_assoc. reflexivity. Qed.

Lemma bullet_ok (x : json) (t : string) (i : nat) (g : string) :
  to_string x = Ok t -> bullet x i g = Ok (g ++ "      - " ++ t ++ LF).
Proof. unfold bullet. intros ->. reflexivity. Qed.

Lemma bullet_inv (x : json) (i : nat) (g g' : string) :
  bullet x i g = Ok g' ->
  exists t, to_string x = Ok t /\ g' = g ++ "      - " ++ t ++ LF.
Proof.
  unfold bullet. intro H. apply bind_Ok in H. destruct H as (t & Ht & H).
  injection H as <-. exists t. auto.
Qed.

Lemma solution_step_ok (x : json) (t : string) (i : nat) (g : string) :
  to_string x = Ok t ->
  solution_step x i g = Ok (g ++ "   " ++ render (i + 1) ++ ". " ++ t ++ LF).
Proof. unfold solution_step. intros ->. reflexivity. Qed.

Lemma solution_step_inv (x : json) (i : nat) (g g' : string) :
  solution_step x i g = Ok g' ->
  exists t,
    to_string x = Ok t
    /\ g' = g ++ "   " ++ render (i + 1) ++ ". " ++ t ++ LF.
Proof.
  unfold solution_step. intro H. apply bind_Ok in H.
  destruct H as (t & Ht & H). injection H as <-. exists t. auto.
Qed.

Section OptionalSections.

Variables (callee label : string) (v : value) (f : string).

(** A list joined on one line, under a label. *)
Lemma joined_section_ok (texts : list string) :
  joined_as v texts ->
  (shown <- nonempty v ;;
   if shown then
     joined <- join callee v ", " ;; Ok (f ++ label ++ joined ++ LF)
   else Ok f)
  = Ok (f ++ joined_line label texts).
Proof.
  intros [[Hskip ->] | (items & -> & Hitems & Htexts)].
  - apply skipped_nonempty in Hskip. rewrite Hskip. cbn [bind joined_line]. rewrite append_empty. reflexivity.
  - rewrite (nonempty_with_items items Hitems). cbn [bind join].
    rewrite Htexts. cbn [bind]. apply join_parts_length in Htexts.
    destruct texts; [destruct items; [contradiction|discriminate]|].
    reflexivity.
Qed.

Lemma joined_section_inv (f' : string) :
  (shown <- nonempty v ;;
   if shown then
     joined <- join callee v ", " ;; Ok (f ++ label ++ joined ++ LF)
   else Ok f)
  = Ok f' ->
  exists texts, joined_as v texts /\ f' = f ++ joined_line label texts.
Proof.
  intro H. apply bind_Ok in H. destruct H as ([|] & Hshown & H).
  - apply bind_Ok in H. destruct H as (joined & Hjoin & H). injection H as <-.
    apply join_Ok in Hjoin. destruct Hjoin as (items & texts & -> & Htexts & ->).
    pose proof (nonempty_array_inv items Hshown) as Hitems.
    exists texts. split; [right; exists items; auto|].
    apply join_parts_length in Htexts.
    destruct texts; [destruct items; [contradiction|discriminate]|].
    reflexivity.
  - injection H as <-. exists [].
    split; [left; split; [apply skipped_nonempty; assumption|reflexivity]|].
    cbn [joined_line]. rewrite append_empty. reflexivity.
Qed.

(** A list shown as bullets, under a label. *)
Lemma bulleted_section_ok (texts : list string) :
  listed_as v texts ->
  (shown <- nonempty v ;;
   if shown then forEach callee v bullet (f ++ label ++ LF) else Ok f)
  = Ok (f ++ bulleted_block label texts).
Proof.
  intros [[Hskip ->] | (items & -> & Hitems & Htexts)].
  - apply skipped_nonempty in Hskip. rewrite Hskip.
    cbn [bind bulleted_block]. rewrite append_empty.
    reflexivity.
  - rewrite (nonempty_with_items items Hitems). cbn [bind].
    rewrite (forEach_ok string (fun x t => to_string x = Ok t)
               (fun _ t => "      - " ++ t ++ LF) (fun _ => bullets) bullet
               (fun _ => eq_refl) (fun _ => bullets_cons)
               (fun x t i g => bullet_ok x t i g)
               callee items texts _ Htexts).
    destruct Htexts; [contradiction|].
    unfold bulleted_block. repeat rewrite append_assoc. reflexivity.
Qed.

Lemma bulleted_section_inv (f' : string) :
  (shown <- nonempty v ;;
   if shown then forEach callee v bullet (f ++ label ++ LF) else Ok f)
  = Ok f' ->
  exists texts, listed_as v texts /\ f' = f ++ bulleted_block label texts.
Proof.
  intro H. apply bind_Ok in H. destruct H as ([|] & Hshown & H).
  - apply (forEach_inv string (fun x t => to_string x = Ok t)
             (fun _ t => "      - " ++ t ++ LF) (fun _ => bullets) bullet
             (fun _ => eq_refl) (fun _ => bullets_cons)
             (fun x i g g' => bullet_inv x i g g')) in H.
    destruct H as (items & texts & -> & Htexts & ->).
    pose proof (nonempty_array_inv items Hshown) as Hitems.
    exists texts. split; [right; exists items; auto|].
    destruct Htexts; [contradiction|].
    unfold bulleted_block. repeat rewrite append_assoc. reflexivity.
  - injection H as <-. exists [].
    split; [left; split; [apply skipped_nonempty; assumption|reflexivity]|].
    cbn [bulleted_block]. rewrite append_empty. reflexivity.
Qed.

(** The steps of a solution, numbered, with no label. *)
Lemma numbered_section_ok (texts : list string) :
  listed_as v texts ->
  (shown <- nonempty v ;;
   if shown then forEach callee v solution_step f else Ok f)
  = Ok (f ++ numbered_steps 1 texts).
Proof.
  intros [[Hskip ->] | (items & -> & Hitems & Htexts)].
  - apply skipped_nonempty in Hskip. rewrite Hskip.
    cbn [bind numbered_steps]. rewrite append_empty.
    reflexivity.
  - rewrite (nonempty_with_items items Hitems). cbn [bind].
    exact (forEach_ok string (fun x t => to_string x = Ok t)
             (fun n t => "   " ++ render n ++ ". " ++ t ++ LF)
             numbered_steps solution_step
             (fun _ => eq_refl) numbered_steps_cons
             (fun x t i g => solution_step_ok x t i g)
             callee items texts f Htexts).
Qed.

Lemma numbered_section_inv (f' : string) :
  (shown <- nonempty v ;;
   if shown then forEach callee v solution_step f else Ok f)
  = Ok f' ->
  exists texts, listed_as v texts /\ f' = f ++ numbered_steps 1 texts.
Proof.
  intro H. apply bind_Ok in H. destruct H as ([|] & Hshown & H).
  - apply (forEach_inv string (fun x t => to_string x = Ok t)
             (fun n t => "   " ++ render n ++ ". " ++ t ++ LF)
             numbered_steps solution_step
             (fun _ => eq_refl) numbered_steps_cons
             (fun x i g g' => solution_step_inv x i g g')) in H.
    destruct H as (items & texts & -> & Htexts & ->).
    pose proof (nonempty_array_inv items Hshown) as Hitems.
    exists texts. split; [right; exists items; auto|reflexivity].
  - injection H as <-. exists [].
    split; [left; split; [apply skipped_nonempty; assumption|reflexivity]|].
    cbn [numbered_steps]. rewrite append_empty. reflexivity.
Qed.

End OptionalSections.

(** *** What each callback appends *)

Ltac bound H a Ha :=
  apply bind_Ok in H; destruct H as (a & Ha & H); cbn [bind] in H.

Lemma get_field_Ok (j : json) (k : string) (v : value) :
  get (Some j) k = Ok v -> j <> JNull /\ v = own j k.
Proof.
  intro H. apply get_Ok in H. destruct H as (j' & Hj & Hnull & ->).
  injection Hj as <-. auto.
Qed.

Lemma product_entry_ok (j : json) (p : product) (i : nat) (f : string) :
  is_entry j p -> product_entry j i f = Ok (f ++ expected_entry (i + 1) p).
Proof.
  intros (Hnull & Hname & Hid & Hprice & Hdescription & Hcompat & Hstock).
  unfold product_entry, append_compatibility.
  rewrite !(get_own j) by assumption. cbn [bind].
  rewrite Hname, Hid, Hprice, Hdescription. cbn [bind].
  rewrite (joined_section_ok "product.compatibility.join"
             "   Compatible with: " _ _ _ Hcompat).
  cbn [bind]. rewrite Hstock. unfold expected_entry.
  change compatibility_line with (joined_line "   Compatible with: ").
  repeat rewrite append_assoc. reflexivity.
Qed.

Lemma product_entry_inv (j : json) (i : nat) (f f' : string) :
  product_entry j i f = Ok f' ->
  exists p, is_entry j p /\ f' = f ++ expected_entry (i + 1) p.
Proof.
  intro H0. assert (exists p, is_entry j p) as [p Hentry].
  { revert H0.
    unfold product_entry, append_compatibility. intro H.
    bound H v Hv. apply get_field_Ok in Hv. destruct Hv as [Hnull ->].
    rewrite !(get_own j) in H by assumption. cbn [bind] in H.
    bound H name Hname. bound H id_ Hid. bound H price Hprice.
    bound H description Hdescription. bound H g Hg.
    apply joined_section_inv in Hg. destruct Hg as (models & Hmodels & ->).
    clear H.
    exists {| p_name := name; p_id := id_; p_price := price;
              p_description := description; p_compatibility := models;
              p_inStock := truthy (own j "inStock") |}.
    repeat split; assumption. }
  exists p. split; [assumption|].
  rewrite (product_entry_ok j p i f Hentry) in H0. injection H0 as <-.
  reflexivity.
Qed.

Lemma step_entry_ok (j : json) (s : guide_step) (i : nat) (f : string) :
  is_step j s -> step_entry j i f = Ok (f ++ expected_step s).
Proof.
  intros (Hnull & Hnumber & Hinstruction & Htools & Htips & Hwarnings).
  unfold step_entry, append_tools, append_tips, append_warnings.
  rewrite !(get_own j) by assumption. cbn [bind].
  rewrite Hnumber, Hinstruction. cbn [bind].
  rewrite (joined_section_ok "step.tools.join" "   🔧 Tools needed: "
             _ _ _ Htools).
  cbn [bind].
  rewrite (bulleted_section_ok "step.tips.forEach" "   💡 Tips:"
             _ _ _ Htips).
  cbn [bind].
  rewrite (bulleted_section_ok "step.warnings.forEach" "   ⚠️ Warnings:"
             _ _ _ Hwarnings).
  cbn [bind]. unfold expected_step.
  change tools_line with (joined_line "   🔧 Tools needed: ").
  change tips_block with (bulleted_block "   💡 Tips:").
  change warnings_block with (bulleted_block "   ⚠️ Warnings:").
  repeat rewrite append_assoc. reflexivity.
Qed.

Lemma step_entry_inv (j : json) (i : nat) (f f' : string) :
  step_entry j i f = Ok f' ->
  exists s, is_step j s /\ f' = f ++ expected_step s.
Proof.
  intro H0. assert (exists s, is_step j s) as [s Hentry].
  { revert H0.
    unfold step_entry, append_tools, append_tips, append_warnings. intro H.
    bound H v Hv. apply get_field_Ok in Hv. destruct Hv as [Hnull ->].
    rewrite !(get_own j) in H by assumption. cbn [bind] in H.
    bound H number Hnumber. bound H instruction Hinstruction.
    bound H g1 Hg1. apply joined_section_inv in Hg1.
    destruct Hg1 as (tools & Htools & ->).
    bound H g2 Hg2. apply bulleted_section_inv in Hg2.
    destruct Hg2 as (tips & Htips & ->).
    bound H g3 Hg3. apply bulleted_section_inv in Hg3.
    destruct Hg3 as (warnings & Hwarnings & ->).
    clear H.
    exists {| s_step := number; s_instruction := instruction;
              s_tools := tools; s_tips := tips; s_warnings := warnings |}.
    repeat split; assumption. }
  exists s. split; [assumption|].
  rewrite (step_entry_ok j s i f Hentry) in H0. injection H0 as <-.
  reflexivity.
Qed.

Lemma cause_entry_ok (j : json) (c : cause) (i : nat) (f : string) :
  is_cause j c -> cause_entry j i f = Ok (f ++ expected_cause (i + 1) c).
Proof.
  intros (Hnull & Hname & Hprobability & Hdescription & Hfix).
  unfold cause_entry.
  rewrite !(get_own j) by assumption. cbn [bind].
  rewrite Hname, Hprobability, Hdescription, Hfix. cbn [bind].
  unfold expected_cause. repeat rewrite append_assoc. reflexivity.
Qed.

Lemma cause_entry_inv (j : json) (i : nat) (f f' : string) :
  cause_entry j i f = Ok f' ->
  exists c, is_cause j c /\ f' = f ++ expected_cause (i + 1) c.
Proof.
  intro H0. assert (exists c, is_cause j c) as [c Hentry].
  { revert H0.
    unfold cause_entry. intro H.
    bound H v Hv. apply get_field_Ok in Hv. destruct Hv as [Hnull ->].
    rewrite !(get_own j) in H by assumption. cbn [bind] in H.
    bound H name Hname. bound H probability Hprobability.
    bound H description Hdescription. bound H fix_ Hfix.
    clear H.
    exists {| c_cause := name; c_probability := probability;
              c_description := description; c_fix := fix_ |}.
    repeat split; assumption. }
  exists c. split; [assumption|].
  rewrite (cause_entry_ok j c i f Hentry) in H0. injection H0 as <-.
  reflexivity.
Qed.

Lemma solution_entry_ok (j : json) (o : solution) (i : nat) (f : string) :
  is_solution j o ->
  solution_entry j i f = Ok (f ++ expected_solution (i + 1) o).
Proof.
  intros (Hnull & Htitle & Hsteps & Htime & Hparts).
  unfold solution_entry, append_solution_steps, append_recommendedParts.
  rewrite !(get_own j) by assumption. cbn [bind].
  rewrite Htitle. cbn [bind].
  rewrite (numbered_section_ok "solution.steps.forEach" _ _ _ Hsteps).
  cbn [bind]. rewrite Htime. cbn [bind].
  rewrite (joined_section_ok "solution.recommendedParts.join"
             "   🛠️ Recommended Parts: " _ _ _ Hparts).
  cbn [bind]. unfold expected_solution.
  change parts_line with (joined_line "   🛠️ Recommended Parts: ").
  repeat rewrite append_assoc. reflexivity.
Qed.

Lemma solution_entry_inv (j : json) (i : nat) (f f' : string) :
  solution_entry j i f = Ok f' ->
  exists o, is_solution j o /\ f' = f ++ expected_solution (i + 1) o.
Proof.
  intro H0. assert (exists o, is_solution j o) as [o Hentry].
  { revert H0.
    unfold solution_entry, append_solution_steps, append_recommendedParts.
    intro H.
    bound H v Hv. apply get_field_Ok in Hv. destruct Hv as [Hnull ->].
    rewrite !(get_own j) in H by assumption. cbn [bind] in H.
    bound H title Htitle.
    bound H g1 Hg1. apply numbered_section_inv in Hg1.
    destruct Hg1 as (steps & Hsteps & ->).
    bound H time Htime.
    bound H g2 Hg2. apply joined_section_inv in Hg2.
    destruct Hg2 as (parts & Hparts & ->).
    clear H.
    exists {| o_title := title; o_steps := steps; o_estimatedTime := time;
              o_recommendedParts := parts |}.
    repeat split; assumption. }
  exists o. split; [assumption|].
  rewrite (solution_entry_ok j o i f Hentry) in H0. injection H0 as <-.
  reflexivity.
Qed.

(** *** What each formatter returns *)

Lemma nothing_listed_items (d : json) (key : string) (items : list json) :
  own d key = Some (JArr items) -> items <> [] ->
  nothing_listed (Some d) key = Ok false.
Proof.
  intros Hlist Hitems.
  pose proof (own_array_truthy d key items Hlist) as Ht.
  rewrite (nothing_listed_array d key items Hlist (truthy_not_null d Ht) Ht).
  destruct items; [contradiction|reflexivity].
Qed.

Lemma nothing_listed_items_inv (d : json) (key : string) (items : list json) :
  own d key = Some (JArr items) -> nothing_listed (Some d) key = Ok false ->
  items <> [].
Proof.
  intros Hlist H ->.
  pose proof (own_array_truthy d key [] Hlist) as Ht.
  rewrite (nothing_listed_array d key [] Hlist (truthy_not_null d Ht) Ht) in H.
  discriminate.
Qed.

Lemma listed_array (d : json) (key : string) (items : list json) :
  own d key = Some (JArr items) ->
  listed (Some d) key = nonempty (Some (JArr items)).
Proof.
  intro Hlist. pose proof (own_array_truthy d key items Hlist) as Ht.
  unfold listed. rewrite Ht, (get_own d key (truthy_not_null d Ht)), Hlist.
  reflexivity.
Qed.

Lemma formatProductResults_items (response d : json) (items : list json)
    (ps : list product) (c : string) :
  response <> JNull ->
  ToString (own response "content") = Ok c ->
  own response "data" = Some d ->
  own d "products" = Some (JArr items) ->
  items <> [] ->
  Forall2 is_entry items ps ->
  formatProductResults (Some response)
  = Ok (str (c ++ LF ++ LF ++ expected_entries 1 ps)).
Proof.
  intros Hnull Hc Hd Hlist Hitems Hps. unfold formatProductResults.
  rewrite !(get_own response) by assumption. cbn [bind]. rewrite Hd.
  rewrite (nothing_listed_items d _ items Hlist Hitems). cbn [bind].
  rewrite Hc. cbn [bind].
  rewrite (get_own d) by exact (own_not_null _ _ _ Hlist). cbn [bind].
  rewrite Hlist.
  rewrite (forEach_ok product is_entry expected_entry expected_entries
             product_entry (fun _ => eq_refl) (fun _ _ _ => eq_refl)
             product_entry_ok _ items ps _ Hps).
  cbn [bind]. repeat rewrite append_assoc. reflexivity.
Qed.

Lemma formatProductResults_inv (response : json) (v : value) :
  response <> JNull ->
  formatProductResults (Some response) = Ok v ->
  (nothing_listed (own response "data") "products" = Ok true
   /\ v = or_else (own response "content") (str "No products found"))
  \/ exists c d items ps,
       ToString (own response "content") = Ok c
       /\ own response "data" = Some d
       /\ own d "products" = Some (JArr items)
       /\ items <> []
       /\ Forall2 is_entry items ps
       /\ v = str (c ++ LF ++ LF ++ expected_entries 1 ps).
Proof.
  intros Hnull H. unfold formatProductResults in H.
  rewrite !(get_own response) in H by assumption. cbn [bind] in H.
  bound H none Hnone. destruct none.
  - injection H as <-. left. auto.
  - right. bound H c Hc. bound H products Hproducts.
    apply get_Ok in Hproducts. destruct Hproducts as (d & Hd & Hdnull & ->).
    bound H g Hg.
    apply (forEach_inv product is_entry expected_entry expected_entries
             product_entry (fun _ => eq_refl) (fun _ _ _ => eq_refl)
             product_entry_inv) in Hg.
    destruct Hg as (items & ps & Hlist & Hps & ->). injection H as <-.
    rewrite Hd in Hnone.
    exists c, d, items, ps.
    split; [assumption|]. split; [assumption|]. split; [assumption|].
    split; [exact (nothing_listed_items_inv d _ items Hlist Hnone)|].
    split; [assumption|].
    repeat rewrite append_assoc. reflexivity.
Qed.

Lemma formatInstallationGuide_items (response d : json) (items : list json)
    (ss : list guide_step) (c time difficulty : string) :
  response <> JNull ->
  ToString (own response "content") = Ok c ->
  own response "data" = Some d ->
  own d "steps" = Some (JArr items) ->
  items <> [] ->
  ToString (own d "estimatedTime") = Ok time ->
  ToString (own d "difficulty") = Ok difficulty ->
  Forall2 is_step items ss ->
  formatInstallationGuide (Some response)
  = Ok (str (expected_guide c time difficulty ss)).
Proof.
  intros Hnull Hc Hd Hlist Hitems Htime Hdifficulty Hss.
  unfold formatInstallationGuide.
  rewrite !(get_own response) by assumption. cbn [bind]. rewrite Hd.
  rewrite (nothing_listed_items d _ items Hlist Hitems). cbn [bind].
  rewrite Hc. cbn [bind].
  rewrite !(get_own d) by exact (own_not_null _ _ _ Hlist). cbn [bind].
  rewrite Htime. cbn [bind]. rewrite Hdifficulty. cbn [bind]. rewrite Hlist.
  rewrite (forEach_ok guide_step is_step (fun _ => expected_step)
             (fun _ => expected_steps) step_entry
             (fun _ => eq_refl) (fun _ _ _ => eq_refl)
             step_entry_ok _ items ss _ Hss).
  cbn [bind]. unfold expected_guide. repeat rewrite append_assoc.
  reflexivity.
Qed.

Lemma formatInstallationGuide_inv (response : json) (v : value) :
  response <> JNull ->
  formatInstallationGuide (Some response) = Ok v ->
  (nothing_listed (own response "data") "steps" = Ok true
   /\ v = or_else (own response "content")
                  (str "No installation steps available"))
  \/ exists c d items time difficulty ss,
       ToString (own response "content") = Ok c
       /\ own response "data" = Some d
       /\ own d "steps" = Some (JArr items)
       /\ items <> []
       /\ ToString (own d "estimatedTime") = Ok time
       /\ ToString (own d "difficulty") = Ok difficulty
       /\ Forall2 is_step items ss
       /\ v = str (expected_guide c time difficulty ss).
Proof.
  intros Hnull H0.
  assert (H := H0). unfold formatInstallationGuide in H.
  rewrite !(get_own response) in H by assumption. cbn [bind] in H.
  bound H none Hnone. destruct none.
  - injection H as <-. left. auto.
  - right. bound H c Hc. bound H time Htime.
    apply get_Ok in Htime. destruct Htime as (d & Hd & Hdnull & ->).
    rewrite Hd in H, Hnone.
    rewrite !(get_own d) in H by assumption. cbn [bind] in H.
    bound H time Htime. bound H difficulty Hdifficulty. bound H g Hg.
    apply (forEach_inv guide_step is_step (fun _ => expected_step)
             (fun _ => expected_steps) step_entry
             (fun _ => eq_refl) (fun _ _ _ => eq_refl)
             step_entry_inv) in Hg.
    destruct Hg as (items & ss & Hlist & Hss & _). clear H.
    pose proof (nothing_listed_items_inv d _ items Hlist Hnone) as Hitems.
    rewrite (formatInstallationGuide_items response d items ss c time
               difficulty Hnull Hc Hd Hlist Hitems Htime Hdifficulty Hss)
      in H0.
    injection H0 as <-.
    exists c, d, items, time, difficulty, ss. repeat (split; [assumption|]).
    reflexivity.
Qed.

Lemma append_possibleCauses_ok (data : value) (f : string)
    (causes : list json) (cs : list cause) :
  items_of data "possibleCauses" causes ->
  Forall2 is_cause causes cs ->
  append_possibleCauses data f = Ok (f ++ causes_section cs).
Proof.
  intros [[Hskip ->] | (d & -> & Hlist & Hitems)] Hcs;
    unfold append_possibleCauses.
  - inversion Hcs; subst. apply unlisted_listed in Hskip. rewrite Hskip. cbn [bind causes_section].
    rewrite append_empty. reflexivity.
  - rewrite (listed_array d _ causes Hlist),
      (nonempty_with_items causes Hitems).
    cbn [bind]. rewrite (get_own d) by exact (own_not_null _ _ _ Hlist).
    cbn [bind]. rewrite Hlist.
    rewrite (forEach_ok cause is_cause expected_cause expected_causes
               cause_entry (fun _ => eq_refl) (fun _ _ _ => eq_refl)
               cause_entry_ok _ causes cs _ Hcs).
    destruct Hcs; [contradiction|]. unfold causes_section.
    repeat rewrite append_assoc. reflexivity.
Qed.

Lemma append_possibleCauses_inv (data : value) (f f' : string) :
  append_possibleCauses data f = Ok f' ->
  exists causes cs,
    items_of data "possibleCauses" causes /\ Forall2 is_cause causes cs
    /\ f' = f ++ causes_section cs.
Proof.
  intro H0. assert (H := H0). unfold append_possibleCauses in H.
  bound H shown Hshown. destruct shown.
  - bound H v Hv. apply get_Ok in Hv. destruct Hv as (d & -> & Hdnull & ->).
    apply (forEach_inv cause is_cause expected_cause expected_causes
             cause_entry (fun _ => eq_refl) (fun _ _ _ => eq_refl)
             cause_entry_inv) in H.
    destruct H as (causes & cs & Hlist & Hcs & _).
    rewrite (listed_array d _ causes Hlist) in Hshown.
    pose proof (nonempty_array_inv causes Hshown) as Hitems.
    assert (Hof : items_of (Some d) "possibleCauses" causes)
      by (right; exists d; auto).
    rewrite (append_possibleCauses_ok _ f causes cs Hof Hcs) in H0.
    injection H0 as <-. exists causes, cs. auto.
  - injection H as <-. exists [], [].
    split; [left; split; [apply unlisted_listed; assumption|reflexivity]|].
    split; [constructor|]. cbn [causes_section]. rewrite append_empty.
    reflexivity.
Qed.

Lemma append_suggestedSolutions_ok (data : value) (f : string)
    (solutions : list json) (os : list solution) :
  items_of data "suggestedSolutions" solutions ->
  Forall2 is_solution solutions os ->
  append_suggestedSolutions data f = Ok (f ++ solutions_section os).
Proof.
  intros [[Hskip ->] | (d & -> & Hlist & Hitems)] Hos;
    unfold append_suggestedSolutions.
  - inversion Hos; subst. apply unlisted_listed in Hskip. rewrite Hskip. cbn [bind solutions_section].
    rewrite append_empty. reflexivity.
  - rewrite (listed_array d _ solutions Hlist),
      (nonempty_with_items solutions Hitems).
    cbn [bind]. rewrite (get_own d) by exact (own_not_null _ _ _ Hlist).
    cbn [bind]. rewrite Hlist.
    rewrite (forEach_ok solution is_solution expected_solution
               expected_solutions solution_entry
               (fun _ => eq_refl) (fun _ _ _ => eq_refl)
               solution_entry_ok _ solutions os _ Hos).
    destruct Hos; [contradiction|]. unfold solutions_section.
    repeat rewrite append_assoc. reflexivity.
Qed.

Lemma append_suggestedSolutions_inv (data : value) (f f' : string) :
  append_suggestedSolutions data f = Ok f' ->
  exists solutions os,
    items_of data "suggestedSolutions" solutions
    /\ Forall2 is_solution solutions os
    /\ f' = f ++ solutions_section os.
Proof.
  intro H0. assert (H := H0). unfold append_suggestedSolutions in H.
  bound H shown Hshown. destruct shown.
  - bound H v Hv. apply get_Ok in Hv. destruct Hv as (d & -> & Hdnull & ->).
    apply (forEach_inv solution is_solution expected_solution
             expected_solutions solution_entry
             (fun _ => eq_refl) (fun _ _ _ => eq_refl)
             solution_entry_inv) in H.
    destruct H as (solutions & os & Hlist & Hos & _).
    rewrite (listed_array d _ solutions Hlist) in Hshown.
    pose proof (nonempty_array_inv solutions Hshown) as Hitems.
    assert (Hof : items_of (Some d) "suggestedSolutions" solutions)
      by (right; exists d; auto).
    rewrite (append_suggestedSolutions_ok _ f solutions os Hof Hos) in H0.
    injection H0 as <-. exists solutions, os. auto.
  - injection H as <-. exists [], [].
    split; [left; split; [apply unlisted_listed; assumption|reflexivity]|].
    split; [constructor|]. cbn [solutions_section]. rewrite append_empty.
    reflexivity.
Qed.

Lemma formatTroubleshooting_items (response : json) (c : string)
    (causes solutions : list json) (cs : list cause) (os : list solution) :
  response <> JNull ->
  ToString (own response "content") = Ok c ->
  items_of (own response "data") "possibleCauses" causes ->
  Forall2 is_cause causes cs ->
  items_of (own response "data") "suggestedSolutions" solutions ->
  Forall2 is_solution solutions os ->
  formatTroubleshooting (Some response) = Ok (str (expected_advice c cs os)).
Proof.
  intros Hnull Hc Hcauses Hcs Hsolutions Hos. unfold formatTroubleshooting.
  rewrite !(get_own response) by assumption. cbn [bind].
  rewrite Hc. cbn [bind].
  rewrite (append_possibleCauses_ok _ _ causes cs Hcauses Hcs). cbn [bind].
  rewrite (append_suggestedSolutions_ok _ _ solutions os Hsolutions Hos).
  cbn [bind]. unfold expected_advice. repeat rewrite append_assoc.
  reflexivity.
Qed.

Lemma formatTroubleshooting_inv (response : json) (v : value) :
  response <> JNull ->
  formatTroubleshooting (Some response) = Ok v ->
  exists c causes cs solutions os,
    ToString (own response "content") = Ok c
    /\ items_of (own response "data") "possibleCauses" causes
    /\ Forall2 is_cause causes cs
    /\ items_of (own response "data") "suggestedSolutions" solutions
    /\ Forall2 is_solution solutions os
    /\ v = str (expected_advice c cs os).
Proof.
  intros Hnull H0. assert (H := H0). unfold formatTroubleshooting in H.
  rewrite !(get_own response) in H by assumption. cbn [bind] in H.
  bound H c Hc. bound H g1 Hg1. bound H g2 Hg2. clear H.
  apply append_possibleCauses_inv in Hg1.
  destruct Hg1 as (causes & cs & Hcauses & Hcs & _).
  apply append_suggestedSolutions_inv in Hg2.
  destruct Hg2 as (solutions & os & Hsolutions & Hos & _).
  rewrite (formatTroubleshooting_items response c causes solutions cs os
             Hnull Hc Hcauses Hcs Hsolutions Hos) in H0.
  injection H0 as <-.
  exists c, causes, cs, solutions, os. repeat (split; [assumption|]).
  reflexivity.
Qed.

(** *** Which payloads are displayed *)

(** The [switch], with the cases that pass the content through put
    together. *)
Lemma format_by_type_cases (response type : value) :
  format_by_type response type
  = match type with
    | Some (JStr tag) =>
        if tag =? "product_results" then formatProductResults response
        else if tag =? "installation_guide"
             then formatInstallationGuide response
        else if tag =? "troubleshooting" then formatTroubleshooting response
        else if tag =? "error" then
          content <- get response "content" ;;
          content <- ToString content ;;
          Ok (str ("Error: " ++ content))
        else get response "content"
    | _ => get response "content"
    end.
Proof.
  destruct type as [[| | |tag| |]|]; try reflexivity. unfold format_by_type.
  destruct (String.eqb_spec tag "text") as [->|_]; [reflexivity|].
  destruct (tag =? "product_results"); [reflexivity|].
  destruct (tag =? "installation_guide"); [reflexivity|].
  destruct (tag =? "troubleshooting"); [reflexivity|].
  destruct (String.eqb_spec tag "out_of_scope") as [->|_]; reflexivity.
Qed.

Lemma or_else_text (v : value) (fallback : string) :
  fallback <> "" ->
  (exists s, or_else v (str fallback) = str s /\ s <> "")
  <-> falsy_or_text v.
Proof.
  intro Hfallback. split.
  - intros (s & Hs & _). unfold or_else in Hs.
    destruct (truthy v) eqn:Ht; [right; exists s; exact Hs|left; exact Ht].
  - intros [Hfalsy | (s & ->)]; unfold or_else.
    + rewrite Hfalsy. exists fallback. auto.
    + unfold str. cbn [truthy].
      destruct (String.eqb_spec s "") as [->|Hs]; cbn [negb].
      * exists fallback. auto.
      * exists s. auto.
Qed.

Lemma text_not_empty (c rest : string) : c ++ LF ++ rest <> "".
Proof. destruct c; discriminate. Qed.

Section Displayed.

Variable response : json.
Hypothesis response_not_null : response <> JNull.

Lemma pass_through_displays :
  (exists s, get (Some response) "content" = Ok (str s) /\ s <> "")
  <-> shown_text (own response "content").
Proof.
  rewrite (get_own response) by assumption.
  split; intros (s & H & Hs); exists s; split; congruence.
Qed.

Lemma error_displays :
  (exists s,
     (content <- get (Some response) "content" ;;
      content <- ToString content ;;
      Ok (str ("Error: " ++ content))) = Ok (str s)
     /\ s <> "")
  <-> prints (own response "content").
Proof.
  rewrite (get_own response) by assumption. cbn [bind]. split.
  - intros (s & H & _). bound H c Hc. exists c. exact Hc.
  - intros (c & Hc). rewrite Hc. cbn [bind]. exists ("Error: " ++ c).
    split; [reflexivity|discriminate].
Qed.

Lemma products_displays :
  (exists s, formatProductResults (Some response) = Ok (str s) /\ s <> "")
  <-> lists_products response.
Proof.
  split.
  - intros (s & H & Hs).
    apply formatProductResults_inv in H; [|assumption].
    destruct H as [[Hnone Hv] | (c & d & items & ps & Hc & Hd & Hlist
                                   & Hitems & Hps & _)].
    + left. split; [apply nothing_under_listed; assumption|].
      apply (or_else_text _ "No products found"); [discriminate|].
      exists s. auto.
    + right. split; [exists c; assumption|]. exists d, items, ps. auto.
  - intros [[Hnone Hcontent] | [[c Hc] (d & items & ps & Hd & Hlist
                                          & Hitems & Hps)]].
    + apply (or_else_text _ "No products found") in Hcontent;
        [|discriminate].
      destruct Hcontent as (s & Hs & Hne). exists s. split; [|assumption].
      unfold formatProductResults.
      rewrite !(get_own response) by assumption. cbn [bind].
      apply nothing_under_listed in Hnone.
      rewrite Hnone. cbn [bind]. rewrite Hs. reflexivity.
    + exists (c ++ LF ++ LF ++ expected_entries 1 ps).
      split; [|apply text_not_empty].
      exact (formatProductResults_items response d items ps c
               response_not_null Hc Hd Hlist Hitems Hps).
Qed.

Lemma guide_displays :
  (exists s, formatInstallationGuide (Some response) = Ok (str s) /\ s <> "")
  <-> lists_steps response.
Proof.
  split.
  - intros (s & H & Hs).
    apply formatInstallationGuide_inv in H; [|assumption].
    destruct H as [[Hnone Hv] | (c & d & items & time & difficulty & ss
                                   & Hc & Hd & Hlist & Hitems & Htime
                                   & Hdifficulty & Hss & _)].
    + left. split; [apply nothing_under_listed; assumption|].
      apply (or_else_text _ "No installation steps available");
        [discriminate|].
      exists s. auto.
    + right. split; [exists c; assumption|]. exists d, items, ss.
      repeat (split; [assumption|]).
      split; [exists time; assumption|].
      split; [exists difficulty; assumption|assumption].
  - intros [[Hnone Hcontent] | [[c Hc] (d & items & ss & Hd & Hlist
                                          & Hitems & [time Htime]
                                          & [difficulty Hdifficulty]
                                          & Hss)]].
    + apply (or_else_text _ "No installation steps available") in Hcontent;
        [|discriminate].
      destruct Hcontent as (s & Hs & Hne). exists s. split; [|assumption].
      unfold formatInstallationGuide.
      rewrite !(get_own response) by assumption. cbn [bind].
      apply nothing_under_listed in Hnone.
      rewrite Hnone. cbn [bind]. rewrite Hs. reflexivity.
    + exists (expected_guide c time difficulty ss).
      split; [|apply text_not_empty].
      exact (formatInstallationGuide_items response d items ss c time
               difficulty response_not_null Hc Hd Hlist Hitems Htime
               Hdifficulty Hss).
Qed.

Lemma advice_displays :
  (exists s, formatTroubleshooting (Some response) = Ok (str s) /\ s <> "")
  <-> advises response.
Proof.
  split.
  - intros (s & H & Hs).
    apply formatTroubleshooting_inv in H; [|assumption].
    destruct H as (c & causes & cs & solutions & os & Hc & Hcauses & Hcs
                   & Hsolutions & Hos & _).
    split; [exists c; assumption|].
    split; [exists causes, cs|exists solutions, os]; auto.
  - intros ([c Hc] & (causes & cs & Hcauses & Hcs)
            & (solutions & os & Hsolutions & Hos)).
    exists (expected_advice c cs os). split; [|apply text_not_empty].
    exact (formatTroubleshooting_items response c causes solutions cs os
             response_not_null Hc Hcauses Hcs Hsolutions Hos).
Qed.

Lemma formats_displays :
  (exists s,
     format_by_type (Some response) (own response "type") = Ok (str s)
     /\ s <> "")
  <-> formats response.
Proof.
  rewrite format_by_type_cases. unfold formats.
  destruct (own response "type") as [[| | |tag| |]|];
    try exact pass_through_displays.
  destruct (tag =? "product_results"); [exact products_displays|].
  destruct (tag =? "installation_guide"); [exact guide_displays|].
  destruct (tag =? "troubleshooting"); [exact advice_displays|].
  destruct (tag =? "error"); [exact error_displays|].
  exact pass_through_displays.
Qed.

End Displayed.

Lemma null_or_not (j : json) : j = JNull \/ j <> JNull.
Proof. destruct j; [left; reflexivity|right; discriminate..]. Qed.

Lemma displays_in_shape (data : json) :
  displays (formatBackendResponse data) <-> in_shape data.
Proof.
  destruct (null_or_not data) as [->|Hnull].
  { split; [intros (s & H & _); discriminate H|intros [H _]; contradiction]. }
  unfold in_shape. destruct (truthy (own data "success")) eqn:Hsuccess.
  - unfold displays, formatBackendResponse.
    rewrite !(get_own data) by assumption. cbn [bind].
    rewrite Hsuccess. cbn [negb].
    destruct (own data "response") as [response|] eqn:Hresponse.
    + destruct (null_or_not response) as [->|Hrnull].
      * split; [intros (s & H & _); discriminate H|].
        intros [_ (r & Hr & Hn & _)]. injection Hr as <-. contradiction.
      * rewrite (get_own response) by assumption. cbn [bind]. split.
        -- intros (s & H & Hs). split; [assumption|].
           exists response. split; [reflexivity|]. split; [assumption|].
           apply formats_displays; [assumption|].
           bound H text Htext. unfold assistant in H.
           injection H as ->. exists s. auto.
        -- intros [_ (r & Hr & _ & Hformats)]. injection Hr as <-.
           apply formats_displays in Hformats; [|assumption].
           destruct Hformats as (s & H & Hs). exists s.
           rewrite H. cbn [bind]. auto.
    + split; [intros (s & H & _); discriminate H|].
      intros [_ (r & Hr & _)]. discriminate Hr.
  - unfold displays. rewrite (failure_branch data Hnull Hsuccess). split.
    + intros (s & H & Hs). split; [assumption|].
      apply (or_else_text _ "An error occurred"); [discriminate|].
      unfold assistant in H. injection H as H. exists s. auto.
    + intros [_ Hmessage].
      apply (or_else_text _ "An error occurred") in Hmessage; [|discriminate].
      destruct Hmessage as (s & Hs & Hne). exists s. rewrite Hs. auto.
Qed.

(** *** Payloads with items *)

Lemma joined_as_absent (texts : list string) :
  joined_as None texts <-> texts = [].
Proof.
  split.
  - intros [[_ H] | (items & H & _)]; [exact H|discriminate H].
  - intros ->. left. split; [left|]; reflexivity.
Qed.

Lemma listed_as_absent (texts : list string) :
  listed_as None texts <-> texts = [].
Proof.
  split.
  - intros [[_ H] | (items & H & _)]; [exact H|discriminate H].
  - intros ->. left. split; [left|]; reflexivity.
Qed.

Section PayloadsWithItems.

Variables data response : json.
Hypothesis success : truthy (own data "success") = true.
Hypothesis has_response : own data "response" = Some response.

Lemma products_payload (d : json) (items : list json) (m : ChatMessage) :
  own response "type" = str "product_results" ->
  own response "data" = Some d ->
  own d "products" = Some (JArr items) ->
  items <> [] ->
  formatBackendResponse data = Ok m
  <-> exists c ps,
        ToString (own response "content") = Ok c
        /\ Forall2 is_entry items ps
        /\ m = assistant (str (c ++ LF ++ LF ++ expected_entries 1 ps)).
Proof.
  intros Htype Hd Hlist Hitems.
  assert (Hnull : response <> JNull) by exact (own_not_null _ _ _ Htype).
  rewrite (dispatch data response success has_response Hnull), Htype.
  change (format_by_type (Some response) (str "product_results"))
    with (formatProductResults (Some response)).
  split.
  - intro H. bound H v Hv. injection H as <-.
    apply formatProductResults_inv in Hv; [|assumption].
    destruct Hv as [[Hnone _] | (c & d' & items' & ps & Hc & Hd' & Hlist'
                                   & _ & Hps & ->)].
    + rewrite Hd, (nothing_listed_items d _ items Hlist Hitems) in Hnone.
      discriminate.
    + rewrite Hd in Hd'. injection Hd' as <-.
      rewrite Hlist in Hlist'. injection Hlist' as <-.
      exists c, ps. auto.
  - intros (c & ps & Hc & Hps & ->).
    rewrite (formatProductResults_items response d items ps c Hnull Hc Hd
               Hlist Hitems Hps).
    reflexivity.
Qed.

Lemma guide_payload (d : json) (items : list json) (m : ChatMessage) :
  own response "type" = str "installation_guide" ->
  own response "data" = Some d ->
  own d "steps" = Some (JArr items) ->
  items <> [] ->
  formatBackendResponse data = Ok m
  <-> exists c time difficulty ss,
        ToString (own response "content") = Ok c
        /\ ToString (own d "estimatedTime") = Ok time
        /\ ToString (own d "difficulty") = Ok difficulty
        /\ Forall2 is_step items ss
        /\ m = assistant (str (expected_guide c time difficulty ss)).
Proof.
  intros Htype Hd Hlist Hitems.
  assert (Hnull : response <> JNull) by exact (own_not_null _ _ _ Htype).
  rewrite (dispatch data response success has_response Hnull), Htype.
  change (format_by_type (Some response) (str "installation_guide"))
    with (formatInstallationGuide (Some response)).
  split.
  - intro H. bound H v Hv. injection H as <-.
    apply formatInstallationGuide_inv in Hv; [|assumption].
    destruct Hv as [[Hnone _] | (c & d' & items' & time & difficulty & ss
                                   & Hc & Hd' & Hlist' & _ & Htime
                                   & Hdifficulty & Hss & ->)].
    + rewrite Hd, (nothing_listed_items d _ items Hlist Hitems) in Hnone.
      discriminate.
    + rewrite Hd in Hd'. injection Hd' as <-.
      rewrite Hlist in Hlist'. injection Hlist' as <-.
      exists c, time, difficulty, ss. auto.
  - intros (c & time & difficulty & ss & Hc & Htime & Hdifficulty & Hss & ->).
    rewrite (formatInstallationGuide_items response d items ss c time
               difficulty Hnull Hc Hd Hlist Hitems Htime Hdifficulty Hss).
    reflexivity.
Qed.

Lemma advice_payload (m : ChatMessage) :
  own response "type" = str "troubleshooting" ->
  formatBackendResponse data = Ok m
  <-> exists c causes cs solutions os,
        ToString (own response "content") = Ok c
        /\ items_of (own response "data") "possibleCauses" causes
        /\ Forall2 is_cause causes cs
        /\ items_of (own response "data") "suggestedSolutions" solutions
        /\ Forall2 is_solution solutions os
        /\ m = assistant (str (expected_advice c cs os)).
Proof.
  intros Htype.
  assert (Hnull : response <> JNull) by exact (own_not_null _ _ _ Htype).
  rewrite (dispatch data response success has_response Hnull), Htype.
  change (format_by_type (Some response) (str "troubleshooting"))
    with (formatTroubleshooting (Some response)).
  split.
  - intro H. bound H v Hv. injection H as <-.
    apply formatTroubleshooting_inv in Hv; [|assumption].
    destruct Hv as (c & causes & cs & solutions & os & Hc & Hcauses & Hcs
                    & Hsolutions & Hos & ->).
    exists c, causes, cs, solutions, os. auto 10.
  - intros (c & causes & cs & solutions & os & Hc & Hcauses & Hcs
            & Hsolutions & Hos & ->).
    rewrite (formatTroubleshooting_items response c causes solutions cs os
               Hnull Hc Hcauses Hcs Hsolutions Hos).
    reflexivity.
Qed.

End PayloadsWithItems.

(** The blocks of items that lack a list. *)
Lemma entry_without_compatibility (j : json) (p : product) (n : nat) :
  is_entry j p ->
  own j "compatibility" = None ->
  expected_entry n p
  = "**" ++ render n ++ ". " ++ p_name p ++ "**" ++ LF
    ++ "   ID: " ++ p_id p ++ LF
    ++ "   Price: $" ++ p_price p ++ LF
    ++ "   Description: " ++ p_description p ++ LF
    ++ "   In Stock: " ++ (if p_inStock p then "Yes" else "No") ++ LF ++ LF.
Proof.
  intros (_ & _ & _ & _ & _ & Hcompat & _) Habsent. rewrite Habsent in Hcompat.
  apply joined_as_absent in Hcompat. unfold expected_entry.
  rewrite Hcompat. reflexivity.
Qed.

Lemma step_without_tools (j : json) (s : guide_step) :
  is_step j s ->
  own j "tools" = None ->
  expected_step s
  = "**Step " ++ s_step s ++ ": " ++ s_instruction s ++ "**" ++ LF
    ++ tips_block (s_tips s) ++ warnings_block (s_warnings s) ++ LF.
Proof.
  intros (_ & _ & _ & Htools & _) Habsent. rewrite Habsent in Htools.
  apply joined_as_absent in Htools. unfold expected_step.
  rewrite Htools. reflexivity.
Qed.

Lemma step_without_tips (j : json) (s : guide_step) :
  is_step j s ->
  own j "tips" = None ->
  expected_step s
  = "**Step " ++ s_step s ++ ": " ++ s_instruction s ++ "**" ++ LF
    ++ tools_line (s_tools s) ++ warnings_block (s_warnings s) ++ LF.
Proof.
  intros (_ & _ & _ & _ & Htips & _) Habsent. rewrite Habsent in Htips.
  apply listed_as_absent in Htips. unfold expected_step.
  rewrite Htips. reflexivity.
Qed.

Lemma step_without_warnings (j : json) (s : guide_step) :
  is_step j s ->
  own j "warnings" = None ->
  expected_step s
  = "**Step " ++ s_step s ++ ": " ++ s_instruction s ++ "**" ++ LF
    ++ tools_line (s_tools s) ++ tips_block (s_tips s) ++ LF.
Proof.
  intros (_ & _ & _ & _ & _ & Hwarnings) Habsent.
  rewrite Habsent in Hwarnings.
  apply listed_as_absent in Hwarnings. unfold expected_step.
  rewrite Hwarnings. reflexivity.
Qed.

Lemma solution_without_parts (j : json) (o : solution) (n : nat) :
  is_solution j o ->
  own j "recommendedParts" = None ->
  expected_solution n o
  = "**Solution " ++ render n ++ ": " ++ o_title o ++ "**" ++ LF
    ++ numbered_steps 1 (o_steps o)
    ++ "   ⏱️ Estimated Time: " ++ o_estimatedTime o ++ " minutes" ++ LF
    ++ LF.
Proof.
  intros (_ & _ & _ & _ & Hparts) Habsent. rewrite Habsent in Hparts.
  apply joined_as_absent in Hparts. unfold expected_solution.
  rewrite Hparts. reflexivity.
Qed.

(** ** The normaliser, exactly *)

(** C1 (as stated) fails.  The normaliser throws when [response] is
    missing, when [products] is no array, when an item of the list is
    [null], when an optional list of an item is no array (here [tools], a
    string), when a content that is to be printed cannot be converted to a
    string, and on [null] itself.  It returns the empty string for an empty
    [content] under the [text] tag, and a number, not a string, when the
    [content] of an empty listing or the message of a failed payload is
    one. *)
Lemma missing_response_throws :
  formatBackendResponse only_success
  = Throw (TypeError "Cannot read properties of undefined (reading 'type')")
  /\ formatBackendResponse empty_text = Ok (assistant (str ""))
  /\ formatBackendResponse products_not_a_list
     = Throw (TypeError "data.products.forEach is not a function")
  /\ formatBackendResponse hole_in_the_list
     = Throw (TypeError "Cannot read properties of null (reading 'name')")
  /\ formatBackendResponse tools_not_a_list
     = Throw (TypeError "step.tools.join is not a function")
  /\ formatBackendResponse content_not_printable
     = Throw (TypeError "Cannot convert object to primitive value")
  /\ formatBackendResponse JNull
     = Throw (TypeError "Cannot read properties of null (reading 'success')")
  /\ formatBackendResponse content_not_a_text
     = Ok (assistant (Some (JNum "404")))
  /\ formatBackendResponse message_not_a_text
     = Ok (assistant (Some (JNum "500"))).
Proof. repeat split; reflexivity. Qed.

(** C1, amended.  The normaliser returns a string that is not empty, and
    does not throw, for the payloads in shape and for no other: every other
    payload makes it throw or return something that is not such a string.
    In shape are the failed payloads (any parsed value but [null] whose
    [success] is falsy) whose [error?.message] is falsy or a string, and the
    successful ones whose [response] is there, is not [null], and is
    displayed by its tag: a listing or guide with nothing in its list and a
    content that is falsy or a string, or with items that all print and a
    content (and time and difficulty) that can be converted to a string;
    advice whose content can be converted and whose causes and solutions
    all print; an [error] whose content can be converted; and under any
    other tag, or none, a content that is a string and not the empty
    one. *)
Theorem only_payloads_in_shape_display (data : json) :
  displays (formatBackendResponse data) <-> in_shape data.
Proof. exact (displays_in_shape data). Qed.

Lemma only_payloads_in_shape_display_witness :
  displays (formatBackendResponse found_widget)
  /\ displays (formatBackendResponse no_steps).
Proof.
  split.
  - apply (proj2 (only_payloads_in_shape_display found_widget)).
    split; [discriminate|]. exists widget_response.
    split; [reflexivity|]. split; [discriminate|].
    right. split; [exists "Found 1"; reflexivity|].
    exists widget_listing, [widget], [the_widget].
    split; [reflexivity|]. split; [reflexivity|]. split; [discriminate|].
    constructor; [|constructor].
    split; [discriminate|]. repeat (split; [reflexivity|]).
    split; [|reflexivity]. left. split; [left|]; reflexivity.
  - apply (proj2 (only_payloads_in_shape_display no_steps)).
    split; [discriminate|]. exists no_steps_response.
    split; [reflexivity|]. split; [discriminate|].
    left. split; [|left; reflexivity].
    right. eexists. split; [reflexivity|]. right. eexists.
    split; reflexivity.
Defined.

(** C2 (as stated) fails.  For [estimatedTime] and [difficulty]: the guide
    writes both lines whether the fields are there or not, and an absent
    one is printed as "undefined".  And for raising: a listing whose first
    product has no [compatibility] throws on the [null] after it, and a
    guide whose step has no [tips] and no [warnings] throws on its [tools],
    which is no array. *)
Lemma absent_time_prints_undefined :
  (exists s,
     formatBackendResponse guide_without_time = Ok (assistant (str s))
     /\ includes "Estimated Time: undefined minutes" s = true
     /\ includes "Difficulty: undefined" s = true)
  /\ own widget "compatibility" = None
  /\ formatBackendResponse hole_in_the_list
     = Throw (TypeError "Cannot read properties of null (reading 'name')")
  /\ formatBackendResponse tools_not_a_list
     = Throw (TypeError "step.tools.join is not a function").
Proof. split; [eexists|]; repeat split; reflexivity. Qed.

(** C2, amended.  An absent list ([compatibility]; [tools], [tips],
    [warnings]; [recommendedParts]) is gone through as no texts, and puts no
    other condition on its item.  A successful listing, guide or advice
    with items is normalised exactly when its content (for a guide, also
    its [estimatedTime] and [difficulty], an absent one printing as
    "undefined") can be converted to a string and every item prints; the
    result is then the content, (the two lines of the guide,) and one block
    per item, in order; and the block of an item in which a list is absent
    is the block without the line or section of that list. *)
Theorem absent_lists_are_left_out :
  (forall texts, joined_as None texts <-> texts = [])
  /\ (forall texts, listed_as None texts <-> texts = [])
  /\ (forall (j : json) (p : product) (n : nat),
        is_entry j p ->
        own j "compatibility" = None ->
        expected_entry n p
        = "**" ++ render n ++ ". " ++ p_name p ++ "**" ++ LF
          ++ "   ID: " ++ p_id p ++ LF
          ++ "   Price: $" ++ p_price p ++ LF
          ++ "   Description: " ++ p_description p ++ LF
          ++ "   In Stock: " ++ (if p_inStock p then "Yes" else "No")
          ++ LF ++ LF)
  /\ (forall (j : json) (s : guide_step),
        is_step j s ->
        (own j "tools" = None ->
         expected_step s
         = "**Step " ++ s_step s ++ ": " ++ s_instruction s ++ "**" ++ LF
           ++ tips_block (s_tips s) ++ warnings_block (s_warnings s) ++ LF)
        /\ (own j "tips" = None ->
            expected_step s
            = "**Step " ++ s_step s ++ ": " ++ s_instruction s ++ "**" ++ LF
              ++ tools_line (s_tools s) ++ warnings_block (s_warnings s)
              ++ LF)
        /\ (own j "warnings" = None ->
            expected_step s
            = "**Step " ++ s_step s ++ ": " ++ s_instruction s ++ "**" ++ LF
              ++ tools_line (s_tools s) ++ tips_block (s_tips s) ++ LF))
  /\ (forall (j : json) (o : solution) (n : nat),
        is_solution j o ->
        own j "recommendedParts" = None ->
        expected_solution n o
        = "**Solution " ++ render n ++ ": " ++ o_title o ++ "**" ++ LF
          ++ numbered_steps 1 (o_steps o)
          ++ "   ⏱️ Estimated Time: " ++ o_estimatedTime o ++ " minutes" ++ LF
          ++ LF)
  /\ (forall (data response d : json) (items : list json) (m : ChatMessage),
        truthy (own data "success") = true ->
        own data "response" = Some response ->
        own response "type" = str "product_results" ->
        own response "data" = Some d ->
        own d "products" = Some (JArr items) ->
        items <> [] ->
        formatBackendResponse data = Ok m
        <-> exists c ps,
              ToString (own response "content") = Ok c
              /\ Forall2 is_entry items ps
              /\ m = assistant (str (c ++ LF ++ LF ++ expected_entries 1 ps)))
  /\ (forall (data response d : json) (items : list json) (m : ChatMessage),
        truthy (own data "success") = true ->
        own data "response" = Some response ->
        own response "type" = str "installation_guide" ->
        own response "data" = Some d ->
        own d "steps" = Some (JArr items) ->
        items <> [] ->
        formatBackendResponse data = Ok m
        <-> exists c time difficulty ss,
              ToString (own response "content") = Ok c
              /\ ToString (own d "estimatedTime") = Ok time
              /\ ToString (own d "difficulty") = Ok difficulty
              /\ Forall2 is_step items ss
              /\ m = assistant (str (expected_guide c time difficulty ss)))
  /\ (forall (data response : json) (m : ChatMessage),
        truthy (own data "success") = true ->
        own data "response" = Some response ->
        own response "type" = str "troubleshooting" ->
        formatBackendResponse data = Ok m
        <-> exists c causes cs solutions os,
              ToString (own response "content") = Ok c
              /\ items_of (own response "data") "possibleCauses" causes
              /\ Forall2 is_cause causes cs
              /\ items_of (own response "data") "suggestedSolutions" solutions
              /\ Forall2 is_solution solutions os
              /\ m = assistant (str (expected_advice c cs os))).
Proof.
  split; [exact joined_as_absent|]. split; [exact listed_as_absent|].
  split; [exact entry_without_compatibility|].
  split.
  { intros j s Hs. split; [exact (step_without_tools j s Hs)|].
    split; [exact (step_without_tips j s Hs)
           |exact (step_without_warnings j s Hs)]. }
  split; [exact solution_without_parts|].
  split.
  { intros data response d items m Hsuccess Hresponse.
    exact (products_payload data response Hsuccess Hresponse d items m). }
  split.
  { intros data response d items m Hsuccess Hresponse.
    exact (guide_payload data response Hsuccess Hresponse d items m). }
  intros data response m Hsuccess Hresponse.
  exact (advice_payload data response Hsuccess Hresponse m).
Qed.

Lemma absent_lists_are_left_out_witness :
  own widget "compatibility" = None
  /\ formatBackendResponse found_widget
     = Ok (assistant (str ("Found 1" ++ LF ++ LF
                           ++ "**1. Widget**" ++ LF
                           ++ "   ID: W1" ++ LF
                           ++ "   Price: $9.99" ++ LF
                           ++ "   Description: A widget" ++ LF
                           ++ "   In Stock: Yes" ++ LF ++ LF))).
Proof.
  split; [reflexivity|].
  destruct absent_lists_are_left_out as (_ & _ & _ & _ & _ & Hlisting & _).
  apply (Hlisting found_widget widget_response widget_listing [widget]);
    try reflexivity; [discriminate|].
  exists "Found 1", [the_widget]. split; [reflexivity|].
  split; [|reflexivity].
  constructor; [|constructor].
  split; [discriminate|]. repeat (split; [reflexivity|]).
  split; [|reflexivity]. left. split; [left|]; reflexivity.
Defined.

(** X1.  A successful [installation_guide] payload is normalised to its
    content, a blank line, the lines of the estimated time and of the
    difficulty, a blank line, and one block per step, in the order of the
    list, whenever: its [steps] are an array with items; its content, its
    [estimatedTime] and its [difficulty] can be converted to strings (an
    absent one is, to "undefined"); and every step prints as a step: it is
    not [null], its [step] and [instruction] can be converted to strings,
    and each of its [tools], [tips] and [warnings] is skipped by the guard
    [x && x.length > 0] or is an array with items that can be converted to
    strings.  The block of a step is its heading, its tools on one line,
    its tips and its warnings as bullets, each only when there are any, and
    a blank line. *)
Theorem installation_guide_lists_every_step (data response d : json)
    (items : list json) (ss : list guide_step) (c time difficulty : string) :
  truthy (own data "success") = true ->
  own data "response" = Some response ->
  own response "type" = str "installation_guide" ->
  ToString (own response "content") = Ok c ->
  own response "data" = Some d ->
  own d "steps" = Some (JArr items) ->
  items <> [] ->
  ToString (own d "estimatedTime") = Ok time ->
  ToString (own d "difficulty") = Ok difficulty ->
  Forall2 is_step items ss ->
  formatBackendResponse data
  = Ok (assistant (str (c ++ LF ++ LF
                        ++ "⏱️ Estimated Time: " ++ time ++ " minutes" ++ LF
                        ++ "📊 Difficulty: " ++ difficulty ++ LF ++ LF
                        ++ expected_steps ss))).
Proof.
  intros Hsuccess Hresponse Htype Hc Hd Hlist Hitems Htime Hdifficulty Hss.
  assert (Hnull : response <> JNull) by exact (own_not_null _ _ _ Htype).
  rewrite (dispatch data response Hsuccess Hresponse Hnull), Htype.
  change (format_by_type (Some response) (str "installation_guide"))
    with (formatInstallationGuide (Some response)).
  rewrite (formatInstallationGuide_items response d items ss c time
             difficulty Hnull Hc Hd Hlist Hitems Htime Hdifficulty Hss).
  reflexivity.
Qed.

Lemma installation_guide_lists_every_step_witness :
  formatBackendResponse filter_guide
  = Ok (assistant (str ("Replacing the filter" ++ LF ++ LF
                        ++ "⏱️ Estimated Time: 15 minutes" ++ LF
                        ++ "📊 Difficulty: easy" ++ LF ++ LF
                        ++ "**Step 1: Unplug the refrigerator**" ++ LF
                        ++ "   🔧 Tools needed: Gloves, Towel" ++ LF
                        ++ "   ⚠️ Warnings:" ++ LF
                        ++ "      - Mind the water line" ++ LF ++ LF
                        ++ "**Step 2: Twist the filter out**" ++ LF
                        ++ "   💡 Tips:" ++ LF
                        ++ "      - Turn left" ++ LF ++ LF))).
Proof.
  apply (installation_guide_lists_every_step filter_guide filter_response
           filter_data [filter_step_1; filter_step_2] the_filter_steps
           "Replacing the filter" "15" "easy");
    try reflexivity; [discriminate|].
  constructor; [|constructor; [|constructor]].
  - split; [discriminate|]. split; [reflexivity|]. split; [reflexivity|].
    split; [right; eexists; split; [reflexivity|];
            split; [discriminate|reflexivity]|].
    split; [left; split; [left|]; reflexivity|].
    right. eexists. split; [reflexivity|]. split; [discriminate|].
    repeat constructor.
  - split; [discriminate|]. split; [reflexivity|]. split; [reflexivity|].
    split; [left; split; [right; eexists; split|]; reflexivity|].
    split; [|left; split; [left|]; reflexivity].
    right. eexists. split; [reflexivity|]. split; [discriminate|].
    repeat constructor.
Defined.

(** X2.  A successful [troubleshooting] payload is normalised to its
    content, a blank line, the section of the possible causes and the
    section of the suggested solutions, whenever: its content can be
    converted to a string; each of [possibleCauses] and [suggestedSolutions]
    is skipped by the guard [data && data.key && data.key.length > 0] or is
    an array with items; every cause is not [null] and has a [cause],
    [probability], [description] and [fix] that can be converted to
    strings; and every solution is not [null], has a [title] and an
    [estimatedTime] that can be converted, and a [steps] and a
    [recommendedParts] that are each skipped by the guard
    [x && x.length > 0] or an array with items that can be converted.  A
    section is its heading and one numbered entry per item, in the order of
    the list, and is left out when there is no item; the steps of a
    solution are numbered from 1. *)
Theorem troubleshooting_lists_causes_and_solutions (data response : json)
    (causes solutions : list json) (cs : list cause) (os : list solution)
    (c : string) :
  truthy (own data "success") = true ->
  own data "response" = Some response ->
  own response "type" = str "troubleshooting" ->
  ToString (own response "content") = Ok c ->
  items_of (own response "data") "possibleCauses" causes ->
  Forall2 is_cause causes cs ->
  items_of (own response "data") "suggestedSolutions" solutions ->
  Forall2 is_solution solutions os ->
  formatBackendResponse data
  = Ok (assistant (str (c ++ LF ++ LF
                        ++ causes_section cs ++ solutions_section os))).
Proof.
  intros Hsuccess Hresponse Htype Hc Hcauses Hcs Hsolutions Hos.
  assert (Hnull : response <> JNull) by exact (own_not_null _ _ _ Htype).
  rewrite (dispatch data response Hsuccess Hresponse Hnull), Htype.
  change (format_by_type (Some response) (str "troubleshooting"))
    with (formatTroubleshooting (Some response)).
  rewrite (formatTroubleshooting_items response c causes solutions cs os
             Hnull Hc Hcauses Hcs Hsolutions Hos).
  reflexivity.
Qed.

Lemma troubleshooting_lists_causes_and_solutions_witness :
  formatBackendResponse ice_advice
  = Ok (assistant (str ("The ice maker is not working" ++ LF ++ LF
                        ++ "**Possible Causes:**" ++ LF ++ LF
                        ++ "1. **Frozen fill tube** (high probability)" ++ LF
                        ++ "   Description: Ice blocks the tube" ++ LF
                        ++ "   Fix: Thaw the tube" ++ LF ++ LF
                        ++ "**Suggested Solutions:**" ++ LF ++ LF
                        ++ "**Solution 1: Thaw and reset**" ++ LF
                        ++ "   1. Unplug" ++ LF
                        ++ "   2. Thaw the tube" ++ LF
                        ++ "   ⏱️ Estimated Time: 30 minutes" ++ LF
                        ++ "   🛠️ Recommended Parts: PS11752778" ++ LF ++ LF
                        ++ "**Solution 2: Call service**" ++ LF
                        ++ "   ⏱️ Estimated Time: 5 minutes" ++ LF ++ LF))).
Proof.
  apply (troubleshooting_lists_causes_and_solutions ice_advice ice_response
           [ice_cause] [ice_solution_1; ice_solution_2]
           the_ice_causes the_ice_solutions "The ice maker is not working");
    try reflexivity.
  - right. exists ice_data. split; [reflexivity|].
    split; [reflexivity|discriminate].
  - constructor; [|constructor].
    split; [discriminate|]. repeat split; reflexivity.
  - right. exists ice_data. split; [reflexivity|].
    split; [reflexivity|discriminate].
  - constructor; [|constructor; [|constructor]].
    + split; [discriminate|]. split; [reflexivity|].
      split; [right; eexists; split; [reflexivity|];
              split; [discriminate|repeat constructor]|].
      split; [reflexivity|].
      right. eexists. split; [reflexivity|].
      split; [discriminate|reflexivity].
    + split; [discriminate|]. split; [reflexivity|].
      split; [left; split; [left|]; reflexivity|].
      split; [reflexivity|]. left. split; [left|]; reflexivity.
Defined.

(** ** Turns in two steps *)

(** A turn is its call followed by its resumption, when nothing happens in
    between. *)
Lemma getAIMessage_in_two_steps (userQuery : string)
    (network : request -> reply) (p : page) :
  getAIMessage userQuery network p
  = getAIMessage_resumes (network (snd (getAIMessage_calls userQuery p)))
      (fst (getAIMessage_calls userQuery p)).
Proof. reflexivity. Qed.

Lemma settles_posts (r : reply) (p : page) :
  posted (fst (settles r p)) = posted p.
Proof.
  unfold settles.
  destruct r as [e|status [data|e]]; [reflexivity| |];
    destruct (negb (ok status)); try reflexivity.
  destruct (get (Some data) "sessionId") as [sid|e]; [|reflexivity].
  destruct (truthy sid); reflexivity.
Qed.

Lemma getAIMessage_resumes_posts (r : reply) (p : page) :
  posted (fst (getAIMessage_resumes r p)) = posted p.
Proof.
  rewrite <- (settles_posts r p). unfold getAIMessage_resumes.
  destruct (settles r p) as [p' [m|e]]; reflexivity.
Qed.

Lemma getAIMessage_resumes_role (r : reply) (p : page) :
  role (snd (getAIMessage_resumes r p)) = "assistant".
Proof.
  unfold getAIMessage_resumes.
  destruct (settles r p) as [p' [m|e]] eqn:Hsettles; [|reflexivity].
  unfold settles in Hsettles.
  repeat match type of Hsettles with
         | context [match ?x with _ => _ end] => destruct x
         end;
    try discriminate;
    injection Hsettles as _ Hm;
    apply (formatBackendResponse_role _ _ Hm).
Qed.

Lemma getAIMessage_resumes_adopts (status : nat) (data : json) (p : page) :
  ok status = true ->
  truthy (own data "sessionId") = true ->
  getCurrentSessionId
    (fst (getAIMessage_resumes (Response status (Parsed data)) p))
  = own data "sessionId".
Proof.
  intros Hok Hsid. unfold getAIMessage_resumes, settles.
  rewrite Hok. cbn [negb].
  rewrite (get_own data "sessionId") by (intros ->; discriminate).
  rewrite Hsid. destruct (formatBackendResponse data); reflexivity.
Qed.

Lemma getAIMessage_resumes_keeps_or_adopts (r : reply) (p : page) :
  getCurrentSessionId (fst (getAIMessage_resumes r p))
  = getCurrentSessionId p
  \/ exists status data,
       r = Response status (Parsed data)
       /\ ok status = true
       /\ truthy (own data "sessionId") = true
       /\ getCurrentSessionId (fst (getAIMessage_resumes r p))
          = own data "sessionId".
Proof.
  destruct r as [e|status [data|e]];
    [left; reflexivity| |
     left; unfold getAIMessage_resumes, settles;
     destruct (negb (ok status)); reflexivity].
  destruct (ok status) eqn:Hok;
    [|left; unfold getAIMessage_resumes, settles; rewrite Hok; reflexivity].
  destruct (truthy (own data "sessionId")) eqn:Hsid.
  - right. exists status, data. repeat (split; [auto|]).
    exact (getAIMessage_resumes_adopts status data p Hok Hsid).
  - left. unfold getAIMessage_resumes, settles. rewrite Hok. cbn [negb].
    destruct (null_or_not data) as [->|Hnull]; [reflexivity|].
    rewrite (get_own data "sessionId" Hnull), Hsid.
    destruct (formatBackendResponse data); reflexivity.
Qed.

(** X6.  [resetSession] puts [null] in place of the session id, and a turn
    that is begun after it posts [null].  It does not end a turn that is
    pending: such a turn posted the id that was there before the reset, and
    when its answer comes after the reset, with an OK status and a body that
    names a truthy [sessionId], the page holds that id again and the next
    turn posts it; this is the id from before the reset when the backend
    sends back the id it was sent.  After a reset, the id is [null] until an
    answer names one. *)
Theorem pending_turn_overrides_reset (userQuery nextQuery : string)
    (p : page) (status : nat) (data : json) :
  ok status = true ->
  truthy (own data "sessionId") = true ->
  let started := getAIMessage_calls userQuery p in
  let cleared := resetSession (fst started) in
  let answered :=
    fst (getAIMessage_resumes (Response status (Parsed data)) cleared) in
  sessionId (snd started) = getCurrentSessionId p
  /\ getCurrentSessionId cleared = null
  /\ sessionId (snd (getAIMessage_calls nextQuery cleared)) = null
  /\ getCurrentSessionId answered = own data "sessionId"
  /\ sessionId (snd (getAIMessage_calls nextQuery answered))
     = own data "sessionId"
  /\ (own data "sessionId" = sessionId (snd started) ->
      getCurrentSessionId answered = getCurrentSessionId p)
  /\ (forall r,
        getCurrentSessionId (fst (getAIMessage_resumes r cleared)) = null
        \/ exists status' data',
             r = Response status' (Parsed data')
             /\ ok status' = true
             /\ truthy (own data' "sessionId") = true
             /\ getCurrentSessionId (fst (getAIMessage_resumes r cleared))
                = own data' "sessionId").
Proof.
  intros Hok Hsid started cleared answered.
  assert (Hanswered : getCurrentSessionId answered = own data "sessionId")
    by exact (getAIMessage_resumes_adopts status data cleared Hok Hsid).
  split; [reflexivity|]. split; [reflexivity|]. split; [reflexivity|].
  split; [exact Hanswered|].
  split; [exact Hanswered|].
  split; [intro Hecho; rewrite Hanswered, Hecho; reflexivity|].
  intro r. exact (getAIMessage_resumes_keeps_or_adopts r cleared).
Qed.

Lemma pending_turn_overrides_reset_witness :
  getCurrentSessionId
    (fst (getAIMessage_resumes
            (echo (snd (getAIMessage_calls "and now?" in_session)))
            (resetSession (fst (getAIMessage_calls "and now?" in_session)))))
  = getCurrentSessionId in_session.
Proof.
  apply (pending_turn_overrides_reset "and now?" "again" in_session 200
           (JObj [("success", JBool true); ("sessionId", JStr "s-42");
                  ("response",
                   JObj [("type", JStr "text"); ("content", JStr "Hello")])]));
    reflexivity.
Defined.

(** ** The window, with turns in flight *)

(** A send that is answered before anything else happens is [handleSend]
    taken as one step. *)
Lemma handleSend_in_two_steps (network : request -> reply) (w : window)
    (p : page) :
  trim (input w) <> "" ->
  let started :=
    handleSend_starts {| view := w; store := p; pending := [] |} in
  let finished :=
    handleSend_finishes 0
      (network {| message := trim (input w);
                  sessionId := currentSessionId p |})
      started in
  (view finished, store finished) = handleSend network w p
  /\ pending finished = [].
Proof.
  intros Hu started finished. subst finished started.
  unfold handleSend_starts, handleSend, handleSend_finishes. cbv zeta.
  cbn [view store pending input messages].
  destruct (String.eqb_spec (trim (input w)) "") as [H|_]; [contradiction|].
  rewrite getAIMessage_in_two_steps.
  cbn [getAIMessage_calls fst snd view store pending input messages].
  destruct (getAIMessage_resumes _ _) as [p' m].
  cbn [view store pending]. split; reflexivity.
Qed.

Lemma asked_user (ms : list ChatMessage) (text : string) :
  asked (ms ++ [user text]) = (asked ms ++ [str text])%list.
Proof. unfold asked. rewrite filter_app, map_app. reflexivity. Qed.

Lemma asked_assistant (ms : list ChatMessage) (m : ChatMessage) :
  role m = "assistant" -> asked (ms ++ [m]) = asked ms.
Proof.
  intro Hm. unfold asked. rewrite filter_app, map_app. cbn [filter].
  rewrite Hm. cbn. apply List.app_nil_r.
Qed.

Section Invariant.

(** What every window that can be reached satisfies. *)
Let invariant (a : component) : Prop :=
  (idle a \/ exists r, waiting a r)
  /\ asked (messages (view a))
     = map (fun r => str (message r)) (List.rev (posted (store a))).

Lemma mounted_component_invariant : invariant mounted_component.
Proof.
  split; [|reflexivity]. left. split; [reflexivity|]. split; [reflexivity|].
  exists []. split; [constructor|reflexivity].
Qed.

Lemma handleSend_starts_invariant (a : component) :
  idle a ->
  asked (messages (view a))
  = map (fun r => str (message r)) (List.rev (posted (store a))) ->
  invariant (handleSend_starts a).
Proof.
  intros Hidle Hasked. unfold handleSend_starts. cbv zeta.
  destruct (trim (input (view a)) =? ""); [split; [left|]; assumption|].
  destruct Hidle as (Hpending & _ & turns & Hturns & Hmessages).
  cbn [getAIMessage_calls]. split.
  - right. exists {| message := trim (input (view a));
                     sessionId := currentSessionId (store a) |}.
    cbn [view store pending messages input isLoading post posted message].
    rewrite Hpending, Hmessages.
    split; [reflexivity|]. split; [reflexivity|]. split; [reflexivity|].
    split; [reflexivity|].
    exists turns. split; [assumption|]. rewrite <- app_assoc. reflexivity.
  - cbn [view store messages post posted List.rev].
    change ({| role := "user"; content := str (trim (input (view a))) |})
      with (user (trim (input (view a)))).
    rewrite asked_user, Hasked, map_app. reflexivity.
Qed.

Lemma handleSend_finishes_invariant (a : component) (r0 : request) (r : reply) :
  waiting a r0 ->
  asked (messages (view a))
  = map (fun r => str (message r)) (List.rev (posted (store a))) ->
  invariant (handleSend_finishes 0 r a).
Proof.
  intros (Hpending & _ & _ & _ & turns & Hturns & Hmessages) Hasked.
  unfold handleSend_finishes.
  pose proof (getAIMessage_resumes_posts r (store a)) as Hposted.
  pose proof (getAIMessage_resumes_role r (store a)) as Hrole.
  destruct (getAIMessage_resumes r (store a)) as [p' m].
  cbn [fst snd] in Hposted, Hrole. split.
  - left. cbn [view store pending messages input isLoading].
    rewrite Hpending, Hmessages.
    split; [reflexivity|]. split; [reflexivity|].
    exists (turns ++ [user (message r0); m])%list. split.
    + apply dialogue_app; [assumption|].
      constructor; [reflexivity|assumption|constructor].
    + repeat rewrite <- app_assoc. reflexivity.
  - cbn [view store messages]. rewrite (asked_assistant _ _ Hrole), Hposted.
    exact Hasked.
Qed.

Lemma handle_invariant (e : event) (a : component) :
  invariant a -> invariant (handle e a).
Proof.
  intros [Hstate Hasked].
  destruct e as [text|key shiftKey| |k r]; unfold handle.
  - destruct (isLoading (view a)) eqn:Hloading; [split; assumption|].
    split; [|exact Hasked].
    destruct Hstate as [(Hpending & _ & Hturns) | (r & _ & H & _)];
      [|congruence].
    left. split; [exact Hpending|]. split; [reflexivity|exact Hturns].
  - destruct (isLoading (view a)) eqn:Hloading; [split; assumption|].
    unfold handleKeyPress.
    destruct ((key =? "Enter") && negb shiftKey && negb (isLoading (view a)));
      [|split; assumption].
    destruct Hstate as [Hidle | (r & _ & H & _)]; [|congruence].
    exact (handleSend_starts_invariant a Hidle Hasked).
  - destruct (isLoading (view a)) eqn:Hloading; [split; assumption|].
    cbn [orb].
    destruct (trim (input (view a)) =? ""); [split; assumption|].
    destruct Hstate as [Hidle | (r & _ & H & _)]; [|congruence].
    exact (handleSend_starts_invariant a Hidle Hasked).
  - destruct (nth_error (pending a) k) eqn:Hk; [|split; assumption].
    destruct Hstate as [(Hpending & _) | (sent & Hwaiting)].
    + rewrite Hpending in Hk. destruct k; discriminate.
    + assert (k = 0) as ->.
      { destruct Hwaiting as (Hpending & _). rewrite Hpending in Hk.
        destruct k as [|[|k]]; [reflexivity|discriminate..]. }
      exact (handleSend_finishes_invariant a sent r Hwaiting Hasked).
Qed.

Lemma run_invariant (events : list event) :
  forall a, invariant a -> invariant (run events a).
Proof.
  induction events as [|e events IH]; intros a Ha; [exact Ha|].
  cbn [run]. apply IH, handle_invariant, Ha.
Qed.

Lemma reachable_invariant (events : list event) :
  (idle (run events mounted_component) \/ exists r, waiting (run events mounted_component) r)
  /\ asked (messages (view (run events mounted_component)))
     = map (fun r => str (message r))
         (List.rev (posted (store (run events mounted_component)))).
Proof. exact (run_invariant events mounted_component mounted_component_invariant). Qed.

End Invariant.

Lemma loading_ignores_the_user (a : component) (text key : string)
    (shiftKey : bool) :
  isLoading (view a) = true ->
  handle (Change text) a = a
  /\ handle (KeyPress key shiftKey) a = a
  /\ handle Click a = a.
Proof. intro H. unfold handle. rewrite H. repeat split. Qed.

(** X8.  Whatever the user does and whenever the answers come (or do not
    come), the window that was mounted is either between turns or waiting
    for one answer.  Between turns nothing is pending, [isLoading] is off
    and the messages are the greeting and whole turns, a user's message and
    the assistant's answer to it.  While it waits, exactly one request is
    pending, the last that was posted; [isLoading] is on, the input is
    empty, and the messages are the greeting, whole turns and the user's
    message that went out with the request; typing, keys and clicks then
    change nothing, so no second request goes out before the answer, and
    the window waits for ever when there is none.  Either way, what the
    user said is what was posted, message by message and in order. *)
Theorem one_turn_at_a_time (events : list event) :
  (idle (run events mounted_component)
   \/ exists r, waiting (run events mounted_component) r)
  /\ asked (messages (view (run events mounted_component)))
     = map (fun r => str (message r))
         (List.rev (posted (store (run events mounted_component))))
  /\ (forall r,
        waiting (run events mounted_component) r ->
        forall more,
          (forall e, In e more ->
             exists text key shiftKey,
               e = Change text \/ e = KeyPress key shiftKey \/ e = Click) ->
          run (events ++ more) mounted_component = run events mounted_component)
  /\ (forall r answer,
        waiting (run events mounted_component) r ->
        idle (run (events ++ [Settled 0 answer]) mounted_component)).
Proof.
  destruct (reachable_invariant events) as [Hstate Hasked].
  split; [exact Hstate|]. split; [exact Hasked|].
  assert (Hrun : forall more a, run (events ++ more) a = run more (run events a)).
  { clear. induction events as [|e events IH]; intros more a; [reflexivity|].
    cbn [run List.app]. apply IH. }
  split.
  - intros r (_ & Hloading & _) more. rewrite Hrun.
    generalize dependent (run events mounted_component). intros a _ _ Hloading.
    induction more as [|e more IH]; intro Huser; [reflexivity|].
    cbn [run].
    destruct (Huser e (or_introl eq_refl)) as (text & key & shiftKey & He).
    destruct (loading_ignores_the_user a text key shiftKey Hloading)
      as (Hchange & Hkey & Hclick).
    assert (Hsame : handle e a = a)
      by (destruct He as [->|[->| ->]]; assumption).
    rewrite Hsame. apply IH. intros e' He'. apply Huser. right. exact He'.
  - intros r answer Hwaiting. rewrite Hrun. cbn [run].
    assert (Hsettled : handle (Settled 0 answer) (run events mounted_component)
                       = handleSend_finishes 0 answer (run events mounted_component)).
    { unfold handle. destruct Hwaiting as (Hpending & _).
      rewrite Hpending. reflexivity. }
    rewrite Hsettled.
    destruct (reachable_invariant (events ++ [Settled 0 answer]))
      as [[Hidle | (r' & Hpending' & _)] _];
      rewrite Hrun in *; cbn [run] in *; rewrite Hsettled in *.
    + exact Hidle.
    + exfalso. revert Hpending'. unfold handleSend_finishes.
      destruct (getAIMessage_resumes answer _) as [p' m].
      cbn [pending]. destruct Hwaiting as (Hpending & _). rewrite Hpending.
      discriminate.
Qed.

Lemma one_turn_at_a_time_witness :
  waiting (run [Change "  hello there "; Click] mounted_component)
    {| message := "hello there"; sessionId := null |}
  /\ run ([Change "  hello there "; Click]
          ++ [Change "again"; Click; KeyPress "Enter" false])
       mounted_component
     = run [Change "  hello there "; Click] mounted_component
  /\ idle (run ([Change "  hello there "; Click] ++ [Settled 0 (echo
            {| message := "hello there"; sessionId := null |})])
             mounted_component).
Proof.
  assert (Hwaiting :
            waiting (run [Change "  hello there "; Click] mounted_component)
              {| message := "hello there"; sessionId := null |}).
  { split; [reflexivity|]. split; [reflexivity|]. split; [reflexivity|].
    split; [reflexivity|]. exists []. split; [constructor|reflexivity]. }
  split; [exact Hwaiting|].
  destruct (one_turn_at_a_time [Change "  hello there "; Click])
    as (_ & _ & Hignored & Hanswered).
  split.
  - apply (Hignored _ Hwaiting).
    intros e [<-|[<-|[<-|[]]]];
      exists "again", "Enter", false; auto.
  - exact (Hanswered _ _ Hwaiting).
Defined.
